(** * Little Lemon API: cart, order and reservation logic

    A shallow embedding of [restaurant/models.py], [restaurant/serializers.py],
    [restaurant/permissions.py] and [restaurant/views.py].

    Conventions of the embedding.
    - A [DecimalField(max_digits=10, decimal_places=2)] is a [Z] counting
      hundredths (12.99 is 1299): sums and products by an integer are exact.
    - A [DateField] is a [Z] (proleptic ordinal of the day); a [TimeField] is
      the record [time] compared field by field as Python does.
    - A table is the list of its rows in insertion order together with the
      next primary key of its sequence.
    - A view returns an [Outcome]: a response with its status code and error
      detail, or an exception that no handler catches (a server error).
    - [request.user] is an authenticated user; [request.data] is a dictionary
      of primitive values after the parser has read them. *)

From Stdlib Require Import ZArith List String Bool Lia.
Import ListNotations.
Local Open Scope Z_scope.

(** ** Primitive values, responses and exceptions *)

Inductive Value :=
| VNull
| VBool (b : bool)
| VInt (n : Z)
| VStr (s : string)
| VDec (hundredths : Z)
| VDate (d : Z)
| VTime (h m s us : Z).

(** [request.data]: a dictionary with string keys. *)
Definition Data := list (string * Value).

Fixpoint lookup (d : Data) (k : string) : option Value :=
  match d with
  | [] => None
  | (k', v) :: d' => if String.eqb k k' then Some v else lookup d' k
  end.

(** ['k' in request.data] *)
Definition contains (d : Data) (k : string) : bool :=
  match lookup d k with Some _ => true | None => false end.

(** [request.data.get(k)]: a missing key reads as [None]. *)
Definition data_get (d : Data) (k : string) : Value :=
  match lookup d k with Some v => v | None => VNull end.

Inductive Exn :=
| TypeError
| KeyError
| ValueError
| IntegrityError
| DatabaseError.

Definition Errors := list (string * string).

Inductive Outcome :=
| Response (status : Z) (detail : Errors)
| Unhandled (e : Exn).

Definition HTTP_200_OK := 200.
Definition HTTP_201_CREATED := 201.
Definition HTTP_204_NO_CONTENT := 204.
Definition HTTP_400_BAD_REQUEST := 400.
Definition HTTP_403_FORBIDDEN := 403.
Definition HTTP_404_NOT_FOUND := 404.

(** ** models.py *)

Module User.
Record t := mk { id : Z; is_staff : bool; groups : list string }.
(** [user.groups.filter(name=g).exists()] *)
Definition in_group (u : t) (g : string) : bool :=
  existsb (String.eqb g) (groups u).
End User.

Module Menu.
Record t := mk { id : Z; title : string; price : Z; featured : bool }.
End Menu.

Module Cart.
Record t := mk
  { id : Z; user : Z; menuitem : Z; quantity : Z; unit_price : Z; price : Z }.
End Cart.

Module Order.
(** [status]: [false] is pending, [true] is delivered. *)
Record t := mk
  { id : Z; user : Z; delivery_crew : option Z; status : bool;
    total : Z; date : Z }.
End Order.

Module OrderItem.
Record t := mk
  { id : Z; order : Z; menuitem : Z; quantity : Z; unit_price : Z; price : Z }.
End OrderItem.

Record time := mktime { hour : Z; minute : Z; second : Z; microsecond : Z }.

Module Reservation.
Record t := mk
  { id : Z; user : Z; name : string; number_of_guests : Z;
    reservation_date : Z; reservation_time : time;
    special_requests : string }.
End Reservation.

Record DB := mkDB
  { auth_user : list User.t;
    menu : list Menu.t;          menu_seq : Z;
    cart : list Cart.t;          cart_seq : Z;
    orders : list Order.t;       order_seq : Z;
    order_items : list OrderItem.t; order_item_seq : Z;
    reservations : list Reservation.t; reservation_seq : Z }.

Definition set_menu (db : DB) (rows : list Menu.t) (seq : Z) : DB :=
  mkDB (auth_user db) rows seq (cart db) (cart_seq db)
       (orders db) (order_seq db) (order_items db) (order_item_seq db)
       (reservations db) (reservation_seq db).

Definition set_cart (db : DB) (rows : list Cart.t) (seq : Z) : DB :=
  mkDB (auth_user db) (menu db) (menu_seq db) rows seq
       (orders db) (order_seq db) (order_items db) (order_item_seq db)
       (reservations db) (reservation_seq db).

Definition set_orders (db : DB) (rows : list Order.t) (seq : Z) : DB :=
  mkDB (auth_user db) (menu db) (menu_seq db) (cart db) (cart_seq db)
       rows seq (order_items db) (order_item_seq db)
       (reservations db) (reservation_seq db).

Definition set_order_items (db : DB) (rows : list OrderItem.t) (seq : Z) : DB :=
  mkDB (auth_user db) (menu db) (menu_seq db) (cart db) (cart_seq db)
       (orders db) (order_seq db) rows seq
       (reservations db) (reservation_seq db).

Definition set_reservations (db : DB) (rows : list Reservation.t) (seq : Z) : DB :=
  mkDB (auth_user db) (menu db) (menu_seq db) (cart db) (cart_seq db)
       (orders db) (order_seq db) (order_items db) (order_item_seq db)
       rows seq.

(** ** Queries on the cart table *)

(** [Cart.objects.filter(user=u)] *)
Definition Cart_filter_user (u : Z) (db : DB) : list Cart.t :=
  filter (fun c => Cart.user c =? u) (cart db).

(** [Menu.objects.all()] looked up by primary key. *)
Definition Menu_get (pk : Z) (db : DB) : option Menu.t :=
  find (fun m => Menu.id m =? pk) (menu db).

(** [unique_together = ['user', 'menuitem']] seen from a row [c]: another
    row (a different primary key) has the same pair. *)
Definition Cart_conflict (c : Cart.t) (rows : list Cart.t) : bool :=
  existsb (fun r => negb (Cart.id r =? Cart.id c)
                    && (Cart.user r =? Cart.user c)
                    && (Cart.menuitem r =? Cart.menuitem c)) rows.

(** [Cart.objects.create] on the validated data: the row takes the next primary
    key; the unique constraint of the table rejects a second row for the same
    (user, menuitem). *)
Definition Cart_objects_create (u mi q up p : Z) (db : DB) : Exn + (Cart.t * DB) :=
  let c := Cart.mk (cart_seq db) u mi q up p in
  if Cart_conflict c (cart db) then inl IntegrityError
  else inr (c, set_cart db (cart db ++ [c]) (cart_seq db + 1)).

(** [instance.save()] of an existing row: the row with that primary key is
    replaced in place, under the same unique constraint. *)
Definition Cart_save (c : Cart.t) (db : DB) : Exn + DB :=
  if Cart_conflict c (cart db) then inl IntegrityError
  else inr (set_cart db
              (map (fun r => if Cart.id r =? Cart.id c then c else r) (cart db))
              (cart_seq db)).

(** One writable field of a serializer read from the request data: a
    missing field is an error when it is required and the update is not
    partial. *)
Definition run_field {A} (fname : string) (required partial : bool)
    (f : Value -> string + A) (data : Data) : Errors * option A :=
  match lookup data fname with
  | Some v =>
      match f v with
      | inr a => ([], Some a)
      | inl e => ([(fname, e)], None)
      end
  | None =>
      if required && negb partial
      then ([(fname, "This field is required."%string)], None)
      else ([], None)
  end.

(** ** serializers.py: CartSerializer *)

(** [validated_data] of a CartSerializer: the keys that are present. *)
Record CartValidated := mkCartValidated
  { v_menuitem : option Menu.t; v_quantity : option Z }.

(** The serializer field built from [SmallIntegerField(validators=
    [MinValueValidator(1)])], then [validate_quantity]. *)
Definition validate_quantity (value : Z) : string + Z :=
  if value <? 1 then inl "Quantity must be at least 1"%string else inr value.

Definition quantity_field (v : Value) : string + Z :=
  match v with
  | VInt n =>
      if n <? 1 then inl "Ensure this value is greater than or equal to 1."%string
      else validate_quantity n
  | VNull => inl "This field may not be null."%string
  | _ => inl "A valid integer is required."%string
  end.

(** [PrimaryKeyRelatedField(queryset=Menu.objects.all())] *)
Definition menuitem_field (db : DB) (v : Value) : string + Menu.t :=
  match v with
  | VInt pk =>
      match Menu_get pk db with
      | Some m => inr m
      | None => inl "Invalid pk - object does not exist."%string
      end
  | VNull => inl "This field may not be null."%string
  | _ => inl "Incorrect type. Expected pk value."%string
  end.

(** [to_internal_value]: every writable field is validated and the errors
    are collected per field. [quantity] has a model default, so it is never
    required. *)
Definition Cart_to_internal_value (db : DB) (data : Data) (partial : bool)
  : Errors + CartValidated :=
  let '(e1, m) := run_field "menuitem" true partial (menuitem_field db) data in
  let '(e2, q) := run_field "quantity" false partial quantity_field data in
  match e1 ++ e2 with
  | [] => inr (mkCartValidated m q)
  | errs => inl errs
  end.

Definition unique_set_message : string :=
  "The fields user, menuitem must make a unique set.".

(** The unique-together validator that the serializer derives from
    [Cart.Meta.unique_together] (the read-only [user] field has a default, so
    both fields are known to the serializer). On update the missing field is
    read from the instance and the instance itself is left out. *)
Definition Cart_unique_validator (u : Z) (instance : option Cart.t)
    (vd : CartValidated) (db : DB) : bool :=
  let mi :=
    match v_menuitem vd, instance with
    | Some m, _ => Some (Menu.id m)
    | None, Some i => Some (Cart.menuitem i)
    | None, None => None
    end in
  match mi with
  | None => false
  | Some mi =>
      existsb (fun r => (Cart.user r =? u) && (Cart.menuitem r =? mi)
                        && match instance with
                           | Some i => negb (Cart.id r =? Cart.id i)
                           | None => true
                           end) (cart db)
  end.

(** [serializer.is_valid()] *)
Definition CartSerializer_is_valid (u : Z) (instance : option Cart.t)
    (db : DB) (data : Data) (partial : bool) : Errors + CartValidated :=
  match Cart_to_internal_value db data partial with
  | inl e => inl e
  | inr vd =>
      if Cart_unique_validator u instance vd db
      then inl [("non_field_errors"%string, unique_set_message)]
      else inr vd
  end.

(** [CartSerializer.create]: [validated_data['quantity']] raises [KeyError]
    when the request carried no quantity. *)
Definition CartSerializer_create (u : Z) (vd : CartValidated) (db : DB)
  : Exn + (Cart.t * DB) :=
  match v_menuitem vd, v_quantity vd with
  | Some menuitem, Some quantity =>
      Cart_objects_create u (Menu.id menuitem) quantity
        (Menu.price menuitem) (Menu.price menuitem * quantity) db
  | _, _ => inl KeyError
  end.

(** [CartSerializer.update], the assignments to [instance] before
    [instance.save()]. *)
Definition CartSerializer_update_fields (instance : Cart.t) (vd : CartValidated)
  : Cart.t :=
  let i1 :=
    match v_quantity vd with
    | Some q =>
        Cart.mk (Cart.id instance) (Cart.user instance) (Cart.menuitem instance)
                q (Cart.unit_price instance) (Cart.unit_price instance * q)
    | None => instance
    end in
  match v_menuitem vd with
  | Some m =>
      Cart.mk (Cart.id i1) (Cart.user i1) (Menu.id m)
              (Cart.quantity i1) (Menu.price m) (Menu.price m * Cart.quantity i1)
  | None => i1
  end.

Definition CartSerializer_update (instance : Cart.t) (vd : CartValidated)
    (db : DB) : Exn + (Cart.t * DB) :=
  let i := CartSerializer_update_fields instance vd in
  match Cart_save i db with
  | inl e => inl e
  | inr db' => inr (i, db')
  end.

(** ** views.py: CartViewSet *)

Module CartViewSet.

Definition get_queryset (request_user : User.t) (db : DB) : list Cart.t :=
  Cart_filter_user (User.id request_user) db.

(** [get_object()]: the row of the queryset with that primary key. *)
Definition get_object (request_user : User.t) (pk : Z) (db : DB)
  : option Cart.t :=
  find (fun c => Cart.id c =? pk) (get_queryset request_user db).

Definition create (request_user : User.t) (data : Data) (db : DB)
  : Outcome * DB :=
  match CartSerializer_is_valid (User.id request_user) None db data false with
  | inl errs => (Response HTTP_400_BAD_REQUEST errs, db)
  | inr vd =>
      match CartSerializer_create (User.id request_user) vd db with
      | inl e => (Unhandled e, db)
      | inr (_, db') => (Response HTTP_201_CREATED [], db')
      end
  end.

Definition retrieve (request_user : User.t) (pk : Z) (db : DB)
  : Outcome * DB :=
  match get_object request_user pk db with
  | None => (Response HTTP_404_NOT_FOUND [], db)
  | Some _ => (Response HTTP_200_OK [], db)
  end.

Definition update (request_user : User.t) (pk : Z) (data : Data)
    (partial : bool) (db : DB) : Outcome * DB :=
  match get_object request_user pk db with
  | None => (Response HTTP_404_NOT_FOUND [], db)
  | Some instance =>
      match CartSerializer_is_valid (User.id request_user) (Some instance)
              db data partial with
      | inl errs => (Response HTTP_400_BAD_REQUEST errs, db)
      | inr vd =>
          match CartSerializer_update instance vd db with
          | inl e => (Unhandled e, db)
          | inr (_, db') => (Response HTTP_200_OK [], db')
          end
      end
  end.

Definition destroy (request_user : User.t) (pk : Z) (db : DB)
  : Outcome * DB :=
  match get_object request_user pk db with
  | None => (Response HTTP_404_NOT_FOUND [], db)
  | Some instance =>
      (Response HTTP_204_NO_CONTENT [],
       set_cart db (filter (fun c => negb (Cart.id c =? Cart.id instance))
                           (cart db)) (cart_seq db))
  end.

(** [clear]: [Cart.objects.filter(user=request.user).delete()] *)
Definition clear (request_user : User.t) (db : DB) : Outcome * DB :=
  (Response HTTP_204_NO_CONTENT [],
   set_cart db (filter (fun c => negb (Cart.user c =? User.id request_user))
                       (cart db)) (cart_seq db)).

End CartViewSet.

(** ** Statements that may fail

    The views issue their ORM calls one after the other; no view opens a
    transaction, so each call is committed on its own. [Fault] says which
    call, if any, raises [DatabaseError]: [Some k] makes the call number [k]
    (counted from 0) of the request fail, [None] lets every call succeed.
    A call that raises leaves the tables as they were before that call. *)

Definition Fault := option nat.

Record World := mkWorld { world_db : DB; world_fault : Fault }.

Definition ORM (A : Type) : Type := World -> (Exn + A) * World.

Definition ret {A} (a : A) : ORM A := fun w => (inr a, w).

Definition bind {A B} (m : ORM A) (k : A -> ORM B) : ORM B :=
  fun w =>
    match m w with
    | (inl e, w') => (inl e, w')
    | (inr a, w') => k a w'
    end.

Notation "x <- m ;; k" := (bind m (fun x => k))
  (at level 61, m at next level, right associativity).
Notation "m ;;; k" := (bind m (fun _ => k))
  (at level 61, right associativity).

Definition execute {A} (stmt : DB -> Exn + (A * DB)) : ORM A :=
  fun w =>
    match world_fault w with
    | Some O => (inl DatabaseError, mkWorld (world_db w) None)
    | f =>
        let f' := match f with Some (S k) => Some k | _ => None end in
        match stmt (world_db w) with
        | inl e => (inl e, mkWorld (world_db w) f')
        | inr (a, d) => (inr a, mkWorld d f')
        end
    end.

Fixpoint for_each {A} (l : list A) (body : A -> ORM unit) : ORM unit :=
  match l with
  | [] => ret tt
  | x :: l' => body x ;;; for_each l' body
  end.

(** A view run as a request: an exception that escapes is a server error. *)
Definition run_view (v : ORM Outcome) (f : Fault) (db : DB) : Outcome * DB :=
  match v (mkWorld db f) with
  | (inr o, w) => (o, world_db w)
  | (inl e, w) => (Unhandled e, world_db w)
  end.

(** ** Queries on the order tables *)

(** Python's [sum]: a left fold from 0. *)
Definition sum (l : list Z) : Z := fold_left Z.add l 0.

(** [cart_items.exists()] *)
Definition Cart_exists (u : Z) (db : DB) : Exn + (bool * DB) :=
  inr (match Cart_filter_user u db with [] => false | _ => true end, db).

(** Evaluation of the queryset [cart_items]. *)
Definition Cart_select (u : Z) (db : DB) : Exn + (list Cart.t * DB) :=
  inr (Cart_filter_user u db, db).

(** [Order.objects.create(user=.., total=..)]: [status] and [delivery_crew]
    take their defaults, [date] is set on insertion. *)
Definition Order_objects_create (u total today : Z) (db : DB)
  : Exn + (Order.t * DB) :=
  let o := Order.mk (order_seq db) u None false total today in
  inr (o, set_orders db (orders db ++ [o]) (order_seq db + 1)).

(** [OrderItem.objects.create(..)] under
    [unique_together = ['order', 'menuitem']]. *)
Definition OrderItem_objects_create (o : Z) (ci : Cart.t) (db : DB)
  : Exn + (unit * DB) :=
  let it := OrderItem.mk (order_item_seq db) o (Cart.menuitem ci)
              (Cart.quantity ci) (Cart.unit_price ci) (Cart.price ci) in
  if existsb (fun r => (OrderItem.order r =? o)
                       && (OrderItem.menuitem r =? Cart.menuitem ci))
             (order_items db)
  then inl IntegrityError
  else inr (tt, set_order_items db (order_items db ++ [it])
                  (order_item_seq db + 1)).

(** [cart_items.delete()]: the queryset is the filter on the user. *)
Definition Cart_delete (u : Z) (db : DB) : Exn + (unit * DB) :=
  inr (tt, set_cart db (filter (fun c => negb (Cart.user c =? u)) (cart db))
             (cart_seq db)).

(** [serializer.data]: reads the order items of the order. *)
Definition Order_render (o : Z) (db : DB) : Exn + (unit * DB) := inr (tt, db).

(** [order.order_items]: the rows that reference the order. *)
Definition lines_of (db : DB) (o : Z) : list OrderItem.t :=
  filter (fun it => OrderItem.order it =? o) (order_items db).

(** [instance.save()] of an existing order. *)
Definition Order_save (o : Order.t) (db : DB) : DB :=
  set_orders db (map (fun r => if Order.id r =? Order.id o then o else r)
                     (orders db)) (order_seq db).

(** ** serializers.py: OrderSerializer *)

Record OrderValidated := mkOrderValidated
  { v_status : option bool; v_delivery_crew : option (option Z) }.

Definition TRUE_VALUES : list string :=
  ["t"; "T"; "y"; "Y"; "yes"; "Yes"; "YES"; "true"; "True"; "TRUE";
   "on"; "On"; "ON"; "1"]%string.

Definition FALSE_VALUES : list string :=
  ["f"; "F"; "n"; "N"; "no"; "No"; "NO"; "false"; "False"; "FALSE";
   "off"; "Off"; "OFF"; "0"]%string.

(** The serializer field of [Order.status], a non-null boolean. *)
Definition status_field (v : Value) : string + bool :=
  match v with
  | VNull => inl "This field may not be null."%string
  | VBool b => inr b
  | VInt 1 => inr true
  | VInt 0 => inr false
  | VStr s =>
      if existsb (String.eqb s) TRUE_VALUES then inr true
      else if existsb (String.eqb s) FALSE_VALUES then inr false
      else inl "Must be a valid boolean."%string
  | _ => inl "Must be a valid boolean."%string
  end.

(** [User.objects.filter(groups__name='Delivery crew')] by primary key. *)
Definition delivery_crew_get (pk : Z) (db : DB) : option User.t :=
  find (fun u => (User.id u =? pk) && User.in_group u "Delivery crew")
       (auth_user db).

(** [PrimaryKeyRelatedField(queryset=.., required=False, allow_null=True)] *)
Definition delivery_crew_field (db : DB) (v : Value) : string + option Z :=
  match v with
  | VNull => inr None
  | VInt pk =>
      match delivery_crew_get pk db with
      | Some u => inr (Some (User.id u))
      | None => inl "Invalid pk - object does not exist."%string
      end
  | _ => inl "Incorrect type. Expected pk value."%string
  end.

(** [OrderSerializer.is_valid()]: [delivery_crew] and [status] are the only
    writable fields and neither is required; every other key of the data is
    ignored. *)
Definition OrderSerializer_is_valid (db : DB) (data : Data) (partial : bool)
  : Errors + OrderValidated :=
  let '(e1, dc) := run_field "delivery_crew" false partial
                     (delivery_crew_field db) data in
  let '(e2, st) := run_field "status" false partial status_field data in
  match e1 ++ e2 with
  | [] => inr (mkOrderValidated st dc)
  | errs => inl errs
  end.

(** [ModelSerializer.update]: the validated keys are assigned, then saved. *)
Definition OrderSerializer_update_fields (instance : Order.t)
    (vd : OrderValidated) : Order.t :=
  Order.mk (Order.id instance) (Order.user instance)
    (match v_delivery_crew vd with Some dc => dc
                                 | None => Order.delivery_crew instance end)
    (match v_status vd with Some s => s | None => Order.status instance end)
    (Order.total instance) (Order.date instance).

(** ** permissions.py *)

Inductive Permission :=
| AllowAny
| IsAuthenticated
| IsAdminUser
| IsManager
| IsDeliveryCrew
| IsCustomer.

Definition has_permission (p : Permission) (u : User.t) : bool :=
  match p with
  | AllowAny => true
  | IsAuthenticated => true
  | IsAdminUser => User.is_staff u
  | IsManager => User.in_group u "Manager" || User.is_staff u
  | IsDeliveryCrew =>
      User.in_group u "Delivery crew" || User.in_group u "Manager"
      || User.is_staff u
  | IsCustomer =>
      negb (User.in_group u "Manager" || User.in_group u "Delivery crew")
      || User.is_staff u
  end.

(** [a | b] applied to two permission instances, as [get_permissions] of
    the order views writes it. The framework defines the operator on the
    metaclass of the permission classes, so it composes classes; an
    instance has no [__or__] and the expression raises [TypeError]. *)
Definition instance_or (a b : Permission) : Exn + Permission := inl TypeError.

(** [check_permissions]: the first permission that refuses ends the request. *)
Definition check_permissions (perms : Exn + list Permission) (u : User.t)
  : option Outcome :=
  match perms with
  | inl e => Some (Unhandled e)
  | inr ps =>
      if forallb (fun p => has_permission p u) ps then None
      else Some (Response HTTP_403_FORBIDDEN
                   [("detail"%string,
                     "You do not have permission to perform this action."%string)])
  end.

(** Python truth value of a primitive ([not x], [bool(x)]). *)
Definition truthy (v : Value) : bool :=
  match v with
  | VNull => false
  | VBool b => b
  | VInt n => negb (n =? 0)
  | VStr s => negb (String.eqb s "")
  | VDec n => negb (n =? 0)
  | VDate _ => true
  | VTime h m s us => true
  end.

(** ** views.py: OrderViewSet *)

Module OrderViewSet.

Definition get_queryset (request_user : User.t) (db : DB) : list Order.t :=
  if User.is_staff request_user || User.in_group request_user "Manager"
  then orders db
  else if User.in_group request_user "Delivery crew"
  then filter (fun o => match Order.delivery_crew o with
                        | Some d => d =? User.id request_user
                        | None => false
                        end) (orders db)
  else filter (fun o => Order.user o =? User.id request_user) (orders db).

Definition get_permissions (action : string) : Exn + list Permission :=
  if String.eqb action "create" then inr [IsAuthenticated]
  else if String.eqb action "update" || String.eqb action "partial_update"
  then match instance_or IsManager IsDeliveryCrew with
       | inl e => inl e
       | inr p => inr [p]
       end
  else if String.eqb action "assign_delivery_crew" then inr [IsManager]
  else inr [IsAuthenticated].

Definition get_object (request_user : User.t) (pk : Z) (db : DB)
  : option Order.t :=
  find (fun o => Order.id o =? pk) (get_queryset request_user db).

Definition cart_empty_error : Errors := [("error", "Cart is empty")]%string.

(** [create]: the order is built from the cart of [request.user]. *)
Definition create (request_user : User.t) (today : Z) : ORM Outcome :=
  let u := User.id request_user in
  nonempty <- execute (Cart_exists u) ;;
  if negb nonempty
  then ret (Response HTTP_400_BAD_REQUEST cart_empty_error)
  else
    cart_items <- execute (Cart_select u) ;;
    let total := sum (map Cart.price cart_items) in
    order <- execute (Order_objects_create u total today) ;;
    for_each cart_items
      (fun cart_item =>
         execute (OrderItem_objects_create (Order.id order) cart_item)) ;;;
    execute (Cart_delete u) ;;;
    execute (Order_render (Order.id order)) ;;;
    ret (Response HTTP_201_CREATED []).

Definition retrieve (request_user : User.t) (pk : Z) (db : DB)
  : Outcome * DB :=
  match get_object request_user pk db with
  | None => (Response HTTP_404_NOT_FOUND [], db)
  | Some _ => (Response HTTP_200_OK [], db)
  end.

(** [is_valid(raise_exception=True)] then [perform_update]. *)
Definition validate_and_save (instance : Order.t) (data : Data)
    (partial : bool) (db : DB) : Outcome * DB :=
  match OrderSerializer_is_valid db data partial with
  | inl errs => (Response HTTP_400_BAD_REQUEST errs, db)
  | inr vd =>
      (Response HTTP_200_OK [],
       Order_save (OrderSerializer_update_fields instance vd) db)
  end.

Definition update (request_user : User.t) (pk : Z) (data : Data)
    (partial : bool) (db : DB) : Outcome * DB :=
  match get_object request_user pk db with
  | None => (Response HTTP_404_NOT_FOUND [], db)
  | Some instance =>
      if User.in_group request_user "Delivery crew"
         && negb (User.is_staff request_user)
      then
        if contains data "delivery_crew"
        then (Response HTTP_403_FORBIDDEN
                [("error", "Delivery crew cannot assign orders")]%string, db)
        else
          let allowed_data := [("status"%string, data_get data "status")] in
          validate_and_save instance allowed_data true db
      else validate_and_save instance data partial db
  end.

(** [User.objects.get(id=.., groups__name='Delivery crew')] *)
Definition delivery_user_get (v : Value) (db : DB) : Exn + option User.t :=
  match v with
  | VInt pk => inr (delivery_crew_get pk db)
  | VBool b => inr (delivery_crew_get (if b then 1 else 0) db)
  | _ => inl ValueError
  end.

Definition assign_delivery_crew (request_user : User.t) (pk : Z)
    (data : Data) (db : DB) : Outcome * DB :=
  match get_object request_user pk db with
  | None => (Response HTTP_404_NOT_FOUND [], db)
  | Some order =>
      let delivery_crew_id := data_get data "delivery_crew_id" in
      if negb (truthy delivery_crew_id)
      then (Response HTTP_400_BAD_REQUEST
              [("error", "delivery_crew_id is required")]%string, db)
      else
        match delivery_user_get delivery_crew_id db with
        | inl e => (Unhandled e, db)
        | inr None =>
            (Response HTTP_404_NOT_FOUND
               [("error", "User not found or not in delivery crew")]%string,
             db)
        | inr (Some delivery_user) =>
            (Response HTTP_200_OK [],
             Order_save
               (Order.mk (Order.id order) (Order.user order)
                  (Some (User.id delivery_user)) (Order.status order)
                  (Order.total order) (Order.date order)) db)
        end
  end.

(** [destroy]: the rows of [OrderItem] go with their order
    ([on_delete=CASCADE]). *)
Definition destroy (request_user : User.t) (pk : Z) (db : DB)
  : Outcome * DB :=
  match get_object request_user pk db with
  | None => (Response HTTP_404_NOT_FOUND [], db)
  | Some instance =>
      let db1 :=
        set_order_items db
          (filter (fun it => negb (OrderItem.order it =? Order.id instance))
                  (order_items db)) (order_item_seq db) in
      (Response HTTP_204_NO_CONTENT [],
       set_orders db1
         (filter (fun o => negb (Order.id o =? Order.id instance))
                 (orders db1)) (order_seq db1))
  end.

(** A request on one order: the permissions of the action are checked
    before the handler runs. *)
Definition dispatch (action : string) (request_user : User.t) (pk : Z)
    (data : Data) (db : DB) : Outcome * DB :=
  match check_permissions (get_permissions action) request_user with
  | Some refused => (refused, db)
  | None =>
      if String.eqb action "retrieve" then retrieve request_user pk db
      else if String.eqb action "update"
      then update request_user pk data false db
      else if String.eqb action "partial_update"
      then update request_user pk data true db
      else if String.eqb action "assign_delivery_crew"
      then assign_delivery_crew request_user pk data db
      else if String.eqb action "destroy" then destroy request_user pk db
      else (Response 405 [], db)
  end.

End OrderViewSet.

(** ** views.py: MenuViewSet *)

Record MenuValidated := mkMenuValidated
  { v_title : option string; v_price : option Z; v_featured : option bool }.

(** [CharField(max_length=255)] *)
Definition char_field (v : Value) : string + string :=
  match v with
  | VStr s =>
      if String.eqb s "" then inl "This field may not be blank."%string
      else if (255 <? Z.of_nat (String.length s))
      then inl "Ensure this field has no more than 255 characters."%string
      else inr s
  | VNull => inl "This field may not be null."%string
  | _ => inl "Not a valid string."%string
  end.

Definition validate_price (value : Z) : string + Z :=
  if value <=? 0 then inl "Price must be greater than 0"%string else inr value.

(** [DecimalField] with [MinValueValidator(Decimal('0.01'))], then
    [validate_price]. *)
Definition price_field (v : Value) : string + Z :=
  match v with
  | VDec n =>
      if n <? 1
      then inl "Ensure this value is greater than or equal to 0.01."%string
      else validate_price n
  | VInt n =>
      if 100 * n <? 1
      then inl "Ensure this value is greater than or equal to 0.01."%string
      else validate_price (100 * n)
  | VNull => inl "This field may not be null."%string
  | _ => inl "A valid number is required."%string
  end.

Definition boolean_field (v : Value) : string + bool := status_field v.

Definition MenuSerializer_is_valid (data : Data) (partial : bool)
  : Errors + MenuValidated :=
  let '(e1, t) := run_field "title" true partial char_field data in
  let '(e2, p) := run_field "price" true partial price_field data in
  let '(e3, f) := run_field "featured" false partial boolean_field data in
  match e1 ++ e2 ++ e3 with
  | [] => inr (mkMenuValidated t p f)
  | errs => inl errs
  end.

Definition Menu_save (m : Menu.t) (db : DB) : DB :=
  set_menu db (map (fun r => if Menu.id r =? Menu.id m then m else r) (menu db))
           (menu_seq db).

Module MenuViewSet.

Definition get_permissions (action : string) : Exn + list Permission :=
  if String.eqb action "list" || String.eqb action "retrieve"
  then inr [AllowAny]
  else if String.eqb action "update_featured" then inr [IsManager]
  else inr [IsAdminUser].

Definition get_object (pk : Z) (db : DB) : option Menu.t := Menu_get pk db.

Definition create (data : Data) (db : DB) : Outcome * DB :=
  match MenuSerializer_is_valid data false with
  | inl errs => (Response HTTP_400_BAD_REQUEST errs, db)
  | inr vd =>
      match v_title vd, v_price vd with
      | Some t, Some p =>
          let m := Menu.mk (menu_seq db) t p
                     (match v_featured vd with Some f => f | None => false end) in
          (Response HTTP_201_CREATED [],
           set_menu db (menu db ++ [m]) (menu_seq db + 1))
      | _, _ => (Unhandled KeyError, db)
      end
  end.

Definition update (pk : Z) (data : Data) (partial : bool) (db : DB)
  : Outcome * DB :=
  match get_object pk db with
  | None => (Response HTTP_404_NOT_FOUND [], db)
  | Some instance =>
      match MenuSerializer_is_valid data partial with
      | inl errs => (Response HTTP_400_BAD_REQUEST errs, db)
      | inr vd =>
          let m := Menu.mk (Menu.id instance)
                     (match v_title vd with Some t => t
                                          | None => Menu.title instance end)
                     (match v_price vd with Some p => p
                                          | None => Menu.price instance end)
                     (match v_featured vd with Some f => f
                                             | None => Menu.featured instance end) in
          (Response HTTP_200_OK [], Menu_save m db)
      end
  end.

Definition update_featured (pk : Z) (data : Data) (db : DB) : Outcome * DB :=
  match get_object pk db with
  | None => (Response HTTP_404_NOT_FOUND [], db)
  | Some menu_item =>
      match lookup data "featured" with
      | None | Some VNull =>
          (Response HTTP_400_BAD_REQUEST
             [("error", "featured field is required")]%string, db)
      | Some featured =>
          (Response HTTP_200_OK [],
           Menu_save (Menu.mk (Menu.id menu_item) (Menu.title menu_item)
                        (Menu.price menu_item) (truthy featured)) db)
      end
  end.

(** [destroy]: [Cart.menuitem] and [OrderItem.menuitem] are declared
    [on_delete=CASCADE], so their rows go with the menu item. *)
Definition destroy (pk : Z) (db : DB) : Outcome * DB :=
  match get_object pk db with
  | None => (Response HTTP_404_NOT_FOUND [], db)
  | Some instance =>
      let db1 :=
        set_cart db
          (filter (fun c => negb (Cart.menuitem c =? Menu.id instance))
                  (cart db)) (cart_seq db) in
      let db2 :=
        set_order_items db1
          (filter (fun it => negb (OrderItem.menuitem it =? Menu.id instance))
                  (order_items db1)) (order_item_seq db1) in
      (Response HTTP_204_NO_CONTENT [],
       set_menu db2
         (filter (fun m => negb (Menu.id m =? Menu.id instance)) (menu db2))
         (menu_seq db2))
  end.

Definition dispatch (action : string) (request_user : User.t) (pk : Z)
    (data : Data) (db : DB) : Outcome * DB :=
  match check_permissions (get_permissions action) request_user with
  | Some refused => (refused, db)
  | None =>
      if String.eqb action "create" then create data db
      else if String.eqb action "update" then update pk data false db
      else if String.eqb action "partial_update" then update pk data true db
      else if String.eqb action "update_featured"
      then update_featured pk data db
      else if String.eqb action "destroy" then destroy pk db
      else (Response 405 [], db)
  end.

End MenuViewSet.

(** ** serializers.py: ReservationSerializer *)

(** [a < b] on [datetime.time]: hour, minute, second, microsecond in turn. *)
Definition time_ltb (a b : time) : bool :=
  (hour a <? hour b)
  || ((hour a =? hour b)
      && ((minute a <? minute b)
          || ((minute a =? minute b)
              && ((second a <? second b)
                  || ((second a =? second b)
                      && (microsecond a <? microsecond b)))))).

Definition time_eqb (a b : time) : bool :=
  (hour a =? hour b) && (minute a =? minute b)
  && (second a =? second b) && (microsecond a =? microsecond b).

Definition opening_time : time := mktime 11 0 0 0.
Definition closing_time : time := mktime 22 0 0 0.

(** The result of a validation step that may also raise. *)
Inductive Validation (A : Type) :=
| Valid (a : A)
| Invalid (errs : Errors)
| Raised (e : Exn).
Arguments Valid {A} a.
Arguments Invalid {A} errs.
Arguments Raised {A} e.

(** [attrs]: the validated keys that are present. *)
Record ReservationAttrs := mkReservationAttrs
  { a_name : option string;
    a_number_of_guests : option Z;
    a_reservation_date : option Z;
    a_reservation_time : option time;
    a_special_requests : option string }.

Definition validate_number_of_guests (value : Z) : string + Z :=
  if value <? 1 then inl "Number of guests must be at least 1"%string
  else if value >? 20
  then inl "Number of guests cannot exceed 20. Please contact us for larger parties."%string
  else inr value.

(** The field built from [IntegerField(validators=[MinValueValidator(1)])],
    then [validate_number_of_guests]. *)
Definition number_of_guests_field (v : Value) : string + Z :=
  match v with
  | VInt n =>
      if n <? 1 then inl "Ensure this value is greater than or equal to 1."%string
      else validate_number_of_guests n
  | VNull => inl "This field may not be null."%string
  | _ => inl "A valid integer is required."%string
  end.

Definition validate_reservation_date (today value : Z) : string + Z :=
  if value <? today then inl "Reservation date cannot be in the past"%string
  else inr value.

Definition reservation_date_field (today : Z) (v : Value) : string + Z :=
  match v with
  | VDate d => validate_reservation_date today d
  | VNull => inl "This field may not be null."%string
  | _ => inl "Date has wrong format."%string
  end.

Definition reservation_time_field (v : Value) : string + time :=
  match v with
  | VTime h m s us => inr (mktime h m s us)
  | VNull => inl "This field may not be null."%string
  | _ => inl "Time has wrong format."%string
  end.

(** [TextField(blank=True, default='')] *)
Definition special_requests_field (v : Value) : string + string :=
  match v with
  | VStr s => inr s
  | VNull => inl "This field may not be null."%string
  | _ => inl "Not a valid string."%string
  end.

Definition Reservation_to_internal_value (today : Z) (data : Data)
    (partial : bool) : Errors + ReservationAttrs :=
  let '(e1, n) := run_field "name" true partial char_field data in
  let '(e2, g) := run_field "number_of_guests" true partial
                    number_of_guests_field data in
  let '(e3, d) := run_field "reservation_date" true partial
                    (reservation_date_field today) data in
  let '(e4, t) := run_field "reservation_time" true partial
                    reservation_time_field data in
  let '(e5, s) := run_field "special_requests" false partial
                    special_requests_field data in
  match e1 ++ e2 ++ e3 ++ e4 ++ e5 with
  | [] => inr (mkReservationAttrs n g d t s)
  | errs => inl errs
  end.

Definition past_time_error : Errors :=
  [("reservation_time", "Reservation time cannot be in the past")]%string.

Definition business_hours_error : Errors :=
  [("reservation_time",
    "Reservations are only available between 11:00 AM and 10:00 PM")]%string.

(** [ReservationSerializer.validate]. [attrs.get] gives [None] for a key
    that is absent; [None == date.today()] is false, and [None < t] raises
    [TypeError]. [today] and [now] are [date.today()] and
    [datetime.now().time()]. *)
Definition validate (today : Z) (now : time) (attrs : ReservationAttrs)
  : Validation ReservationAttrs :=
  let reservation_date := a_reservation_date attrs in
  let reservation_time := a_reservation_time attrs in
  let business_hours :=
    match reservation_time with
    | None => Raised TypeError
    | Some t =>
        if time_ltb t opening_time || time_ltb closing_time t
        then Invalid business_hours_error
        else Valid attrs
    end in
  match reservation_date with
  | Some d =>
      if d =? today then
        match reservation_time with
        | None => Raised TypeError
        | Some t =>
            if time_ltb t now then Invalid past_time_error
            else business_hours
        end
      else business_hours
  | None => business_hours
  end.

(** [unique_together = ['user', 'reservation_date', 'reservation_time']]
    seen from the row [r]. *)
Definition Reservation_conflict (r : Reservation.t)
    (rows : list Reservation.t) : bool :=
  existsb (fun x => negb (Reservation.id x =? Reservation.id r)
                    && (Reservation.user x =? Reservation.user r)
                    && (Reservation.reservation_date x
                        =? Reservation.reservation_date r)
                    && time_eqb (Reservation.reservation_time x)
                                (Reservation.reservation_time r)) rows.

Definition reservation_unique_message : string :=
  "The fields user, reservation_date, reservation_time must make a unique set.".

(** The unique-together validator derived from the model: on update the
    missing values are read from the instance, which is itself left out. *)
Definition Reservation_unique_validator (u : Z)
    (instance : option Reservation.t) (attrs : ReservationAttrs) (db : DB)
  : bool :=
  let d := match a_reservation_date attrs, instance with
           | Some d, _ => Some d
           | None, Some i => Some (Reservation.reservation_date i)
           | None, None => None
           end in
  let t := match a_reservation_time attrs, instance with
           | Some t, _ => Some t
           | None, Some i => Some (Reservation.reservation_time i)
           | None, None => None
           end in
  match d, t with
  | Some d, Some t =>
      existsb (fun x => (Reservation.user x =? u)
                        && (Reservation.reservation_date x =? d)
                        && time_eqb (Reservation.reservation_time x) t
                        && match instance with
                           | Some i => negb (Reservation.id x =? Reservation.id i)
                           | None => true
                           end) (reservations db)
  | _, _ => false
  end.

(** [serializer.is_valid()]: the fields, then the validators of the
    serializer, then [validate]. *)
Definition ReservationSerializer_is_valid (u : Z)
    (instance : option Reservation.t) (today : Z) (now : time) (db : DB)
    (data : Data) (partial : bool) : Validation ReservationAttrs :=
  match Reservation_to_internal_value today data partial with
  | inl errs => Invalid errs
  | inr attrs =>
      if Reservation_unique_validator u instance attrs db
      then Invalid [("non_field_errors"%string, reservation_unique_message)]
      else validate today now attrs
  end.

Definition Reservation_update_fields (instance : Reservation.t)
    (attrs : ReservationAttrs) : Reservation.t :=
  Reservation.mk (Reservation.id instance) (Reservation.user instance)
    (match a_name attrs with Some x => x | None => Reservation.name instance end)
    (match a_number_of_guests attrs with
     | Some x => x | None => Reservation.number_of_guests instance end)
    (match a_reservation_date attrs with
     | Some x => x | None => Reservation.reservation_date instance end)
    (match a_reservation_time attrs with
     | Some x => x | None => Reservation.reservation_time instance end)
    (match a_special_requests attrs with
     | Some x => x | None => Reservation.special_requests instance end).

(** ** views.py: ReservationViewSet *)

Module ReservationViewSet.

Definition get_queryset (request_user : User.t) (db : DB)
  : list Reservation.t :=
  if User.is_staff request_user then reservations db
  else filter (fun r => Reservation.user r =? User.id request_user)
              (reservations db).

Definition get_object (request_user : User.t) (pk : Z) (db : DB)
  : option Reservation.t :=
  find (fun r => Reservation.id r =? pk) (get_queryset request_user db).

(** [create] with [perform_create]: [serializer.save(user=request.user)]. *)
Definition create (request_user : User.t) (today : Z) (now : time)
    (data : Data) (db : DB) : Outcome * DB :=
  match ReservationSerializer_is_valid (User.id request_user) None today now
          db data false with
  | Raised e => (Unhandled e, db)
  | Invalid errs => (Response HTTP_400_BAD_REQUEST errs, db)
  | Valid attrs =>
      match a_name attrs, a_number_of_guests attrs,
            a_reservation_date attrs, a_reservation_time attrs with
      | Some n, Some g, Some d, Some t =>
          let r := Reservation.mk (reservation_seq db) (User.id request_user)
                     n g d t
                     (match a_special_requests attrs with
                      | Some s => s | None => ""%string end) in
          if Reservation_conflict r (reservations db)
          then (Unhandled IntegrityError, db)
          else (Response HTTP_201_CREATED [],
                set_reservations db (reservations db ++ [r])
                                 (reservation_seq db + 1))
      | _, _, _, _ => (Unhandled IntegrityError, db)
      end
  end.

Definition retrieve (request_user : User.t) (pk : Z) (db : DB)
  : Outcome * DB :=
  match get_object request_user pk db with
  | None => (Response HTTP_404_NOT_FOUND [], db)
  | Some _ => (Response HTTP_200_OK [], db)
  end.

Definition update (request_user : User.t) (pk : Z) (today : Z) (now : time)
    (data : Data) (partial : bool) (db : DB) : Outcome * DB :=
  match get_object request_user pk db with
  | None => (Response HTTP_404_NOT_FOUND [], db)
  | Some instance =>
      match ReservationSerializer_is_valid (User.id request_user)
              (Some instance) today now db data partial with
      | Raised e => (Unhandled e, db)
      | Invalid errs => (Response HTTP_400_BAD_REQUEST errs, db)
      | Valid attrs =>
          let r := Reservation_update_fields instance attrs in
          if Reservation_conflict r (reservations db)
          then (Unhandled IntegrityError, db)
          else (Response HTTP_200_OK [],
                set_reservations db
                  (map (fun x => if Reservation.id x =? Reservation.id r
                                 then r else x) (reservations db))
                  (reservation_seq db))
      end
  end.

Definition destroy (request_user : User.t) (pk : Z) (db : DB)
  : Outcome * DB :=
  match get_object request_user pk db with
  | None => (Response HTTP_404_NOT_FOUND [], db)
  | Some instance =>
      (Response HTTP_204_NO_CONTENT [],
       set_reservations db
         (filter (fun r => negb (Reservation.id r =? Reservation.id instance))
                 (reservations db)) (reservation_seq db))
  end.

End ReservationViewSet.

(** ** The operations of the API as one transition system

    Every handler that writes to the cart, order, menu or reservation tables
    is an operation. The handlers are taken without their permission checks:
    a check can only refuse a request and leave the tables alone, so what
    holds of every handler holds of every request. *)

Inductive Op :=
| cart_create (u : User.t) (data : Data)
| cart_update (u : User.t) (pk : Z) (data : Data) (partial : bool)
| cart_destroy (u : User.t) (pk : Z)
| cart_clear (u : User.t)
| order_create (u : User.t) (today : Z) (f : Fault)
| order_update (u : User.t) (pk : Z) (data : Data) (partial : bool)
| order_assign_delivery_crew (u : User.t) (pk : Z) (data : Data)
| order_destroy (u : User.t) (pk : Z)
| menu_create (data : Data)
| menu_update (pk : Z) (data : Data) (partial : bool)
| menu_update_featured (pk : Z) (data : Data)
| menu_destroy (pk : Z)
| reservation_create (u : User.t) (today : Z) (now : time) (data : Data)
| reservation_update (u : User.t) (pk : Z) (today : Z) (now : time)
    (data : Data) (partial : bool)
| reservation_destroy (u : User.t) (pk : Z).

Definition step (op : Op) (db : DB) : Outcome * DB :=
  match op with
  | cart_create u data => CartViewSet.create u data db
  | cart_update u pk data partial => CartViewSet.update u pk data partial db
  | cart_destroy u pk => CartViewSet.destroy u pk db
  | cart_clear u => CartViewSet.clear u db
  | order_create u today f => run_view (OrderViewSet.create u today) f db
  | order_update u pk data partial => OrderViewSet.update u pk data partial db
  | order_assign_delivery_crew u pk data =>
      OrderViewSet.assign_delivery_crew u pk data db
  | order_destroy u pk => OrderViewSet.destroy u pk db
  | menu_create data => MenuViewSet.create data db
  | menu_update pk data partial => MenuViewSet.update pk data partial db
  | menu_update_featured pk data => MenuViewSet.update_featured pk data db
  | menu_destroy pk => MenuViewSet.destroy pk db
  | reservation_create u today now data =>
      ReservationViewSet.create u today now data db
  | reservation_update u pk today now data partial =>
      ReservationViewSet.update u pk today now data partial db
  | reservation_destroy u pk => ReservationViewSet.destroy u pk db
  end.

(** The tables after a sequence of operations. *)
Fixpoint run (ops : list Op) (db : DB) : DB :=
  match ops with
  | [] => db
  | op :: ops' => run ops' (snd (step op db))
  end.

Definition is_menu_destroy (op : Op) : bool :=
  match op with menu_destroy _ => true | _ => false end.

(** ** Predicates used in the statements *)

(** Primary keys: the keys of the orders are distinct and below the next key
    of the sequence, and an order item refers to a key below it too. *)
Definition keys_ok (db : DB) : Prop :=
  NoDup (map Order.id (orders db))
  /\ (forall o, In o (orders db) -> Order.id o < order_seq db)
  /\ (forall it, In it (order_items db) -> OrderItem.order it < order_seq db).

(** [unique_together] of the cart: no two rows share (user, menuitem). *)
Definition cart_unique (rows : list Cart.t) : Prop :=
  NoDup (map (fun c => (Cart.user c, Cart.menuitem c)) rows).

(** The order lines copied from cart lines, numbered from [seq]. *)
Fixpoint copy_lines (o seq : Z) (cis : list Cart.t) : list OrderItem.t :=
  match cis with
  | [] => []
  | c :: cis' =>
      OrderItem.mk seq o (Cart.menuitem c) (Cart.quantity c)
                   (Cart.unit_price c) (Cart.price c)
      :: copy_lines o (seq + 1) cis'
  end.

(** The order row that [create] inserts for the user. *)
Definition new_order (db : DB) (u today : Z) : Order.t :=
  Order.mk (order_seq db) u None false
           (sum (map Cart.price (Cart_filter_user u db))) today.

(** The order lines [l] appended to the table for the order [o]. *)
Definition add_lines (db : DB) (o : Z) (l : list Cart.t) : DB :=
  set_order_items db
    (order_items db ++ copy_lines o (order_item_seq db) l)
    (order_item_seq db + Z.of_nat (List.length l)).

(** The tables once the order row and the first [j] order lines are written
    and the cart is still in place. *)
Definition staged (db : DB) (u today : Z) (j : nat) : DB :=
  add_lines
    (set_orders db (orders db ++ [new_order db u today]) (order_seq db + 1))
    (order_seq db) (firstn j (Cart_filter_user u db)).

(** The tables once the whole sequence has run. *)
Definition placed (db : DB) (u today : Z) : DB :=
  let s := staged db u today (List.length (Cart_filter_user u db)) in
  set_cart s (filter (fun c => negb (Cart.user c =? u)) (cart db)) (cart_seq db).

(** The total of an order equals the sum of the prices of its lines. *)
Definition total_matches (db : DB) (o : Order.t) : Prop :=
  Order.total o = sum (map OrderItem.price (lines_of db (Order.id o))).

(** What a cart line and an order line have in common. *)
Definition cart_line_fields (c : Cart.t) : Z * Z * Z * Z :=
  (Cart.menuitem c, Cart.quantity c, Cart.unit_price c, Cart.price c).

Definition order_line_fields (it : OrderItem.t) : Z * Z * Z * Z :=
  (OrderItem.menuitem it, OrderItem.quantity it, OrderItem.unit_price it,
   OrderItem.price it).


(** The cart table as the database keeps it: distinct primary keys below
    the next key of the sequence, and the unique constraint. *)
Definition cart_ok (db : DB) : Prop :=
  NoDup (map Cart.id (cart db))
  /\ (forall c, In c (cart db) -> Cart.id c < cart_seq db)
  /\ cart_unique (cart db).

(** No line of the order [o] in the table carries a menu item of [cis]. *)
Definition no_line_for (db : DB) (o : Z) (cis : list Cart.t) : Prop :=
  forall it, In it (order_items db) -> OrderItem.order it = o ->
             ~ In (OrderItem.menuitem it) (map Cart.menuitem cis).

(** The order [o'] of the later tables is the order [o] of the earlier
    ones: same key, user, total and date. *)
Definition same_order (o o' : Order.t) : Prop :=
  Order.id o' = Order.id o /\ Order.user o' = Order.user o
  /\ Order.total o' = Order.total o /\ Order.date o' = Order.date o.

(** Going from [db] to [db'] keeps every order that [db'] holds below the
    old sequence, with its lines. *)
Definition frozen (db db' : DB) : Prop :=
  order_seq db <= order_seq db'
  /\ forall o', In o' (orders db') -> Order.id o' < order_seq db ->
       (exists o, In o (orders db) /\ same_order o o')
       /\ lines_of db' (Order.id o') = lines_of db (Order.id o').

(** No row with the key [pk] belongs to [u]: a row with that key belongs to
    another user, or there is none. *)
Definition cart_hidden (u : User.t) (pk : Z) (db : DB) : Prop :=
  forall c, In c (cart db) -> Cart.id c = pk -> Cart.user c <> User.id u.

Definition reservation_hidden (u : User.t) (pk : Z) (db : DB) : Prop :=
  forall r, In r (reservations db) -> Reservation.id r = pk ->
            Reservation.user r <> User.id u.

Definition order_hidden (u : User.t) (pk : Z) (db : DB) : Prop :=
  forall o, In o (orders db) -> Order.id o = pk ->
            Order.user o <> User.id u
            /\ Order.delivery_crew o <> Some (User.id u).

Definition not_found (db : DB) : Outcome * DB :=
  (Response HTTP_404_NOT_FOUND [], db).

(** The rules of a reservation, on the values of the request. *)
Definition time_le (a b : time) : Prop := time_ltb b a = false.

Definition guests_rule (g : Z) : Prop := 1 <= g <= 20.
Definition date_rule (today d : Z) : Prop := today <= d.
Definition today_rule (today : Z) (now : time) (d : Z) (t : time) : Prop :=
  d = today -> time_le now t.
Definition hours_rule (t : time) : Prop :=
  time_le opening_time t /\ time_le t closing_time.

(** A field of the request is read without error into [o]. *)
Definition field_ok {A} (fname : string) (required partial : bool)
    (f : Value -> string + A) (data : Data) (o : option A) : Prop :=
  match lookup data fname with
  | Some v => exists a, f v = inr a /\ o = Some a
  | None => o = None /\ required && negb partial = false
  end.

(** The field errors of the five rules. *)
Definition guests_low_error : string * string :=
  ("number_of_guests", "Ensure this value is greater than or equal to 1.")%string.
Definition guests_high_error : string * string :=
  ("number_of_guests",
   "Number of guests cannot exceed 20. Please contact us for larger parties.")%string.
Definition date_error : string * string :=
  ("reservation_date", "Reservation date cannot be in the past")%string.

(** A reservation of the user already holds the date and time. *)
Definition slot_taken (u d : Z) (t : time) (db : DB) : bool :=
  existsb (fun x => (Reservation.user x =? u)
                    && (Reservation.reservation_date x =? d)
                    && time_eqb (Reservation.reservation_time x) t)
          (reservations db).

(** The errors that the fields of a creation request report for the number
    of guests and the date. *)
Definition guests_errors (g : Z) : Errors :=
  if g <? 1 then [guests_low_error]
  else if g >? 20 then [guests_high_error] else [].

Definition date_errors (today d : Z) : Errors :=
  if d <? today then [date_error] else [].

(** A creation request whose name and special requests are read without
    error and which carries a number of guests, a date and a time. *)
Definition creation_request (data : Data) (n : string) (sp : option string)
    (g d : Z) (t : time) : Prop :=
  run_field "name" true false char_field data = ([], Some n)
  /\ run_field "special_requests" false false special_requests_field data
     = ([], sp)
  /\ lookup data "number_of_guests" = Some (VInt g)
  /\ lookup data "reservation_date" = Some (VDate d)
  /\ lookup data "reservation_time"
     = Some (VTime (hour t) (minute t) (second t) (microsecond t)).

(** ** Sample data *)

Module Sample.
Definition alice : User.t := User.mk 1 false [].
Definition bob : User.t := User.mk 2 false [].
Definition manager : User.t := User.mk 3 false ["Manager"%string].
Definition crew : User.t := User.mk 5 false ["Delivery crew"%string].
Definition admin : User.t := User.mk 9 true [].

Definition greek_salad : Menu.t := Menu.mk 1 "Greek Salad" 1299 false.
Definition bruschetta : Menu.t := Menu.mk 2 "Bruschetta" 899 false.

(** Two menu items, no cart line, no order, no reservation. *)
Definition db0 : DB :=
  mkDB [alice; bob; manager; crew; admin]
       [greek_salad; bruschetta] 3 [] 1 [] 1 [] 1 [] 1.

(** Alice holds two Greek salads. *)
Definition db1 : DB :=
  set_cart db0 [Cart.mk 1 1 1 2 1299 2598] 2.

(** Alice holds two Greek salads and one bruschetta. *)
Definition db2 : DB :=
  set_cart db0 [Cart.mk 1 1 1 2 1299 2598; Cart.mk 2 1 2 1 899 899] 3.

(** Alice has placed the order of [db1]; it is assigned to the crew member
    and delivered. *)
Definition db3 : DB :=
  set_order_items
    (set_orders db0 [Order.mk 1 1 (Some 5) true 2598 100] 2)
    [OrderItem.mk 1 1 1 2 1299 2598] 2.

(** The same order, still pending. *)
Definition db5 : DB :=
  set_order_items
    (set_orders db0 [Order.mk 1 1 (Some 5) false 2598 100] 2)
    [OrderItem.mk 1 1 1 2 1299 2598] 2.

(** Alice has a reservation for four on day 101 at 19:00. *)
Definition db4 : DB :=
  set_reservations db0
    [Reservation.mk 1 1 "Alice Smith" 4 101 (mktime 19 0 0 0) ""] 2.

End Sample.

(** The amounts the validators of the models ask for, on every row: a price
    of at least 0.01, a quantity of at least 1, and for a line a price equal
    to unit price times quantity. *)
Definition line_amounts_ok (quantity unit_price price : Z) : Prop :=
  1 <= quantity /\ 1 <= unit_price /\ price = unit_price * quantity.

Definition amounts_ok (db : DB) : Prop :=
  (forall m, In m (menu db) -> 1 <= Menu.price m)
  /\ (forall c, In c (cart db) ->
        line_amounts_ok (Cart.quantity c) (Cart.unit_price c) (Cart.price c))
  /\ (forall it, In it (order_items db) ->
        line_amounts_ok (OrderItem.quantity it) (OrderItem.unit_price it)
                        (OrderItem.price it))
  /\ (forall o, In o (orders db) -> 1 <= Order.total o).

(** Foreign keys: every cart line and order line refers to a menu item of
    the menu table, and every order line to an order of the order table. *)
Definition menu_has (db : DB) (pk : Z) : Prop :=
  exists m, In m (menu db) /\ Menu.id m = pk.

Definition order_has (db : DB) (pk : Z) : Prop :=
  exists o, In o (orders db) /\ Order.id o = pk.

Definition references_ok (db : DB) : Prop :=
  (forall c, In c (cart db) -> menu_has db (Cart.menuitem c))
  /\ (forall it, In it (order_items db) ->
        menu_has db (OrderItem.menuitem it)
        /\ order_has db (OrderItem.order it)).

(** What a row of the menu offers: key, title and price. *)
Definition menu_offer (m : Menu.t) : Z * string * Z :=
  (Menu.id m, Menu.title m, Menu.price m).

(** Two reservations hold the same slot: same user, date and time. *)
Definition same_slot (a b : Reservation.t) : Prop :=
  Reservation.user a = Reservation.user b
  /\ Reservation.reservation_date a = Reservation.reservation_date b
  /\ Reservation.reservation_time a = Reservation.reservation_time b.

(** The reservation table as the database keeps it: distinct primary keys
    below the next key of the sequence, and no two rows on the same slot. *)
Definition reservation_ok (db : DB) : Prop :=
  NoDup (map Reservation.id (reservations db))
  /\ (forall r, In r (reservations db) ->
                Reservation.id r < reservation_seq db)
  /\ (forall a b, In a (reservations db) -> In b (reservations db) ->
                  Reservation.id a <> Reservation.id b -> ~ same_slot a b).

(** ** views.py: the group rosters *)

Definition set_auth_user (db : DB) (rows : list User.t) : DB :=
  mkDB rows (menu db) (menu_seq db) (cart db) (cart_seq db)
       (orders db) (order_seq db) (order_items db) (order_item_seq db)
       (reservations db) (reservation_seq db).

(** [group.user_set.add(user)] seen from the user: adding a member again
    changes nothing. *)
Definition user_add_group (g : string) (x : User.t) : User.t :=
  if User.in_group x g then x
  else User.mk (User.id x) (User.is_staff x) (User.groups x ++ [g]).

(** [group.user_set.remove(user)] seen from the user. *)
Definition user_remove_group (g : string) (x : User.t) : User.t :=
  User.mk (User.id x) (User.is_staff x)
          (filter (fun n => negb (String.eqb g n)) (User.groups x)).

Definition Group_user_set_add (g : string) (pk : Z) (db : DB) : DB :=
  set_auth_user db
    (map (fun x => if User.id x =? pk then user_add_group g x else x)
         (auth_user db)).

Definition Group_user_set_remove (g : string) (pk : Z) (db : DB) : DB :=
  set_auth_user db
    (map (fun x => if User.id x =? pk then user_remove_group g x else x)
         (auth_user db)).

(** [User.objects.get(pk=pk)] *)
Definition User_get (pk : Z) (db : DB) : option User.t :=
  find (fun x => User.id x =? pk) (auth_user db).

(** The two roster view sets have the same three handlers, for the group
    [Manager] and for the group [Delivery crew]. The column [username] is
    not part of [User.t]: the query [User.objects.get(username=..)] is the
    parameter [by_username], from the value sent to the key of the user. *)
Module GroupViewSet.

(** [list]: the users of the group. *)
Definition list (group : string) (db : DB) : Outcome * list User.t :=
  (Response HTTP_200_OK [],
   filter (fun x => User.in_group x group) (auth_user db)).

Definition create (by_username : Value -> DB -> option Z) (group : string)
    (data : Data) (db : DB) : Outcome * DB :=
  let username := data_get data "username" in
  if negb (truthy username)
  then (Response HTTP_400_BAD_REQUEST
          [("error", "username is required")]%string, db)
  else
    match by_username username db with
    | None => (Response HTTP_404_NOT_FOUND
                 [("error", "User not found")]%string, db)
    | Some pk => (Response HTTP_201_CREATED [], Group_user_set_add group pk db)
    end.

Definition destroy (group : string) (pk : Z) (db : DB) : Outcome * DB :=
  match User_get pk db with
  | None => (Response HTTP_404_NOT_FOUND
               [("error", "User not found")]%string, db)
  | Some user =>
      (Response HTTP_200_OK [], Group_user_set_remove group (User.id user) db)
  end.

End GroupViewSet.

Module ManagerGroupViewSet.
Definition permission_classes : list Permission := [IsAdminUser].
Definition list := GroupViewSet.list "Manager".
Definition create by_username := GroupViewSet.create by_username "Manager".
Definition destroy := GroupViewSet.destroy "Manager".
End ManagerGroupViewSet.

Module DeliveryCrewGroupViewSet.
Definition permission_classes : list Permission := [IsManager].
Definition list := GroupViewSet.list "Delivery crew".
Definition create by_username :=
  GroupViewSet.create by_username "Delivery crew".
Definition destroy := GroupViewSet.destroy "Delivery crew".
End DeliveryCrewGroupViewSet.

(** Every order that has a delivery crew has a member of the group
    [Delivery crew] as its delivery crew. *)
Definition crew_ok (db : DB) : Prop :=
  forall o d, In o (orders db) -> Order.delivery_crew o = Some d ->
    exists x, In x (auth_user db) /\ User.id x = d
              /\ User.in_group x "Delivery crew" = true.

(** ** The requests of the API

    A request names a route and carries the user that the token
    authenticates. The view set checks the permissions of the action, then
    runs the handler. *)

Definition guarded (perms : Exn + list Permission) (request_user : User.t)
    (handler : DB -> Outcome * DB) (db : DB) : Outcome * DB :=
  match check_permissions perms request_user with
  | Some refused => (refused, db)
  | None => handler db
  end.

Module Api.

(** [CartViewSet] and [ReservationViewSet] declare
    [permission_classes = [IsAuthenticated]]; the order and menu view sets
    choose by action in [get_permissions]; the roster view sets declare
    [IsAdminUser] and [IsManager]. *)
Inductive Request :=
| cart_post (u : User.t) (data : Data)
| cart_put (u : User.t) (pk : Z) (data : Data)
| cart_patch (u : User.t) (pk : Z) (data : Data)
| cart_delete (u : User.t) (pk : Z)
| cart_clear (u : User.t)
| order_post (u : User.t) (today : Z) (f : Fault)
| order_route (action : string) (u : User.t) (pk : Z) (data : Data)
| menu_route (action : string) (u : User.t) (pk : Z) (data : Data)
| reservation_post (u : User.t) (today : Z) (now : time) (data : Data)
| reservation_put (u : User.t) (pk : Z) (today : Z) (now : time) (data : Data)
| reservation_patch (u : User.t) (pk : Z) (today : Z) (now : time)
    (data : Data)
| reservation_delete (u : User.t) (pk : Z)
| manager_post (u : User.t) (by_username : Value -> DB -> option Z)
    (data : Data)
| manager_delete (u : User.t) (pk : Z)
| crew_post (u : User.t) (by_username : Value -> DB -> option Z) (data : Data)
| crew_delete (u : User.t) (pk : Z).

Definition serve (r : Request) (db : DB) : Outcome * DB :=
  match r with
  | cart_post u data =>
      guarded (inr [IsAuthenticated]) u (CartViewSet.create u data) db
  | cart_put u pk data =>
      guarded (inr [IsAuthenticated]) u (CartViewSet.update u pk data false) db
  | cart_patch u pk data =>
      guarded (inr [IsAuthenticated]) u (CartViewSet.update u pk data true) db
  | cart_delete u pk =>
      guarded (inr [IsAuthenticated]) u (CartViewSet.destroy u pk) db
  | cart_clear u =>
      guarded (inr [IsAuthenticated]) u (CartViewSet.clear u) db
  | order_post u today f =>
      guarded (OrderViewSet.get_permissions "create") u
        (run_view (OrderViewSet.create u today) f) db
  | order_route action u pk data => OrderViewSet.dispatch action u pk data db
  | menu_route action u pk data => MenuViewSet.dispatch action u pk data db
  | reservation_post u today now data =>
      guarded (inr [IsAuthenticated]) u
        (ReservationViewSet.create u today now data) db
  | reservation_put u pk today now data =>
      guarded (inr [IsAuthenticated]) u
        (ReservationViewSet.update u pk today now data false) db
  | reservation_patch u pk today now data =>
      guarded (inr [IsAuthenticated]) u
        (ReservationViewSet.update u pk today now data true) db
  | reservation_delete u pk =>
      guarded (inr [IsAuthenticated]) u (ReservationViewSet.destroy u pk) db
  | manager_post u by_username data =>
      guarded (inr ManagerGroupViewSet.permission_classes) u
        (ManagerGroupViewSet.create by_username data) db
  | manager_delete u pk =>
      guarded (inr ManagerGroupViewSet.permission_classes) u
        (ManagerGroupViewSet.destroy pk) db
  | crew_post u by_username data =>
      guarded (inr DeliveryCrewGroupViewSet.permission_classes) u
        (DeliveryCrewGroupViewSet.create by_username data) db
  | crew_delete u pk =>
      guarded (inr DeliveryCrewGroupViewSet.permission_classes) u
        (DeliveryCrewGroupViewSet.destroy pk) db
  end.

(** The tables after a sequence of requests. *)
Fixpoint serve_all (rs : list Request) (db : DB) : DB :=
  match rs with
  | [] => db
  | r :: rs' => serve_all rs' (snd (serve r db))
  end.

End Api.

(** Every order of [db'] below the sequence of [db] is an order of [db]
    with the status it had there. *)
Definition status_kept (db db' : DB) : Prop :=
  order_seq db <= order_seq db'
  /\ forall o', In o' (orders db') -> Order.id o' < order_seq db ->
       exists o, In o (orders db) /\ Order.id o = Order.id o'
                 /\ Order.status o = Order.status o'.

(** * Properties *)

(** ** Generic facts *)

Lemma run_field_cases {A} fname required partial (f : Value -> string + A)
    data errs o :
  run_field fname required partial f data = (errs, o) ->
  (errs = [] /\
   ((lookup data fname = None /\ o = None /\ required && negb partial = false)
    \/ exists v a, lookup data fname = Some v /\ f v = inr a /\ o = Some a))
  \/ (exists msg, errs = [(fname, msg)] /\ o = None).
Proof.
  unfold run_field. intros H.
  destruct (lookup data fname) as [v|] eqn:Hl.
  - destruct (f v) as [e|a] eqn:Hf; inversion H; subst.
    + right. eauto.
    + left. split; [reflexivity|]. right. eauto.
  - destruct (required && negb partial) eqn:Hr; inversion H; subst.
    + right. eauto.
    + left. split; [reflexivity|]. left. auto.
Qed.



Lemma find_some_id {A} (key : A -> Z) pk l x :
  find (fun r => key r =? pk) l = Some x -> In x l /\ key x = pk.
Proof.
  intros H. apply find_some in H. destruct H as [Hin Heq].
  split; [assumption | lia].
Qed.

(** ** The cart serializer *)

Lemma Cart_is_valid_inv u instance db data partial vd :
  CartSerializer_is_valid u instance db data partial = inr vd ->
  (match lookup data "menuitem" with
   | None => v_menuitem vd = None
   | Some v => exists m, menuitem_field db v = inr m /\ v_menuitem vd = Some m
   end)
  /\ (match lookup data "quantity" with
      | None => v_quantity vd = None
      | Some v => exists q, quantity_field v = inr q /\ v_quantity vd = Some q
      end)
  /\ Cart_unique_validator u instance vd db = false.
Proof.
  unfold CartSerializer_is_valid, Cart_to_internal_value.
  destruct (run_field "menuitem" true partial (menuitem_field db) data)
    as [e1 m] eqn:H1.
  destruct (run_field "quantity" false partial quantity_field data)
    as [e2 q] eqn:H2.
  apply run_field_cases in H1. apply run_field_cases in H2.
  destruct H1 as [[-> H1]|[msg [-> _]]]; [|simpl; congruence].
  destruct H2 as [[-> H2]|[msg [-> _]]]; [|simpl; congruence].
  simpl.
  destruct (Cart_unique_validator u instance (mkCartValidated m q) db) eqn:Hu;
    [congruence|].
  intros H; inversion H; subst; clear H. simpl.
  repeat split; try assumption.
  - destruct H1 as [(-> & -> & _)|(v & a & -> & Hf & ->)]; eauto.
  - destruct H2 as [(-> & -> & _)|(v & a & -> & Hf & ->)]; eauto.
Qed.

Lemma menuitem_field_inv db v m :
  menuitem_field db v = inr m ->
  exists pk, v = VInt pk /\ Menu_get pk db = Some m /\ Menu.id m = pk.
Proof.
  destruct v; simpl; try congruence.
  destruct (Menu_get n db) as [m'|] eqn:Hg; [|congruence].
  intros H; inversion H; subst. exists n.
  split; [reflexivity|]. split; [assumption|].
  unfold Menu_get in Hg. apply find_some_id in Hg. tauto.
Qed.











(** ** Statements and faults *)

Lemma db_eta db :
  mkDB (auth_user db) (menu db) (menu_seq db) (cart db) (cart_seq db)
       (orders db) (order_seq db) (order_items db) (order_item_seq db)
       (reservations db) (reservation_seq db) = db.
Proof. destruct db; reflexivity. Qed.

Lemma add_lines_nil db o : add_lines db o [] = db.
Proof.
  unfold add_lines, set_order_items. simpl.
  rewrite app_nil_r, Z.add_0_r. apply db_eta.
Qed.

Lemma add_lines_cons db o c l :
  add_lines
    (set_order_items db
       (order_items db
        ++ [OrderItem.mk (order_item_seq db) o (Cart.menuitem c)
              (Cart.quantity c) (Cart.unit_price c) (Cart.price c)])
       (order_item_seq db + 1)) o l
  = add_lines db o (c :: l).
Proof.
  unfold add_lines, set_order_items. simpl order_items. simpl order_item_seq.
  cbn [auth_user menu menu_seq cart cart_seq orders order_seq reservations
       reservation_seq copy_lines List.length].
  rewrite <- app_assoc. simpl app.
  f_equal. lia.
Qed.

Lemma no_line_no_conflict db o c cis :
  no_line_for db o (c :: cis) ->
  existsb (fun r => (OrderItem.order r =? o)
                    && (OrderItem.menuitem r =? Cart.menuitem c))
          (order_items db) = false.
Proof.
  intros H. destruct (existsb _ _) eqn:E; [|reflexivity].
  apply existsb_exists in E. destruct E as (it & Hin & Hb).
  apply andb_true_iff in Hb. destruct Hb as [Ho Hm].
  exfalso. apply (H it Hin); [lia|]. simpl. left. lia.
Qed.

Lemma no_line_for_step db o c cis :
  NoDup (map Cart.menuitem (c :: cis)) ->
  no_line_for db o (c :: cis) ->
  no_line_for
    (set_order_items db
       (order_items db
        ++ [OrderItem.mk (order_item_seq db) o (Cart.menuitem c)
              (Cart.quantity c) (Cart.unit_price c) (Cart.price c)])
       (order_item_seq db + 1)) o cis.
Proof.
  intros Hnd H it Hin Ho. simpl in Hin. apply in_app_or in Hin.
  destruct Hin as [Hin|[<-|[]]].
  - intros Hc. apply (H it Hin Ho). simpl. right. exact Hc.
  - simpl. inversion Hnd; assumption.
Qed.

(** The loop over the cart lines under a fault: with [Some k] and fewer
    than [k + 1] lines every line is written; otherwise the first [k] are. *)
Lemma for_each_run cis : forall db f o,
  NoDup (map Cart.menuitem cis) ->
  no_line_for db o cis ->
  for_each cis (fun ci => execute (OrderItem_objects_create o ci))
           (mkWorld db f)
  = match f with
    | Some k =>
        if (k <? List.length cis)%nat
        then (inl DatabaseError, mkWorld (add_lines db o (firstn k cis)) None)
        else (inr tt, mkWorld (add_lines db o cis)
                        (Some (k - List.length cis)%nat))
    | None => (inr tt, mkWorld (add_lines db o cis) None)
    end.
Proof.
  induction cis as [|c cis IH]; intros db f o Hnd Hfresh.
  - simpl. unfold ret. destruct f as [k|].
    + rewrite add_lines_nil, Nat.sub_0_r. reflexivity.
    + rewrite add_lines_nil. reflexivity.
  - assert (Hc := no_line_no_conflict _ _ _ _ Hfresh).
    assert (Hnext := no_line_for_step _ _ _ _ Hnd Hfresh).
    assert (Hnd' : NoDup (map Cart.menuitem cis)) by (inversion Hnd; assumption).
    cbn [for_each]. unfold bind at 1. unfold execute at 1.
    cbn [world_fault world_db].
    destruct f as [[|k]|]; cbv beta iota zeta;
      try (unfold OrderItem_objects_create at 1; rewrite Hc).
    + simpl. rewrite add_lines_nil. reflexivity.
    + rewrite (IH _ (Some k) o Hnd' Hnext).
      change (S k <? List.length (c :: cis))%nat
        with (k <? List.length cis)%nat.
      cbn [firstn]. rewrite !add_lines_cons. reflexivity.
    + rewrite (IH _ None o Hnd' Hnext). rewrite add_lines_cons. reflexivity.
Qed.

(** Without any assumption on the tables, the loop writes a prefix of the
    lines and touches nothing else; it returns only after the last line. *)
Lemma for_each_prefix cis : forall db f o r w,
  for_each cis (fun ci => execute (OrderItem_objects_create o ci))
           (mkWorld db f) = (r, w) ->
  exists j, (j <= List.length cis)%nat
            /\ world_db w = add_lines db o (firstn j cis)
            /\ (forall x, r = inr x -> j = List.length cis).
Proof.
  induction cis as [|c cis IH]; intros db f o r w H.
  - simpl in H. unfold ret in H. inversion H; subst. exists 0%nat.
    simpl. rewrite add_lines_nil. auto.
  - cbn [for_each] in H. unfold bind at 1 in H. unfold execute at 1 in H.
    cbn [world_fault world_db] in H.
    destruct f as [[|k]|]; cbv beta iota zeta in H;
      try (unfold OrderItem_objects_create at 1 in H;
           destruct (existsb _ (order_items db)));
      try (inversion H; subst; exists 0%nat; simpl;
           rewrite add_lines_nil;
           split; [lia | split; [reflexivity | congruence]]).
    + apply IH in H. destruct H as (j & Hj & -> & Hr). exists (S j).
      split; [simpl; lia|]. cbn [firstn].
      split; [apply add_lines_cons|]. intros x Hx. simpl. f_equal. eauto.
    + apply IH in H. destruct H as (j & Hj & -> & Hr). exists (S j).
      split; [simpl; lia|]. cbn [firstn].
      split; [apply add_lines_cons|]. intros x Hx. simpl. f_equal. eauto.
Qed.

Ltac orm_step :=
  unfold bind at 1; unfold execute at 1;
  cbn [world_fault world_db]; cbv beta iota zeta.

(** What [create] returns and leaves in the tables, for every fault. *)
Lemma create_run usr today db f :
  let u := User.id usr in
  let cis := Cart_filter_user u db in
  cis <> [] ->
  NoDup (map Cart.menuitem cis) ->
  (forall it, In it (order_items db) -> OrderItem.order it < order_seq db) ->
  run_view (OrderViewSet.create usr today) f db
  = match f with
    | None => (Response HTTP_201_CREATED [], placed db u today)
    | Some k =>
        if (k <? 3)%nat then (Unhandled DatabaseError, db)
        else if (k - 3 <? List.length cis)%nat
        then (Unhandled DatabaseError, staged db u today (k - 3))
        else if (k - 3 - List.length cis =? 0)%nat
        then (Unhandled DatabaseError, staged db u today (List.length cis))
        else if (k - 3 - List.length cis =? 1)%nat
        then (Unhandled DatabaseError, placed db u today)
        else (Response HTTP_201_CREATED [], placed db u today)
    end.
Proof.
  intros u cis Hne Hnd Hkeys.
  assert (Hfresh : no_line_for
            (set_orders db (orders db ++ [new_order db u today])
                        (order_seq db + 1)) (order_seq db) cis).
  { intros it Hin Ho. simpl in Hin. apply Hkeys in Hin. lia. }
  assert (Hall : staged db u today (List.length cis)
                 = add_lines
                     (set_orders db (orders db ++ [new_order db u today])
                                 (order_seq db + 1)) (order_seq db) cis).
  { unfold staged. fold cis. rewrite firstn_all. reflexivity. }
  assert (Hpl : placed db u today
                = set_cart
                    (add_lines
                       (set_orders db (orders db ++ [new_order db u today])
                                   (order_seq db + 1)) (order_seq db) cis)
                    (filter (fun c => negb (Cart.user c =? u)) (cart db))
                    (cart_seq db)).
  { unfold placed. cbv zeta. fold cis. rewrite Hall. reflexivity. }
  rewrite Hall, Hpl. clear Hall Hpl.
  unfold run_view, OrderViewSet.create. fold u.
  assert (Hex : Cart_exists u db = inr (true, db)).
  { unfold Cart_exists. fold cis. destruct cis; [congruence | reflexivity]. }
  destruct f as [[|[|[|k]]]|]; orm_step; try reflexivity;
    rewrite Hex; cbv beta iota zeta; cbn [negb];
    orm_step; try reflexivity;
    unfold Cart_select at 1; cbv beta iota zeta; fold cis;
    orm_step; try reflexivity;
    unfold Order_objects_create at 1; cbv beta iota zeta;
    unfold bind at 1; cbn [Order.id].
  - change (Order.mk (order_seq db) u None false (sum (map Cart.price cis)) today)
      with (new_order db u today).
    rewrite (for_each_run cis _ (Some k) (order_seq db) Hnd Hfresh).
    change (S (S (S k)) <? 3)%nat with false.
    change (S (S (S k)) - 3)%nat with (k - 0)%nat. rewrite Nat.sub_0_r.
    cbv iota.
    destruct (k <? List.length cis)%nat eqn:Hk; [reflexivity|].
    destruct (k - List.length cis)%nat as [|[|m]] eqn:Hm; reflexivity.
  - change (Order.mk (order_seq db) u None false (sum (map Cart.price cis)) today)
      with (new_order db u today).
    rewrite (for_each_run cis _ None (order_seq db) Hnd Hfresh).
    reflexivity.
Qed.

(** With no assumption on the tables and under any fault, [create] leaves
    the tables untouched, or with the order row and a prefix of its lines
    (and then reports a server error), or with the whole sequence done. *)
Lemma create_effect usr today f db out db' :
  let u := User.id usr in
  let cis := Cart_filter_user u db in
  run_view (OrderViewSet.create usr today) f db = (out, db') ->
  (db' = db /\ out <> Response HTTP_201_CREATED [])
  \/ (cis <> [] /\ exists j e, (j <= List.length cis)%nat
                   /\ db' = staged db u today j /\ out = Unhandled e)
  \/ (cis <> [] /\ db' = placed db u today).
Proof.
  intros u cis.
  assert (Hall : staged db u today (List.length cis)
                 = add_lines
                     (set_orders db (orders db ++ [new_order db u today])
                                 (order_seq db + 1)) (order_seq db) cis).
  { unfold staged. fold cis. rewrite firstn_all. reflexivity. }
  assert (Hpl : placed db u today
                = set_cart
                    (add_lines
                       (set_orders db (orders db ++ [new_order db u today])
                                   (order_seq db + 1)) (order_seq db) cis)
                    (filter (fun c => negb (Cart.user c =? u)) (cart db))
                    (cart_seq db)).
  { unfold placed. cbv zeta. fold cis. rewrite Hall. reflexivity. }
  unfold run_view, OrderViewSet.create. fold u.
  intros H.
  assert (Hno : forall o, (Unhandled DatabaseError, db) = (o, db') ->
                (db' = db /\ o <> Response HTTP_201_CREATED [])).
  { intros o E. inversion E; subst. split; [reflexivity | congruence]. }
  assert (Hd : cis = [] \/ cis <> []).
  { unfold cis. destruct (Cart_filter_user u db);
      [left; reflexivity | right; congruence]. }
  destruct Hd as [Hempty|Hne].
  { left. revert H. orm_step.
    assert (Hex : Cart_exists u db = inr (false, db)).
    { unfold Cart_exists. fold cis. rewrite Hempty. reflexivity. }
    rewrite Hex.
    destruct f as [[|k]|]; cbv beta iota zeta; cbn [negb]; unfold ret;
      intros H; inversion H; subst; split; try reflexivity;
      unfold HTTP_201_CREATED, HTTP_400_BAD_REQUEST; congruence. }
  assert (Hex : Cart_exists u db = inr (true, db)).
  { unfold Cart_exists. fold cis. destruct cis; [congruence | reflexivity]. }
  revert H.
  destruct f as [[|[|[|k]]]|]; orm_step;
    try (intros H; left; inversion H; subst;
         split; [reflexivity | congruence]);
    rewrite Hex; cbv beta iota zeta; cbn [negb];
    orm_step; try (intros H; left; apply Hno; exact H);
    unfold Cart_select at 1; cbv beta iota zeta; fold cis;
    orm_step; try (intros H; left; apply Hno; exact H);
    unfold Order_objects_create at 1; cbv beta iota zeta;
    unfold bind at 1; cbn [Order.id];
    change (Order.mk (order_seq db) u None false (sum (map Cart.price cis)) today)
      with (new_order db u today);
    match goal with
    | |- context [for_each cis ?body (mkWorld ?d ?fl)] =>
        destruct (for_each cis body (mkWorld d fl)) as [r w] eqn:Hloop
    end;
    apply for_each_prefix in Hloop; destruct Hloop as (j & Hj & Hw & Hr);
    destruct w as [dw fw]; cbn [world_db] in Hw; subst dw.
  - destruct r as [e|[]];
      [ intros H; inversion H; subst; right; left; split; [assumption|];
        exists j, e; auto | ];
      specialize (Hr tt eq_refl); subst j; rewrite firstn_all;
      orm_step;
      destruct fw as [[|[|m]]|]; cbv beta iota zeta;
      try (unfold Cart_delete at 1); cbv beta iota zeta;
      try orm_step;
      cbn [world_db cart cart_seq add_lines set_order_items set_orders];
      unfold Order_render, ret; cbv beta iota zeta; cbn [world_db];
      intros H; inversion H; subst;
      first [ right; right; split; [assumption|]; rewrite Hpl; reflexivity
            | right; left; split; [assumption|];
              exists (List.length cis), DatabaseError; rewrite Hall; auto ].
  - destruct r as [e|[]];
      [ intros H; inversion H; subst; right; left; split; [assumption|];
        exists j, e; auto | ];
      specialize (Hr tt eq_refl); subst j; rewrite firstn_all;
      orm_step;
      destruct fw as [[|[|m]]|]; cbv beta iota zeta;
      try (unfold Cart_delete at 1); cbv beta iota zeta;
      try orm_step;
      cbn [world_db cart cart_seq add_lines set_order_items set_orders];
      unfold Order_render, ret; cbv beta iota zeta; cbn [world_db];
      intros H; inversion H; subst;
      first [ right; right; split; [assumption|]; rewrite Hpl; reflexivity
            | right; left; split; [assumption|];
              exists (List.length cis), DatabaseError; rewrite Hall; auto ].
Qed.

(** ** Placing an order *)

Lemma cart_unique_menuitems rows u :
  cart_unique rows ->
  NoDup (map Cart.menuitem (filter (fun c => Cart.user c =? u) rows)).
Proof.
  unfold cart_unique. induction rows as [|c rows IH]; simpl; intros H.
  - constructor.
  - inversion H as [|x l Hnin Hnd]; subst.
    destruct (Cart.user c =? u) eqn:E; [|auto].
    simpl. constructor; [|auto].
    intros Hin. apply Hnin. apply in_map_iff in Hin.
    destruct Hin as (c' & Hm & Hc'). apply filter_In in Hc'.
    destruct Hc' as [Hc' Hu]. apply in_map_iff. exists c'.
    split; [|assumption]. f_equal; lia.
Qed.

Lemma copy_lines_fields o seq cis :
  map order_line_fields (copy_lines o seq cis) = map cart_line_fields cis.
Proof.
  revert seq. induction cis as [|c cis IH]; intros seq; simpl;
    [reflexivity | rewrite IH; reflexivity].
Qed.

Lemma copy_lines_price o seq cis :
  map OrderItem.price (copy_lines o seq cis) = map Cart.price cis.
Proof.
  revert seq. induction cis as [|c cis IH]; intros seq; simpl;
    [reflexivity | rewrite IH; reflexivity].
Qed.

Lemma copy_lines_order o seq cis it :
  In it (copy_lines o seq cis) -> OrderItem.order it = o.
Proof.
  revert seq. induction cis as [|c cis IH]; intros seq; simpl; [tauto|].
  intros [<-|H]; [reflexivity | eauto].
Qed.

Lemma filter_all {A} (p : A -> bool) l :
  (forall x, In x l -> p x = true) -> filter p l = l.
Proof.
  induction l as [|a l IH]; simpl; intros H; [reflexivity|].
  rewrite (H a) by auto. f_equal. auto.
Qed.

Lemma filter_none {A} (p : A -> bool) l :
  (forall x, In x l -> p x = false) -> filter p l = [].
Proof.
  induction l as [|a l IH]; simpl; intros H; [reflexivity|].
  rewrite (H a) by auto. auto.
Qed.

Lemma filter_filter_neg u (rows : list Cart.t) :
  filter (fun c => Cart.user c =? u)
         (filter (fun c => negb (Cart.user c =? u)) rows) = [].
Proof.
  apply filter_none. intros x Hx. apply filter_In in Hx.
  destruct Hx as [_ Hx]. destruct (Cart.user x =? u); [discriminate|reflexivity].
Qed.

Lemma filter_filter_other u v (rows : list Cart.t) :
  v <> u ->
  filter (fun c => Cart.user c =? v)
         (filter (fun c => negb (Cart.user c =? u)) rows)
  = filter (fun c => Cart.user c =? v) rows.
Proof.
  intros Hne. induction rows as [|c rows IH]; simpl; [reflexivity|].
  destruct (Cart.user c =? u) eqn:Eu; simpl.
  - destruct (Cart.user c =? v) eqn:Ev; [lia | assumption].
  - destruct (Cart.user c =? v); [f_equal|]; assumption.
Qed.

(** C7. With no cart line for the user, placing an order answers 400 with
    the error "Cart is empty" whenever the query on the cart itself does
    not fail, and in every case no row is written. *)
Theorem empty_cart_is_rejected usr today db :
  Cart_filter_user (User.id usr) db = [] ->
  run_view (OrderViewSet.create usr today) None db
  = (Response HTTP_400_BAD_REQUEST [("error", "Cart is empty")]%string, db)
  /\ (forall k,
         run_view (OrderViewSet.create usr today) (Some (S k)) db
         = (Response HTTP_400_BAD_REQUEST [("error", "Cart is empty")]%string,
            db))
  /\ (forall f,
         let db' := snd (run_view (OrderViewSet.create usr today) f db) in
         orders db' = orders db /\ order_items db' = order_items db
         /\ db' = db).
Proof.
  intros Hempty.
  assert (Hex : Cart_exists (User.id usr) db = inr (false, db)).
  { unfold Cart_exists. rewrite Hempty. reflexivity. }
  assert (Hrun : forall f,
             run_view (OrderViewSet.create usr today) f db
             = match f with
               | Some O => (Unhandled DatabaseError, db)
               | _ => (Response HTTP_400_BAD_REQUEST
                         [("error", "Cart is empty")]%string, db)
               end).
  { intros f. unfold run_view, OrderViewSet.create. orm_step. rewrite Hex.
    destruct f as [[|k]|]; reflexivity. }
  split; [apply (Hrun None)|]. split; [intros k; apply (Hrun (Some (S k)))|].
  intros f. rewrite (Hrun f). destruct f as [[|k]|]; simpl; auto.
Qed.

(** C7, for Alice with an empty cart. *)
Lemma empty_cart_is_rejected_witness :
  run_view (OrderViewSet.create Sample.alice 100) None Sample.db0
  = (Response HTTP_400_BAD_REQUEST [("error", "Cart is empty")]%string,
     Sample.db0).
Proof.
  apply (empty_cart_is_rejected Sample.alice 100 Sample.db0). reflexivity.
Defined.

(** C1, as stated, fails: Alice holds two cart lines and the insert of the
    second order line raises. The request ends in a server error; the order
    row and the first order line are in the tables, the cart is untouched.
    The tables are neither as before the call nor as after a whole run. *)
Lemma place_order_fault_leaves_partial_order :
  let r := run_view (OrderViewSet.create Sample.alice 100) (Some 4%nat)
                    Sample.db2 in
  fst r = Unhandled DatabaseError
  /\ cart (snd r) = cart Sample.db2
  /\ orders (snd r) = [Order.mk 1 1 None false 3497 100]
  /\ order_items (snd r) = [OrderItem.mk 1 1 1 2 1299 2598]
  /\ snd r <> Sample.db2
  /\ snd r <> placed Sample.db2 1 100.
Proof.
  cbv zeta. repeat split; try reflexivity.
  - intros H. apply (f_equal orders) in H. vm_compute in H. discriminate.
  - intros H. apply (f_equal cart) in H. vm_compute in H. discriminate.
Qed.

(** C1, amended. The view issues its statements one by one, outside any
    transaction. For a user with a non-empty cart, on tables that satisfy
    their key and uniqueness constraints:
    - with no failing statement the order row and one order line per cart
      line are written and every cart line of the user is deleted, the
      lines of the other users staying;
    - when one of the statements up to the insert of the order row fails,
      the tables are as before the call;
    - when the insert of the order line number [j + 1] fails, or the
      deletion of the cart for [j] the number of cart lines, the order row
      and the first [j] order lines stay written and the cart is untouched;
    - when the rendering of the response fails, everything is written. *)
Theorem place_order_statement_by_statement usr today db :
  let u := User.id usr in
  let cis := Cart_filter_user u db in
  let n := List.length cis in
  cis <> [] -> cart_ok db -> keys_ok db ->
  run_view (OrderViewSet.create usr today) None db
  = (Response HTTP_201_CREATED [], placed db u today)
  /\ (forall k, (k < 3)%nat ->
        run_view (OrderViewSet.create usr today) (Some k) db
        = (Unhandled DatabaseError, db))
  /\ (forall j, (j <= n)%nat ->
        run_view (OrderViewSet.create usr today) (Some (3 + j)%nat) db
        = (Unhandled DatabaseError, staged db u today j))
  /\ run_view (OrderViewSet.create usr today) (Some (4 + n)%nat) db
     = (Unhandled DatabaseError, placed db u today)
  /\ (Cart_filter_user u (placed db u today) = []
      /\ (forall v, v <> u ->
            Cart_filter_user v (placed db u today) = Cart_filter_user v db)
      /\ orders (placed db u today) = orders db ++ [new_order db u today]
      /\ lines_of (placed db u today) (order_seq db)
         = copy_lines (order_seq db) (order_item_seq db) cis
      /\ order_items (placed db u today)
         = order_items db ++ copy_lines (order_seq db) (order_item_seq db) cis
      /\ map order_line_fields
             (copy_lines (order_seq db) (order_item_seq db) cis)
         = map cart_line_fields cis)
  /\ (forall j,
        cart (staged db u today j) = cart db
        /\ orders (staged db u today j) = orders db ++ [new_order db u today]
        /\ order_items (staged db u today j)
           = order_items db
             ++ copy_lines (order_seq db) (order_item_seq db) (firstn j cis)).
Proof.
  intros u cis n Hne (_ & _ & Huniq) (_ & _ & Hkeys).
  assert (Hnd : NoDup (map Cart.menuitem cis))
    by (apply cart_unique_menuitems; exact Huniq).
  assert (Hrun := fun f => create_run usr today db f Hne Hnd Hkeys).
  cbv zeta in Hrun. fold u cis n in Hrun.
  split; [apply (Hrun None)|].
  split.
  { intros k Hk. rewrite (Hrun (Some k)).
    apply Nat.ltb_lt in Hk. rewrite Hk. reflexivity. }
  split.
  { intros j Hj. rewrite (Hrun (Some (3 + j)%nat)).
    change (3 + j <? 3)%nat with false. cbv iota.
    replace (3 + j - 3)%nat with j by lia.
    destruct (j <? n)%nat eqn:E; [reflexivity|].
    apply Nat.ltb_ge in E. assert (j = n) by lia. subst j.
    rewrite Nat.sub_diag. reflexivity. }
  split.
  { rewrite (Hrun (Some (4 + n)%nat)).
    change (4 + n <? 3)%nat with false. cbv iota.
    replace (4 + n - 3)%nat with (S n) by lia.
    assert (E : (S n <? n)%nat = false) by (apply Nat.ltb_ge; lia).
    rewrite E. replace (S n - n)%nat with 1%nat by lia. reflexivity. }
  split.
  { unfold placed, staged. cbv zeta. fold u cis. rewrite firstn_all.
    unfold Cart_filter_user, lines_of. simpl.
    split; [apply filter_filter_neg|].
    split; [intros v Hv; apply filter_filter_other; exact Hv|].
    split; [reflexivity|].
    split; [|split; [reflexivity | apply copy_lines_fields]].
    rewrite filter_app.
    rewrite (filter_none _ (order_items db)).
    - simpl. apply filter_all. intros x Hx.
      apply copy_lines_order in Hx. lia.
    - intros x Hx. apply Hkeys in Hx. lia. }
  intros j. unfold staged. simpl. auto.
Qed.

(** C1 amended, on the tables where Alice holds two cart lines. *)
Lemma place_order_statement_by_statement_witness :
  run_view (OrderViewSet.create Sample.alice 100) None Sample.db2
  = (Response HTTP_201_CREATED [], placed Sample.db2 1 100).
Proof.
  apply (place_order_statement_by_statement Sample.alice 100 Sample.db2).
  - discriminate.
  - repeat split.
    + repeat constructor; simpl; intuition discriminate.
    + simpl. intros c [<-|[<-|[]]]; reflexivity.
    + repeat constructor; simpl; intuition discriminate.
  - repeat split.
    + constructor.
    + simpl. tauto.
    + simpl. tauto.
Defined.

(** ** Frames: what an operation leaves alone *)

Ltac split_match :=
  repeat match goal with
         | |- context [match ?x with _ => _ end] => destruct x eqn:?
         end.

Lemma cart_create_effect u data db :
  snd (CartViewSet.create u data db) = db
  \/ exists c, Cart.id c = cart_seq db
               /\ Cart_conflict c (cart db) = false
               /\ snd (CartViewSet.create u data db)
                  = set_cart db (cart db ++ [c]) (cart_seq db + 1).
Proof.
  unfold CartViewSet.create.
  destruct (CartSerializer_is_valid _ _ _ _ _) as [e|vd]; [left; reflexivity|].
  unfold CartSerializer_create, Cart_objects_create.
  destruct (v_menuitem vd) as [m|]; [|left; reflexivity].
  destruct (v_quantity vd) as [q|]; [|left; reflexivity].
  destruct (Cart_conflict _ _) eqn:E; [left; reflexivity|].
  right. eexists. split; [|split; [exact E | reflexivity]]. reflexivity.
Qed.

Lemma cart_update_effect u pk data partial db :
  snd (CartViewSet.update u pk data partial db) = db
  \/ exists instance c,
       In instance (cart db) /\ Cart.id c = Cart.id instance
       /\ Cart_conflict c (cart db) = false
       /\ snd (CartViewSet.update u pk data partial db)
          = set_cart db
              (map (fun r => if Cart.id r =? Cart.id c then c else r) (cart db))
              (cart_seq db).
Proof.
  unfold CartViewSet.update.
  destruct (CartViewSet.get_object u pk db) as [instance|] eqn:Hg;
    [|left; reflexivity].
  destruct (CartSerializer_is_valid _ _ _ _ _) as [e|vd]; [left; reflexivity|].
  unfold CartSerializer_update, Cart_save.
  destruct (Cart_conflict _ _) eqn:E; [left; reflexivity|].
  right. exists instance, (CartSerializer_update_fields instance vd).
  split.
  { unfold CartViewSet.get_object, CartViewSet.get_queryset, Cart_filter_user in Hg.
    apply find_some in Hg. destruct Hg as [Hg _].
    apply filter_In in Hg. tauto. }
  split.
  { unfold CartSerializer_update_fields.
    destruct (v_quantity vd), (v_menuitem vd); reflexivity. }
  split; [exact E | reflexivity].
Qed.

Lemma step_cart_frame op db :
  match op with
  | cart_create _ _ | cart_update _ _ _ _ | cart_destroy _ _ | cart_clear _
  | order_create _ _ _ | menu_destroy _ => True
  | _ => cart (snd (step op db)) = cart db
         /\ cart_seq (snd (step op db)) = cart_seq db
  end.
Proof.
  destruct op; try exact I; simpl;
    unfold OrderViewSet.update, OrderViewSet.validate_and_save,
      OrderViewSet.assign_delivery_crew, OrderViewSet.destroy,
      MenuViewSet.create, MenuViewSet.update, MenuViewSet.update_featured,
      ReservationViewSet.create, ReservationViewSet.update,
      ReservationViewSet.destroy;
    split_match; simpl; auto.
Qed.

Lemma step_order_frame op db :
  match op with
  | order_create _ _ _ | order_update _ _ _ _
  | order_assign_delivery_crew _ _ _ | order_destroy _ _
  | menu_destroy _ => True
  | _ => orders (snd (step op db)) = orders db
         /\ order_seq (snd (step op db)) = order_seq db
         /\ order_items (snd (step op db)) = order_items db
  end.
Proof.
  destruct op; try exact I; cbn [step].
  - destruct (cart_create_effect u data db) as [->|(c & _ & _ & ->)];
      simpl; auto.
  - destruct (cart_update_effect u pk data partial db)
      as [->|(i & c & _ & _ & _ & ->)]; simpl; auto.
  - unfold CartViewSet.destroy; split_match; simpl; auto.
  - simpl; auto.
  - unfold MenuViewSet.create; split_match; simpl; auto.
  - unfold MenuViewSet.update; split_match; simpl; auto.
  - unfold MenuViewSet.update_featured; split_match; simpl; auto.
  - unfold ReservationViewSet.create; split_match; simpl; auto.
  - unfold ReservationViewSet.update; split_match; simpl; auto.
  - unfold ReservationViewSet.destroy; split_match; simpl; auto.
Qed.

(** ** The unique constraint of the cart *)

Lemma NoDup_map_filter {A B} (f : A -> B) (p : A -> bool) l :
  NoDup (map f l) -> NoDup (map f (filter p l)).
Proof.
  induction l as [|a l IH]; simpl; intros H; [constructor|].
  inversion H as [|x l' Hnin Hnd]; subst.
  destruct (p a); [|auto]. simpl. constructor; [|auto].
  intros Hin. apply Hnin. apply in_map_iff in Hin.
  destruct Hin as (x & Hx & Hin). apply filter_In in Hin.
  apply in_map_iff. exists x. tauto.
Qed.

Lemma cart_ok_filter db p :
  cart_ok db -> cart_ok (set_cart db (filter p (cart db)) (cart_seq db)).
Proof.
  intros (Hid & Hlt & Hu). unfold cart_ok, cart_unique. simpl.
  split; [apply NoDup_map_filter; exact Hid|].
  split; [|apply NoDup_map_filter; exact Hu].
  intros c Hc. apply filter_In in Hc. apply Hlt. tauto.
Qed.

Lemma conflict_false_pair c rows r :
  Cart_conflict c rows = false -> In r rows -> Cart.id r <> Cart.id c ->
  (Cart.user r, Cart.menuitem r) <> (Cart.user c, Cart.menuitem c).
Proof.
  unfold Cart_conflict. intros Hc Hin Hid Heq. inversion Heq as [[Hu Hm]].
  assert (E : existsb
                (fun r => negb (Cart.id r =? Cart.id c)
                          && (Cart.user r =? Cart.user c)
                          && (Cart.menuitem r =? Cart.menuitem c)) rows = true).
  { apply existsb_exists. exists r. split; [assumption|].
    rewrite Hu, Hm, !Z.eqb_refl.
    destruct (Cart.id r =? Cart.id c) eqn:E; [lia | reflexivity]. }
  congruence.
Qed.

Lemma cart_ok_insert db c :
  cart_ok db -> Cart.id c = cart_seq db ->
  Cart_conflict c (cart db) = false ->
  cart_ok (set_cart db (cart db ++ [c]) (cart_seq db + 1)).
Proof.
  intros (Hid & Hlt & Hu) Hc Hconf. unfold cart_ok, cart_unique in *. simpl.
  rewrite !map_app. simpl.
  split; [|split].
  - apply NoDup_app; [exact Hid | repeat constructor; simpl; tauto |].
    intros x Hx [<-|[]]. apply in_map_iff in Hx.
    destruct Hx as (r & Hr & Hin). apply Hlt in Hin. lia.
  - intros r Hr. apply in_app_or in Hr. destruct Hr as [Hr|[<-|[]]].
    + apply Hlt in Hr. lia.
    + lia.
  - apply NoDup_app; [exact Hu | repeat constructor; simpl; tauto |].
    intros x Hx [<-|[]]. apply in_map_iff in Hx.
    destruct Hx as (r & Hr & Hin).
    apply (conflict_false_pair c (cart db) r Hconf Hin); [|exact Hr].
    apply Hlt in Hin. lia.
Qed.

Lemma replace_absent c (rows : list Cart.t) :
  ~ In (Cart.id c) (map Cart.id rows) ->
  map (fun r => if Cart.id r =? Cart.id c then c else r) rows = rows.
Proof.
  induction rows as [|r rows IH]; simpl; intros H; [reflexivity|].
  destruct (Cart.id r =? Cart.id c) eqn:E; [exfalso; apply H; left; lia|].
  f_equal. apply IH. tauto.
Qed.

Lemma replace_unique c (rows : list Cart.t) :
  NoDup (map Cart.id rows) ->
  NoDup (map (fun r => (Cart.user r, Cart.menuitem r)) rows) ->
  Cart_conflict c rows = false ->
  NoDup (map (fun r => (Cart.user r, Cart.menuitem r))
             (map (fun r => if Cart.id r =? Cart.id c then c else r) rows)).
Proof.
  induction rows as [|r rows IH]; intros Hid Hu Hc; [constructor|].
  cbn [map] in Hid, Hu |- *.
  inversion Hid as [|x l Hnin Hid']; subst.
  inversion Hu as [|x l Hnin' Hu']; subst.
  assert (Hc' : Cart_conflict c rows = false).
  { pose proof Hc as Hc0. unfold Cart_conflict in Hc0 |- *. simpl in Hc0.
    apply orb_false_iff in Hc0. tauto. }
  destruct (Cart.id r =? Cart.id c) eqn:E.
  - rewrite replace_absent.
    + constructor; [|exact Hu'].
      intros Hin. apply in_map_iff in Hin. destruct Hin as (r' & Hp & Hin).
      apply (conflict_false_pair c rows r' Hc' Hin); [|exact Hp].
      intros Heq. apply Hnin. apply in_map_iff. exists r'.
      split; [lia | assumption].
    + intros Hin. apply Hnin. replace (Cart.id r) with (Cart.id c) by lia.
      exact Hin.
  - constructor; [|apply IH; assumption].
    intros Hin. apply in_map_iff in Hin. destruct Hin as (x & Hp & Hin).
    apply in_map_iff in Hin. destruct Hin as (r' & Hx & Hin).
    destruct (Cart.id r' =? Cart.id c) eqn:E'; subst x.
    + apply (conflict_false_pair c (r :: rows) r Hc); [left; reflexivity | lia|].
      symmetry. exact Hp.
    + apply Hnin'. apply in_map_iff. exists r'. tauto.
Qed.

Lemma cart_ok_replace db c instance :
  cart_ok db -> In instance (cart db) -> Cart.id c = Cart.id instance ->
  Cart_conflict c (cart db) = false ->
  cart_ok (set_cart db
             (map (fun r => if Cart.id r =? Cart.id c then c else r) (cart db))
             (cart_seq db)).
Proof.
  intros (Hid & Hlt & Hu) Hin Hc Hconf. unfold cart_ok, cart_unique. simpl.
  assert (Hids : map Cart.id
                   (map (fun r => if Cart.id r =? Cart.id c then c else r)
                        (cart db)) = map Cart.id (cart db)).
  { rewrite map_map. apply map_ext. intros r.
    destruct (Cart.id r =? Cart.id c) eqn:E; [lia | reflexivity]. }
  split; [rewrite Hids; exact Hid|].
  split; [|apply replace_unique; assumption].
  intros r Hr. apply in_map_iff in Hr. destruct Hr as (r' & Hx & Hr').
  destruct (Cart.id r' =? Cart.id c); subst r.
  - rewrite Hc. apply Hlt. exact Hin.
  - apply Hlt. exact Hr'.
Qed.

(** Every operation keeps the constraints of the cart table. *)
Lemma step_cart_ok op db : cart_ok db -> cart_ok (snd (step op db)).
Proof.
  intros Hok.
  assert (Hframe := step_cart_frame op db).
  assert (Hsame : forall db', cart db' = cart db -> cart_seq db' = cart_seq db ->
                              cart_ok db').
  { intros db' Hc Hs. unfold cart_ok. rewrite Hc, Hs. exact Hok. }
  destruct op; try (destruct Hframe; apply Hsame; assumption); cbn [step].
  - destruct (cart_create_effect u data db) as [->|(c & Hc & Hconf & ->)];
      [assumption | apply cart_ok_insert; assumption].
  - destruct (cart_update_effect u pk data partial db)
      as [->|(i & c & Hin & Hc & Hconf & ->)];
      [assumption | apply (cart_ok_replace db c i); assumption].
  - unfold CartViewSet.destroy.
    destruct (CartViewSet.get_object u pk db); [|assumption].
    apply cart_ok_filter. assumption.
  - apply cart_ok_filter. assumption.
  - destruct (run_view (OrderViewSet.create u today) f db) as [out db'] eqn:E.
    apply create_effect in E. cbv zeta in E.
    destruct E as [[-> _]|[(_ & j & e & _ & -> & _)|[_ ->]]].
    + assumption.
    + apply Hsame; reflexivity.
    + pose proof (cart_ok_filter db
                    (fun c => negb (Cart.user c =? User.id u)) Hok) as Hf.
      exact Hf.
  - unfold MenuViewSet.destroy.
    destruct (MenuViewSet.get_object pk db); [|assumption].
    destruct Hok as (Hid & Hlt & Hu). unfold cart_ok, cart_unique. simpl.
    split; [apply NoDup_map_filter; exact Hid|].
    split; [|apply NoDup_map_filter; exact Hu].
    intros c Hc. apply filter_In in Hc. apply Hlt. tauto.
Qed.

(** C4, as stated, fails: Alice holds two Greek salads and adds three more.
    The request is refused with a validation error and the stored line
    keeps its quantity of two: there is no merge into the existing row. *)
Lemma cart_readd_is_not_merged :
  CartViewSet.create Sample.alice
    [("menuitem"%string, VInt 1); ("quantity"%string, VInt 3)] Sample.db1
  = (Response HTTP_400_BAD_REQUEST
       [("non_field_errors"%string, unique_set_message)], Sample.db1)
  /\ map Cart.quantity (Cart_filter_user 1 Sample.db1) = [2].
Proof. split; reflexivity. Qed.

(** C4, amended. Adding a menu item for which the user already holds a cart
    line is refused with a 400 response and leaves every table as it was.
    No operation produces a duplicate: a cart table with distinct keys and
    no two lines for the same (user, menu item) stays so after every
    sequence of operations. *)
Theorem cart_readd_rejected_and_no_duplicates :
  (forall u data db pk c,
      lookup data "menuitem" = Some (VInt pk) ->
      In c (cart db) -> Cart.user c = User.id u -> Cart.menuitem c = pk ->
      exists errs,
        CartViewSet.create u data db
        = (Response HTTP_400_BAD_REQUEST errs, db))
  /\ (forall ops db, cart_ok db -> cart_unique (cart (run ops db))).
Proof.
  split.
  - intros u data db pk c Hl Hin Hu Hm. unfold CartViewSet.create.
    destruct (CartSerializer_is_valid (User.id u) None db data false)
      as [errs|vd] eqn:Hv; [eauto|].
    exfalso. apply Cart_is_valid_inv in Hv. destruct Hv as (Hmi & _ & Huv).
    rewrite Hl in Hmi. destruct Hmi as (m & Hf & Hvm).
    apply menuitem_field_inv in Hf. destruct Hf as (pk' & E & _ & Hid).
    assert (Hcm : Cart.menuitem c = Menu.id m) by congruence.
    unfold Cart_unique_validator in Huv. rewrite Hvm in Huv.
    assert (Ht : existsb
                   (fun r => (Cart.user r =? User.id u)
                             && (Cart.menuitem r =? Menu.id m) && true)
                   (cart db) = true).
    { apply existsb_exists. exists c. split; [assumption|].
      rewrite Hu, Hcm, !Z.eqb_refl. reflexivity. }
    congruence.
  - intros ops. induction ops as [|op ops IH]; intros db Hok.
    + simpl. apply Hok.
    + simpl. apply IH. apply step_cart_ok. exact Hok.
Qed.

(** C4 amended, on the cart where Alice holds two Greek salads. *)
Lemma cart_readd_rejected_and_no_duplicates_witness :
  (exists errs,
      CartViewSet.create Sample.alice
        [("menuitem"%string, VInt 1); ("quantity"%string, VInt 3)] Sample.db1
      = (Response HTTP_400_BAD_REQUEST errs, Sample.db1))
  /\ cart_unique
       (cart (run [cart_create Sample.alice
                     [("menuitem"%string, VInt 2); ("quantity"%string, VInt 1)];
                   cart_create Sample.alice
                     [("menuitem"%string, VInt 2); ("quantity"%string, VInt 4)]]
                  Sample.db1)).
Proof.
  split.
  - apply (proj1 cart_readd_rejected_and_no_duplicates Sample.alice _
             Sample.db1 1 (Cart.mk 1 1 1 2 1299 2598)).
    + reflexivity.
    + simpl. left. reflexivity.
    + reflexivity.
    + reflexivity.
  - apply (proj2 cart_readd_rejected_and_no_duplicates).
    repeat split.
    + repeat constructor. simpl. tauto.
    + simpl. intros c [<-|[]]. reflexivity.
    + repeat constructor. simpl. tauto.
Defined.

(** ** Orders are frozen *)

Lemma sum_from l : forall a, fold_left Z.add l a = a + sum l.
Proof.
  unfold sum. induction l as [|x l IH]; intros a; simpl; [lia|].
  rewrite IH, (IH x). lia.
Qed.

Lemma NoDup_map_inj {A} (key : A -> Z) l a b :
  NoDup (map key l) -> In a l -> In b l -> key a = key b -> a = b.
Proof.
  induction l as [|x l IH]; simpl; intros Hnd Ha Hb Hk; [tauto|].
  inversion Hnd as [|y l' Hnin Hnd']; subst.
  destruct Ha as [<-|Ha], Hb as [<-|Hb]; auto.
  - exfalso. apply Hnin. rewrite Hk. apply in_map. exact Hb.
  - exfalso. apply Hnin. rewrite <- Hk. apply in_map. exact Ha.
Qed.

Lemma frozen_frame db db' :
  orders db' = orders db -> order_seq db' = order_seq db ->
  order_items db' = order_items db -> frozen db db'.
Proof.
  intros Ho Hs Hi. unfold frozen, lines_of. rewrite Ho, Hs, Hi.
  split; [lia|]. intros o' Hin _. split; [|reflexivity].
  exists o'. unfold same_order. auto.
Qed.

Lemma frozen_trans db db1 db2 :
  frozen db db1 -> frozen db1 db2 -> frozen db db2.
Proof.
  intros [Hs1 H1] [Hs2 H2]. split; [lia|].
  intros o' Hin Hlt.
  destruct (H2 o' Hin ltac:(lia)) as [(o1 & Hin1 & Hsame1) Hl2].
  assert (Hid1 : Order.id o1 = Order.id o') by (destruct Hsame1; lia).
  destruct (H1 o1 Hin1 ltac:(lia)) as [(o & Hin0 & Hsame0) Hl1].
  split.
  - exists o. split; [assumption|]. unfold same_order in *.
    intuition congruence.
  - rewrite Hl2, <- Hid1. exact Hl1.
Qed.

Lemma frozen_save db o1 instance :
  In instance (orders db) -> same_order instance o1 ->
  frozen db (Order_save o1 db).
Proof.
  intros Hin Hsame. unfold frozen, Order_save, lines_of. simpl.
  split; [lia|]. intros o' Ho' _. split; [|reflexivity].
  apply in_map_iff in Ho'. destruct Ho' as (r & Hr & Hrin).
  destruct (Order.id r =? Order.id o1); subst o'.
  - exists instance. auto.
  - exists r. unfold same_order. auto.
Qed.

Lemma filter_filter_order (items : list OrderItem.t) i k :
  k <> i ->
  filter (fun it => OrderItem.order it =? k)
         (filter (fun it => negb (OrderItem.order it =? i)) items)
  = filter (fun it => OrderItem.order it =? k) items.
Proof.
  intros Hne. induction items as [|x items IH]; simpl; [reflexivity|].
  destruct (OrderItem.order x =? i) eqn:Ei; simpl.
  - destruct (OrderItem.order x =? k) eqn:Ek; [lia | assumption].
  - destruct (OrderItem.order x =? k); [f_equal|]; assumption.
Qed.

Lemma frozen_destroy db i :
  frozen db
    (set_orders
       (set_order_items db
          (filter (fun it => negb (OrderItem.order it =? i)) (order_items db))
          (order_item_seq db))
       (filter (fun o => negb (Order.id o =? i)) (orders db)) (order_seq db)).
Proof.
  unfold frozen, lines_of. simpl. split; [lia|].
  intros o' Ho' _. apply filter_In in Ho'. destruct Ho' as [Hin Hne].
  split; [exists o'; unfold same_order; auto|].
  apply filter_filter_order. destruct (Order.id o' =? i) eqn:E; [discriminate|lia].
Qed.

Lemma lines_of_staged db u today j k :
  k <> order_seq db ->
  lines_of (staged db u today j) k = lines_of db k.
Proof.
  intros Hk. unfold lines_of, staged. simpl. rewrite filter_app.
  rewrite (filter_none _ (copy_lines _ _ _)); [apply app_nil_r|].
  intros x Hx. apply copy_lines_order in Hx. lia.
Qed.

Lemma frozen_staged db u today j : frozen db (staged db u today j).
Proof.
  split; [simpl; lia|]. intros o' Ho' Hlt. simpl in Ho'.
  apply in_app_or in Ho'. destruct Ho' as [Ho'|[<-|[]]]; [|simpl in Hlt; lia].
  split; [exists o'; unfold same_order; auto|].
  apply lines_of_staged. lia.
Qed.

Lemma frozen_create u today f db :
  frozen db (snd (run_view (OrderViewSet.create u today) f db)).
Proof.
  destruct (run_view (OrderViewSet.create u today) f db) as [out db'] eqn:E.
  apply create_effect in E. cbv zeta in E. simpl.
  destruct E as [[-> _]|[(_ & j & e & _ & -> & _)|[_ ->]]].
  - apply frozen_frame; reflexivity.
  - apply frozen_staged.
  - exact (frozen_staged db (User.id u) today
             (List.length (Cart_filter_user (User.id u) db))).
Qed.

Lemma get_object_in u pk db instance :
  OrderViewSet.get_object u pk db = Some instance -> In instance (orders db).
Proof.
  unfold OrderViewSet.get_object, OrderViewSet.get_queryset. intros H.
  apply find_some in H. destruct H as [H _].
  destruct (User.is_staff u || User.in_group u "Manager"); [assumption|].
  destruct (User.in_group u "Delivery crew");
    apply filter_In in H; tauto.
Qed.

Lemma update_fields_same instance vd :
  same_order instance (OrderSerializer_update_fields instance vd).
Proof. unfold same_order. simpl. auto. Qed.

(** No operation but the deletion of a menu item touches an order row
    beyond its status and delivery crew, or any of its lines. *)
Lemma step_frozen op db :
  is_menu_destroy op = false -> frozen db (snd (step op db)).
Proof.
  intros Hop. assert (Hframe := step_order_frame op db).
  destruct op; try discriminate Hop;
    try (destruct Hframe as (? & ? & ?); apply frozen_frame; assumption);
    cbn [step].
  - apply frozen_create.
  - unfold OrderViewSet.update, OrderViewSet.validate_and_save.
    destruct (OrderViewSet.get_object u pk db) as [instance|] eqn:Hg;
      [|apply frozen_frame; reflexivity].
    apply get_object_in in Hg.
    split_match; try (apply frozen_frame; reflexivity);
      simpl; apply (frozen_save db _ instance Hg); apply update_fields_same.
  - unfold OrderViewSet.assign_delivery_crew.
    destruct (OrderViewSet.get_object u pk db) as [instance|] eqn:Hg;
      [|apply frozen_frame; reflexivity].
    apply get_object_in in Hg.
    split_match; try (apply frozen_frame; reflexivity);
      simpl; apply (frozen_save db _ instance Hg); unfold same_order; simpl; auto.
  - unfold OrderViewSet.destroy.
    destruct (OrderViewSet.get_object u pk db) as [instance|];
      [|apply frozen_frame; reflexivity].
    simpl. apply frozen_destroy.
Qed.

Lemma run_frozen ops : forall db,
  forallb (fun op => negb (is_menu_destroy op)) ops = true ->
  frozen db (run ops db).
Proof.
  induction ops as [|op ops IH]; intros db H; simpl.
  - apply frozen_frame; reflexivity.
  - simpl in H. apply andb_true_iff in H. destruct H as [Hop Hops].
    apply (frozen_trans db (snd (step op db))).
    + apply step_frozen. destruct (is_menu_destroy op); [discriminate|reflexivity].
    + apply IH. exact Hops.
Qed.

Lemma keys_ok_staged db u today j :
  keys_ok db -> keys_ok (staged db u today j).
Proof.
  intros (Hnd & Hlt & Hit). unfold keys_ok. simpl.
  split; [|split].
  - rewrite map_app. simpl.
    apply NoDup_app; [exact Hnd | repeat constructor; simpl; tauto |].
    intros x Hx [<-|[]]. apply in_map_iff in Hx.
    destruct Hx as (o & Ho & Hin). apply Hlt in Hin. lia.
  - intros o Ho. apply in_app_or in Ho.
    destruct Ho as [Ho|[<-|[]]]; [apply Hlt in Ho; lia | simpl; lia].
  - intros it Hin. apply in_app_or in Hin. destruct Hin as [Hin|Hin].
    + apply Hit in Hin. lia.
    + apply copy_lines_order in Hin. lia.
Qed.

Lemma lines_of_placed db u today :
  keys_ok db ->
  lines_of (placed db u today) (order_seq db)
  = copy_lines (order_seq db) (order_item_seq db) (Cart_filter_user u db).
Proof.
  intros (_ & _ & Hit). unfold placed, staged, lines_of. cbv zeta.
  rewrite firstn_all. simpl. rewrite filter_app.
  rewrite (filter_none _ (order_items db)).
  - simpl. apply filter_all. intros x Hx. apply copy_lines_order in Hx. lia.
  - intros x Hx. apply Hit in Hx. lia.
Qed.

(** C2, as stated, fails: the order of [Sample.db3] has a total of 25.98
    and one line of 25.98. The administrator deletes the menu item of that
    line; the line goes with it and the total stays, so the total no longer
    equals the sum of the lines. *)
Lemma menu_deletion_breaks_order_total :
  let o := Order.mk 1 1 (Some 5) true 2598 100 in
  let r := MenuViewSet.dispatch "destroy" Sample.admin 1 [] Sample.db3 in
  In o (orders Sample.db3) /\ total_matches Sample.db3 o
  /\ fst r = Response HTTP_204_NO_CONTENT []
  /\ In o (orders (snd r))
  /\ lines_of (snd r) 1 = []
  /\ ~ total_matches (snd r) o.
Proof.
  cbv zeta. repeat split.
  - simpl. auto.
  - simpl. auto.
  - unfold total_matches. vm_compute. discriminate.
Qed.

(** C2, amended. An order placed by a [create] that runs to its end has a
    total equal to the sum of the prices of its lines, and its lines copy
    menu item, quantity, unit price and price from the cart lines of the
    user. After any sequence of operations none of which deletes a menu
    item (catalog price changes included), an order still in the table has
    the same user, total and date and the same lines, so the equality is
    kept. The deletion of a menu item leaves the order rows as they are and
    removes the order lines that refer to the menu item. *)
Theorem order_total_is_frozen :
  (forall usr today db,
      let u := User.id usr in
      let cis := Cart_filter_user u db in
      let r := run_view (OrderViewSet.create usr today) None db in
      cis <> [] -> cart_ok db -> keys_ok db ->
      fst r = Response HTTP_201_CREATED []
      /\ orders (snd r) = orders db ++ [new_order db u today]
      /\ Order.total (new_order db u today) = sum (map Cart.price cis)
      /\ map order_line_fields (lines_of (snd r) (order_seq db))
         = map cart_line_fields cis
      /\ total_matches (snd r) (new_order db u today)
      /\ keys_ok (snd r))
  /\ (forall ops db o o',
         keys_ok db ->
         forallb (fun op => negb (is_menu_destroy op)) ops = true ->
         In o (orders db) -> In o' (orders (run ops db)) ->
         Order.id o' = Order.id o ->
         same_order o o'
         /\ lines_of (run ops db) (Order.id o') = lines_of db (Order.id o)
         /\ (total_matches db o -> total_matches (run ops db) o'))
  /\ (forall pk db m,
         Menu_get pk db = Some m ->
         let db' := snd (step (menu_destroy pk) db) in
         orders db' = orders db
         /\ order_items db'
            = filter (fun it => negb (OrderItem.menuitem it =? Menu.id m))
                     (order_items db)).
Proof.
  split; [|split].
  - intros usr today db u cis r Hne Hcart Hkeys.
    assert (Hnd : NoDup (map Cart.menuitem cis))
      by (apply cart_unique_menuitems; apply Hcart).
    assert (Hrun := create_run usr today db None Hne Hnd
                      (proj2 (proj2 Hkeys))).
    cbv zeta in Hrun. fold u in Hrun. subst r. rewrite Hrun. simpl fst. simpl snd.
    assert (Hl := lines_of_placed db u today Hkeys). fold cis in Hl.
    split; [reflexivity|]. split; [reflexivity|]. split; [reflexivity|].
    split; [rewrite Hl; apply copy_lines_fields|].
    split.
    + unfold total_matches. change (Order.id (new_order db u today))
        with (order_seq db). rewrite Hl, copy_lines_price. reflexivity.
    + exact (keys_ok_staged db u today
               (List.length (Cart_filter_user u db)) Hkeys).
  - intros ops db o o' Hkeys Hops Hin Hin' Hid.
    destruct (run_frozen ops db Hops) as [_ Hfr].
    destruct Hkeys as (Hnd & Hlt & _).
    destruct (Hfr o' Hin') as [(o2 & Hin2 & Hsame) Hlines].
    { rewrite Hid. apply Hlt. exact Hin. }
    assert (o2 = o).
    { apply (NoDup_map_inj Order.id (orders db)); try assumption.
      destruct Hsame; congruence. }
    subst o2. split; [exact Hsame|].
    split; [rewrite Hlines, Hid; reflexivity|].
    unfold total_matches. intros Ht. rewrite Hlines, Hid.
    destruct Hsame as (_ & _ & -> & _). exact Ht.
  - intros pk db m Hg. cbn [step]. unfold MenuViewSet.destroy, MenuViewSet.get_object.
    rewrite Hg. simpl. auto.
Qed.

(** C2 amended, on sample tables: Alice places the order of her two cart
    lines; later the price of the Greek salad is changed. *)
Lemma order_total_is_frozen_witness :
  total_matches
    (snd (run_view (OrderViewSet.create Sample.alice 100) None Sample.db2))
    (new_order Sample.db2 1 100)
  /\ total_matches
       (run [menu_update 1 [("price"%string, VDec 1499)] true] Sample.db3)
       (Order.mk 1 1 (Some 5) true 2598 100).
Proof.
  split.
  - apply (proj1 order_total_is_frozen Sample.alice 100 Sample.db2).
    + discriminate.
    + repeat split.
      * repeat constructor; simpl; intuition discriminate.
      * simpl. intros c [<-|[<-|[]]]; reflexivity.
      * repeat constructor; simpl; intuition discriminate.
    + repeat split; [constructor | simpl; tauto | simpl; tauto].
  - apply (proj1 (proj2 order_total_is_frozen)
             [menu_update 1 [("price"%string, VDec 1499)] true] Sample.db3
             (Order.mk 1 1 (Some 5) true 2598 100)
             (Order.mk 1 1 (Some 5) true 2598 100)).
    + repeat split.
      * repeat constructor. simpl. tauto.
      * simpl. intros o [<-|[]]. reflexivity.
      * simpl. intros it [<-|[]]. reflexivity.
    + reflexivity.
    + simpl. auto.
    + simpl. auto.
    + reflexivity.
    + reflexivity.
Defined.

(** ** Updating an order *)

Lemma lookup_allowed_data v :
  lookup [("status"%string, v)] "delivery_crew" = None
  /\ lookup [("status"%string, v)] "status" = Some v.
Proof. split; reflexivity. Qed.

Lemma Order_is_valid_status db data partial v :
  lookup data "delivery_crew" = None -> lookup data "status" = Some v ->
  OrderSerializer_is_valid db data partial
  = match status_field v with
    | inr b => inr (mkOrderValidated (Some b) None)
    | inl e => inl [("status"%string, e)]
    end.
Proof.
  intros Hd Hs. unfold OrderSerializer_is_valid, run_field.
  rewrite Hd, Hs. simpl. destruct (status_field v); reflexivity.
Qed.

(** The handler [update] for a delivery-crew actor who is not staff, on an
    order of their queryset: a request that names [delivery_crew] is
    refused with 403 and nothing changes; otherwise only the value under
    [status] is read, and the other keys of the request play no part. *)
Lemma crew_update_handler u pk data partial db instance :
  User.in_group u "Delivery crew" = true -> User.is_staff u = false ->
  OrderViewSet.get_object u pk db = Some instance ->
  (contains data "delivery_crew" = true ->
   OrderViewSet.update u pk data partial db
   = (Response HTTP_403_FORBIDDEN
        [("error", "Delivery crew cannot assign orders")]%string, db))
  /\ (contains data "delivery_crew" = false ->
      OrderViewSet.update u pk data partial db
      = match status_field (data_get data "status") with
        | inr b =>
            (Response HTTP_200_OK [],
             Order_save
               (Order.mk (Order.id instance) (Order.user instance)
                  (Order.delivery_crew instance) b
                  (Order.total instance) (Order.date instance)) db)
        | inl e => (Response HTTP_400_BAD_REQUEST [("status"%string, e)], db)
        end).
Proof.
  intros Hg Hs Hobj. unfold OrderViewSet.update. rewrite Hobj, Hg, Hs. simpl.
  split; intros Hc; rewrite Hc; [reflexivity|].
  unfold OrderViewSet.validate_and_save.
  destruct (lookup_allowed_data (data_get data "status")) as [Hd Hst].
  rewrite (Order_is_valid_status db _ true _ Hd Hst).
  destruct (status_field (data_get data "status")); reflexivity.
Qed.

(** C5. The handler would do what the claim says, but a request never
    reaches it: [get_permissions] composes two permission instances with
    [|], which raises, so every update of an order ends in a server error
    and leaves the tables alone. At the request of the claim (a
    delivery-crew actor sends a status and a delivery crew for an order
    assigned to them) the handler alone answers 403, the request answers
    with the unhandled [TypeError]. *)
Theorem order_update_request_raises :
  (forall u pk data db,
      OrderViewSet.dispatch "update" u pk data db = (Unhandled TypeError, db))
  /\ (forall u pk data db,
         OrderViewSet.dispatch "partial_update" u pk data db
         = (Unhandled TypeError, db))
  /\ OrderViewSet.update Sample.crew 1
       [("status"%string, VBool true); ("delivery_crew"%string, VInt 7)]
       true Sample.db5
     = (Response HTTP_403_FORBIDDEN
          [("error", "Delivery crew cannot assign orders")]%string, Sample.db5)
  /\ OrderViewSet.dispatch "partial_update" Sample.crew 1
       [("status"%string, VBool true); ("delivery_crew"%string, VInt 7)]
       Sample.db5
     = (Unhandled TypeError, Sample.db5).
Proof.
  repeat split.
Qed.

(** The handler at a concrete request: only the status is applied. *)
Lemma crew_update_handler_witness :
  OrderViewSet.update Sample.crew 1
    [("status"%string, VBool true); ("total"%string, VDec 1)] true Sample.db5
  = (Response HTTP_200_OK [],
     Order_save (Order.mk 1 1 (Some 5) true 2598 100) Sample.db5).
Proof.
  apply (proj2 (crew_update_handler Sample.crew 1
                  [("status"%string, VBool true); ("total"%string, VDec 1)]
                  true Sample.db5 (Order.mk 1 1 (Some 5) false 2598 100)
                  eq_refl eq_refl eq_refl)).
  reflexivity.
Defined.

(** The handler [update] on its own puts no condition on the change of the
    status: for every actor who gets the order from the queryset, whatever
    boolean the data carries under [status] is stored, whether the order
    was pending or delivered. *)
Lemma order_status_follows_request u pk data partial db instance b :
  OrderViewSet.get_object u pk db = Some instance ->
  lookup data "status" = Some (VBool b) ->
  lookup data "delivery_crew" = None ->
  OrderViewSet.update u pk data partial db
  = (Response HTTP_200_OK [],
     Order_save
       (Order.mk (Order.id instance) (Order.user instance)
          (Order.delivery_crew instance) b
          (Order.total instance) (Order.date instance)) db)
  /\ (forall o', In o' (orders (snd (OrderViewSet.update u pk data partial db))) ->
        Order.id o' = Order.id instance -> Order.status o' = b).
Proof.
  intros Hobj Hs Hd.
  assert (Hc : contains data "delivery_crew" = false)
    by (unfold contains; rewrite Hd; reflexivity).
  assert (Hget : data_get data "status" = VBool b)
    by (unfold data_get; rewrite Hs; reflexivity).
  assert (Hup : OrderViewSet.update u pk data partial db
                = (Response HTTP_200_OK [],
                   Order_save
                     (Order.mk (Order.id instance) (Order.user instance)
                        (Order.delivery_crew instance) b
                        (Order.total instance) (Order.date instance)) db)).
  { unfold OrderViewSet.update. rewrite Hobj, Hc.
    destruct (User.in_group u "Delivery crew" && negb (User.is_staff u));
      unfold OrderViewSet.validate_and_save.
    - destruct (lookup_allowed_data (data_get data "status")) as [Hd' Hs'].
      rewrite (Order_is_valid_status db _ true _ Hd' Hs'), Hget. reflexivity.
    - rewrite (Order_is_valid_status db _ partial _ Hd Hs). reflexivity. }
  split; [exact Hup|].
  rewrite Hup. unfold Order_save. simpl. intros o' Hin Hid.
  apply in_map_iff in Hin. destruct Hin as (r & Hr & _).
  destruct (Order.id r =? Order.id instance) eqn:E; subst o'.
  - reflexivity.
  - simpl in Hid. lia.
Qed.

(** The handler at two concrete calls: a delivery, and a delivered order
    set back to pending. *)
Lemma order_status_follows_request_witness :
  OrderViewSet.update Sample.crew 1 [("status"%string, VBool true)] true
    Sample.db5
  = (Response HTTP_200_OK [],
     Order_save (Order.mk 1 1 (Some 5) true 2598 100) Sample.db5)
  /\ OrderViewSet.update Sample.manager 1 [("status"%string, VBool false)]
       false Sample.db3
     = (Response HTTP_200_OK [],
        Order_save (Order.mk 1 1 (Some 5) false 2598 100) Sample.db3).
Proof.
  split.
  - apply (order_status_follows_request Sample.crew 1
             [("status"%string, VBool true)] true Sample.db5
             (Order.mk 1 1 (Some 5) false 2598 100) true);
      reflexivity.
  - apply (order_status_follows_request Sample.manager 1
             [("status"%string, VBool false)] false Sample.db3
             (Order.mk 1 1 (Some 5) true 2598 100) false);
      reflexivity.
Defined.

(** ** The status of an order under the requests of the API *)

Lemma status_kept_same db db' :
  orders db' = orders db -> order_seq db' = order_seq db ->
  order_seq db <= order_seq db'
  /\ forall o', In o' (orders db') ->
       (exists o, In o (orders db) /\ Order.id o = Order.id o'
                  /\ Order.status o = Order.status o')
       \/ (Order.id o' = order_seq db /\ Order.status o' = false).
Proof.
  intros -> ->. split; [lia|]. intros o' H. left. eauto.
Qed.

Lemma status_kept_added db db' u today :
  orders db' = orders db ++ [new_order db u today] ->
  order_seq db' = order_seq db + 1 ->
  order_seq db <= order_seq db'
  /\ forall o', In o' (orders db') ->
       (exists o, In o (orders db) /\ Order.id o = Order.id o'
                  /\ Order.status o = Order.status o')
       \/ (Order.id o' = order_seq db /\ Order.status o' = false).
Proof.
  intros -> ->. split; [lia|]. intros o' H. apply in_app_or in H.
  destruct H as [H|[<-|[]]]; [left; eauto | right; split; reflexivity].
Qed.

(** What a request on one order writes: nothing, what
    [assign_delivery_crew] writes, or what [destroy] writes. An update
    never gets past the permissions of its action. *)
Lemma order_route_cases action u pk data db :
  snd (OrderViewSet.dispatch action u pk data db) = db
  \/ snd (OrderViewSet.dispatch action u pk data db)
     = snd (OrderViewSet.assign_delivery_crew u pk data db)
  \/ snd (OrderViewSet.dispatch action u pk data db)
     = snd (OrderViewSet.destroy u pk db).
Proof.
  destruct (String.eqb action "update") eqn:Eu;
    [apply String.eqb_eq in Eu; subst action; left; reflexivity|].
  destruct (String.eqb action "partial_update") eqn:Ep;
    [apply String.eqb_eq in Ep; subst action; left; reflexivity|].
  unfold OrderViewSet.dispatch, OrderViewSet.get_permissions.
  rewrite Eu, Ep. cbn [orb].
  assert (Hr : snd (OrderViewSet.retrieve u pk db) = db)
    by (unfold OrderViewSet.retrieve;
        destruct (OrderViewSet.get_object u pk db); reflexivity).
  destruct (String.eqb action "create");
    destruct (String.eqb action "assign_delivery_crew");
    cbn [check_permissions forallb has_permission andb];
    try destruct (User.in_group u "Manager" || User.is_staff u);
    cbn [andb]; try (left; reflexivity);
    destruct (String.eqb action "retrieve"); try (left; exact Hr);
    try (right; left; reflexivity);
    destruct (String.eqb action "destroy");
    first [right; right; reflexivity | left; reflexivity].
Qed.

Lemma order_save_status db instance o :
  In instance (orders db) ->
  Order.id o = Order.id instance -> Order.status o = Order.status instance ->
  order_seq db <= order_seq (Order_save o db)
  /\ forall o', In o' (orders (Order_save o db)) ->
       (exists x, In x (orders db) /\ Order.id x = Order.id o'
                  /\ Order.status x = Order.status o')
       \/ (Order.id o' = order_seq db /\ Order.status o' = false).
Proof.
  intros Hin Hid Hst. unfold Order_save. simpl. split; [lia|].
  intros o' H. apply in_map_iff in H. destruct H as (r & <- & Hr). left.
  destruct (Order.id r =? Order.id o).
  - exists instance. auto.
  - exists r. auto.
Qed.

(** One request: every order of the table afterwards is an order of the
    table before with the status it had, or the order that the request has
    just created, which is pending. *)
Lemma serve_status r db :
  order_seq db <= order_seq (snd (Api.serve r db))
  /\ forall o', In o' (orders (snd (Api.serve r db))) ->
       (exists o, In o (orders db) /\ Order.id o = Order.id o'
                  /\ Order.status o = Order.status o')
       \/ (Order.id o' = order_seq db /\ Order.status o' = false).
Proof.
  destruct r; cbn [Api.serve]; unfold guarded.
  - destruct (check_permissions _ u);
      [apply status_kept_same; reflexivity|].
    destruct (cart_create_effect u data db) as [->|(c & _ & _ & ->)];
      apply status_kept_same; reflexivity.
  - destruct (check_permissions _ u);
      [apply status_kept_same; reflexivity|].
    destruct (cart_update_effect u pk data false db)
      as [->|(i & c & _ & _ & _ & ->)]; apply status_kept_same; reflexivity.
  - destruct (check_permissions _ u);
      [apply status_kept_same; reflexivity|].
    destruct (cart_update_effect u pk data true db)
      as [->|(i & c & _ & _ & _ & ->)]; apply status_kept_same; reflexivity.
  - destruct (check_permissions _ u);
      [apply status_kept_same; reflexivity|].
    unfold CartViewSet.destroy.
    destruct (CartViewSet.get_object u pk db);
      apply status_kept_same; reflexivity.
  - destruct (check_permissions _ u); apply status_kept_same; reflexivity.
  - destruct (check_permissions _ u);
      [apply status_kept_same; reflexivity|].
    destruct (run_view (OrderViewSet.create u today) f db) as [out db'] eqn:E.
    apply create_effect in E. cbv zeta in E. cbn [snd].
    destruct E as [[-> _]|[(_ & j & e & _ & -> & _)|(_ & ->)]].
    + apply status_kept_same; reflexivity.
    + apply (status_kept_added db _ (User.id u) today); reflexivity.
    + apply (status_kept_added db _ (User.id u) today); reflexivity.
  - destruct (order_route_cases action u pk data db) as [->|[->| ->]].
    + apply status_kept_same; reflexivity.
    + unfold OrderViewSet.assign_delivery_crew.
      destruct (OrderViewSet.get_object u pk db) as [order|] eqn:Hg;
        [|apply status_kept_same; reflexivity].
      destruct (negb (truthy (data_get data "delivery_crew_id")));
        [apply status_kept_same; reflexivity|].
      destruct (OrderViewSet.delivery_user_get _ db) as [e|[x|]];
        try (apply status_kept_same; reflexivity).
      cbn [snd]. apply (order_save_status db order);
        [exact (get_object_in _ _ _ _ Hg) | reflexivity | reflexivity].
    + unfold OrderViewSet.destroy.
      destruct (OrderViewSet.get_object u pk db) as [order|];
        [|apply status_kept_same; reflexivity].
      cbn. split; [lia|]. intros o' H. apply filter_In in H. left.
      exists o'. tauto.
  - unfold MenuViewSet.dispatch.
    destruct (check_permissions _ u);
      [apply status_kept_same; reflexivity|].
    unfold MenuViewSet.create, MenuViewSet.update, MenuViewSet.update_featured,
      MenuViewSet.destroy.
    split_match; apply status_kept_same; reflexivity.
  - destruct (check_permissions _ u);
      [apply status_kept_same; reflexivity|].
    unfold ReservationViewSet.create.
    split_match; apply status_kept_same; reflexivity.
  - destruct (check_permissions _ u);
      [apply status_kept_same; reflexivity|].
    unfold ReservationViewSet.update.
    split_match; apply status_kept_same; reflexivity.
  - destruct (check_permissions _ u);
      [apply status_kept_same; reflexivity|].
    unfold ReservationViewSet.update.
    split_match; apply status_kept_same; reflexivity.
  - destruct (check_permissions _ u);
      [apply status_kept_same; reflexivity|].
    unfold ReservationViewSet.destroy.
    split_match; apply status_kept_same; reflexivity.
  - destruct (check_permissions _ u);
      [apply status_kept_same; reflexivity|].
    unfold ManagerGroupViewSet.create, GroupViewSet.create.
    split_match; apply status_kept_same; reflexivity.
  - destruct (check_permissions _ u);
      [apply status_kept_same; reflexivity|].
    unfold ManagerGroupViewSet.destroy, GroupViewSet.destroy.
    split_match; apply status_kept_same; reflexivity.
  - destruct (check_permissions _ u);
      [apply status_kept_same; reflexivity|].
    unfold DeliveryCrewGroupViewSet.create, GroupViewSet.create.
    split_match; apply status_kept_same; reflexivity.
  - destruct (check_permissions _ u);
      [apply status_kept_same; reflexivity|].
    unfold DeliveryCrewGroupViewSet.destroy, GroupViewSet.destroy.
    split_match; apply status_kept_same; reflexivity.
Qed.

Lemma serve_all_status_kept rs db : status_kept db (Api.serve_all rs db).
Proof.
  revert db. induction rs as [|r rs IH]; intros db; cbn [Api.serve_all].
  - split; [lia|]. intros o' H _. eauto.
  - destruct (serve_status r db) as [Hseq Hstep].
    destruct (IH (snd (Api.serve r db))) as [Hseq' Hrest].
    split; [lia|]. intros o' Hin Hlt.
    destruct (Hrest o' Hin ltac:(lia)) as (o1 & Hin1 & Hid1 & Hst1).
    destruct (Hstep o1 Hin1) as [(o & Ho & Hid & Hst)|[Hnew _]].
    + exists o. repeat split; congruence.
    + lia.
Qed.

(** C6. Under the requests of the API the status of an order never goes
    from delivered back to pending, and it has no third value: it is a
    boolean, an order is created pending, and no sequence of requests, by
    whatever users and with whatever data, changes the status that an
    order has. A request to update an order stops at the permissions of the
    action and leaves the tables alone; [assign_delivery_crew], sent by a
    manager, writes the delivery crew and keeps the status; placing an order
    adds one pending order. *)
Theorem order_status_is_kept_by_requests :
  (forall rs db o o',
      NoDup (map Order.id (orders db)) ->
      (forall x, In x (orders db) -> Order.id x < order_seq db) ->
      In o (orders db) ->
      In o' (orders (Api.serve_all rs db)) -> Order.id o' = Order.id o ->
      Order.status o' = Order.status o)
  /\ (forall r db o',
         In o' (orders (snd (Api.serve r db))) ->
         (exists o, In o (orders db) /\ Order.id o = Order.id o'
                    /\ Order.status o = Order.status o')
         \/ (Order.id o' = order_seq db /\ Order.status o' = false))
  /\ (forall u pk data db,
         Api.serve (Api.order_route "update" u pk data) db
         = (Unhandled TypeError, db)
         /\ Api.serve (Api.order_route "partial_update" u pk data) db
            = (Unhandled TypeError, db))
  /\ (forall u pk data db order x,
         has_permission IsManager u = true ->
         OrderViewSet.get_object u pk db = Some order ->
         data_get data "delivery_crew_id" = VInt (User.id x) ->
         User.id x <> 0 ->
         delivery_crew_get (User.id x) db = Some x ->
         Api.serve (Api.order_route "assign_delivery_crew" u pk data) db
         = (Response HTTP_200_OK [],
            Order_save
              (Order.mk (Order.id order) (Order.user order)
                 (Some (User.id x)) (Order.status order)
                 (Order.total order) (Order.date order)) db))
  /\ (forall u today db,
         Cart_filter_user (User.id u) db <> [] ->
         NoDup (map Cart.menuitem (Cart_filter_user (User.id u) db)) ->
         (forall it, In it (order_items db) ->
                     OrderItem.order it < order_seq db) ->
         Api.serve (Api.order_post u today None) db
         = (Response HTTP_201_CREATED [], placed db (User.id u) today)
         /\ In (new_order db (User.id u) today)
               (orders (placed db (User.id u) today))
         /\ Order.status (new_order db (User.id u) today) = false).
Proof.
  split; [|split; [|split; [|split]]].
  - intros rs db o o' Hnd Hlt Ho Ho' Hid.
    destruct (serve_all_status_kept rs db) as [_ Hkept].
    destruct (Hkept o' Ho') as (x & Hx & Hxid & Hxst).
    { rewrite Hid. apply Hlt. exact Ho. }
    assert (x = o)
      by (apply (NoDup_map_inj Order.id (orders db)); congruence).
    congruence.
  - intros r db. exact (proj2 (serve_status r db)).
  - intros u pk data db. split; reflexivity.
  - intros u pk data db order x Hp Hg Hd Hx Hc.
    cbn [Api.serve]. unfold OrderViewSet.dispatch.
    cbn [OrderViewSet.get_permissions String.eqb Ascii.eqb Bool.eqb orb
         check_permissions forallb].
    rewrite Hp. cbn [andb].
    unfold OrderViewSet.assign_delivery_crew. rewrite Hg, Hd.
    assert (Ht : truthy (VInt (User.id x)) = true).
    { cbn. destruct (User.id x =? 0) eqn:E; [lia | reflexivity]. }
    rewrite Ht. cbn [negb OrderViewSet.delivery_user_get]. rewrite Hc.
    reflexivity.
  - intros u today db Hne Hnd Hkeys. split; [|split].
    + cbn [Api.serve]. unfold guarded.
      cbn [OrderViewSet.get_permissions String.eqb Ascii.eqb Bool.eqb
           check_permissions forallb has_permission andb].
      exact (create_run u today db None Hne Hnd Hkeys).
    + unfold placed, staged, add_lines. cbn.
      apply in_or_app. right. left. reflexivity.
    + reflexivity.
Qed.

(** C6 at concrete requests. The order of [Sample.db3] is delivered. A
    manager and the delivery-crew member it is assigned to each ask for
    [status = false], the manager assigns it again, and its customer adds a
    line to her cart and places a second order: the first order is still
    delivered. *)
Lemma order_status_is_kept_by_requests_witness :
  Order.status
    (hd (Order.mk 0 0 None false 0 0)
       (orders
          (Api.serve_all
             [Api.order_route "partial_update" Sample.manager 1
                [("status"%string, VBool false)];
              Api.order_route "update" Sample.crew 1
                [("status"%string, VBool false)];
              Api.order_route "assign_delivery_crew" Sample.manager 1
                [("delivery_crew_id"%string, VInt 5)];
              Api.cart_post Sample.alice
                [("menuitem"%string, VInt 2); ("quantity"%string, VInt 1)];
              Api.order_post Sample.alice 101 None]
             Sample.db3)))
  = true.
Proof.
  apply (proj1 order_status_is_kept_by_requests
           [Api.order_route "partial_update" Sample.manager 1
              [("status"%string, VBool false)];
            Api.order_route "update" Sample.crew 1
              [("status"%string, VBool false)];
            Api.order_route "assign_delivery_crew" Sample.manager 1
              [("delivery_crew_id"%string, VInt 5)];
            Api.cart_post Sample.alice
              [("menuitem"%string, VInt 2); ("quantity"%string, VInt 1)];
            Api.order_post Sample.alice 101 None]
           Sample.db3 (Order.mk 1 1 (Some 5) true 2598 100)).
  - repeat constructor. simpl. tauto.
  - intros x [<-|[]]. reflexivity.
  - left. reflexivity.
  - left. reflexivity.
  - reflexivity.
Defined.

(** ** Rows of other users *)

Lemma find_hidden {A} (key : A -> Z) (p : A -> bool) l pk :
  (forall r, In r l -> key r = pk -> p r = false) ->
  find (fun r => key r =? pk) (filter p l) = None.
Proof.
  intros H. destruct (find _ _) as [r|] eqn:E; [|reflexivity].
  apply find_some in E. destruct E as [Hin Hk]. apply filter_In in Hin.
  destruct Hin as [Hin Hp]. rewrite (H r Hin) in Hp; [discriminate | lia].
Qed.

(** C8, as stated, fails: Bob, a customer, asks to assign a delivery crew
    to the order of Alice. The answer is 403, forbidden, and it is the same
    for a key that no order has. *)
Lemma assign_by_customer_is_forbidden :
  (exists d,
      OrderViewSet.dispatch "assign_delivery_crew" Sample.bob 1
        [("delivery_crew_id"%string, VInt 5)] Sample.db3
      = (Response HTTP_403_FORBIDDEN d, Sample.db3))
  /\ (exists d,
         OrderViewSet.dispatch "assign_delivery_crew" Sample.bob 77
           [("delivery_crew_id"%string, VInt 5)] Sample.db3
         = (Response HTTP_403_FORBIDDEN d, Sample.db3))
  /\ map Order.user (orders Sample.db3) = [1]
  /\ User.id Sample.bob = 2.
Proof. repeat split; eexists; reflexivity. Qed.

(** C8, amended. For an actor who is neither staff nor manager, and a key
    under which no row of the actor exists (the row belongs to another
    user, or there is no such row): retrieving, updating or deleting a cart
    line or a reservation, and retrieving or deleting an order, answer 404
    and change nothing, and so does the handler that updates an order.
    The assignment of a delivery crew is refused with 403 before any row
    is looked up, whatever the key. *)
Theorem hidden_rows_are_not_found u db :
  User.is_staff u = false -> User.in_group u "Manager" = false ->
  (forall pk, cart_hidden u pk db ->
     CartViewSet.retrieve u pk db = not_found db
     /\ (forall data partial,
           CartViewSet.update u pk data partial db = not_found db)
     /\ CartViewSet.destroy u pk db = not_found db)
  /\ (forall pk, reservation_hidden u pk db ->
        ReservationViewSet.retrieve u pk db = not_found db
        /\ (forall today now data partial,
              ReservationViewSet.update u pk today now data partial db
              = not_found db)
        /\ ReservationViewSet.destroy u pk db = not_found db)
  /\ (forall pk, order_hidden u pk db ->
        (forall data,
            OrderViewSet.dispatch "retrieve" u pk data db = not_found db)
        /\ (forall data,
              OrderViewSet.dispatch "destroy" u pk data db = not_found db)
        /\ (forall data partial,
              OrderViewSet.update u pk data partial db = not_found db))
  /\ (forall pk data,
        exists d,
          OrderViewSet.dispatch "assign_delivery_crew" u pk data db
          = (Response HTTP_403_FORBIDDEN d, db)).
Proof.
  intros Hstaff Hman. split; [|split; [|split]].
  - intros pk Hh.
    assert (Hg : CartViewSet.get_object u pk db = None).
    { unfold CartViewSet.get_object, CartViewSet.get_queryset, Cart_filter_user.
      apply find_hidden. intros r Hin Hk. specialize (Hh r Hin Hk).
      destruct (Cart.user r =? User.id u) eqn:E; [lia | reflexivity]. }
    unfold CartViewSet.retrieve, CartViewSet.update, CartViewSet.destroy.
    rewrite Hg. auto.
  - intros pk Hh.
    assert (Hg : ReservationViewSet.get_object u pk db = None).
    { unfold ReservationViewSet.get_object, ReservationViewSet.get_queryset.
      rewrite Hstaff. apply find_hidden. intros r Hin Hk.
      specialize (Hh r Hin Hk).
      destruct (Reservation.user r =? User.id u) eqn:E; [lia | reflexivity]. }
    unfold ReservationViewSet.retrieve, ReservationViewSet.update,
      ReservationViewSet.destroy.
    rewrite Hg. auto.
  - intros pk Hh.
    assert (Hg : OrderViewSet.get_object u pk db = None).
    { unfold OrderViewSet.get_object, OrderViewSet.get_queryset.
      rewrite Hstaff, Hman. simpl.
      destruct (User.in_group u "Delivery crew");
        apply find_hidden; intros r Hin Hk;
        destruct (Hh r Hin Hk) as [Hu Hd].
      - destruct (Order.delivery_crew r) as [d|]; [|reflexivity].
        destruct (d =? User.id u) eqn:E; [|reflexivity].
        exfalso. apply Hd. f_equal. lia.
      - destruct (Order.user r =? User.id u) eqn:E; [lia | reflexivity]. }
    unfold OrderViewSet.dispatch. simpl.
    unfold OrderViewSet.retrieve, OrderViewSet.destroy, OrderViewSet.update.
    rewrite Hg. auto.
  - intros pk data. unfold OrderViewSet.dispatch. simpl.
    rewrite Hman, Hstaff. simpl. eexists. reflexivity.
Qed.

(** C8 amended, for Bob and the rows of Alice. *)
Lemma hidden_rows_are_not_found_witness :
  CartViewSet.retrieve Sample.bob 1 Sample.db1 = not_found Sample.db1
  /\ ReservationViewSet.retrieve Sample.bob 1 Sample.db4
     = not_found Sample.db4.
Proof.
  split.
  - apply (proj1 (hidden_rows_are_not_found Sample.bob Sample.db1
                    eq_refl eq_refl) 1).
    intros c [<-|[]] _. simpl. discriminate.
  - apply (proj1 (proj2 (hidden_rows_are_not_found Sample.bob Sample.db4
                           eq_refl eq_refl)) 1).
    intros r [<-|[]] _. simpl. discriminate.
Defined.

(** ** Reservations *)

Lemma run_field_ok {A} fname required partial (f : Value -> string + A)
    data o :
  run_field fname required partial f data = ([], o) ->
  field_ok fname required partial f data o.
Proof.
  intros H. apply run_field_cases in H. unfold field_ok.
  destruct H as [[_ [(-> & -> & Hr)|(v & a & -> & Hf & ->)]]|(msg & E & _)];
    [auto | eauto | discriminate].
Qed.

Lemma Reservation_tiv_inv today data partial attrs :
  Reservation_to_internal_value today data partial = inr attrs ->
  field_ok "name" true partial char_field data (a_name attrs)
  /\ field_ok "number_of_guests" true partial number_of_guests_field data
       (a_number_of_guests attrs)
  /\ field_ok "reservation_date" true partial (reservation_date_field today)
       data (a_reservation_date attrs)
  /\ field_ok "reservation_time" true partial reservation_time_field data
       (a_reservation_time attrs)
  /\ field_ok "special_requests" false partial special_requests_field data
       (a_special_requests attrs).
Proof.
  unfold Reservation_to_internal_value.
  destruct (run_field "name" _ _ _ _) as [e1 n] eqn:H1.
  destruct (run_field "number_of_guests" _ _ _ _) as [e2 g] eqn:H2.
  destruct (run_field "reservation_date" _ _ _ _) as [e3 d] eqn:H3.
  destruct (run_field "reservation_time" _ _ _ _) as [e4 t] eqn:H4.
  destruct (run_field "special_requests" _ _ _ _) as [e5 s] eqn:H5.
  destruct (e1 ++ e2 ++ e3 ++ e4 ++ e5) eqn:E; [|discriminate].
  apply app_eq_nil in E. destruct E as [-> E].
  apply app_eq_nil in E. destruct E as [-> E].
  apply app_eq_nil in E. destruct E as [-> E].
  apply app_eq_nil in E. destruct E as [-> ->].
  intros H; inversion H; subst; clear H. simpl.
  repeat split; apply run_field_ok; assumption.
Qed.

Lemma number_of_guests_field_inv v g :
  number_of_guests_field v = inr g -> v = VInt g /\ guests_rule g.
Proof.
  unfold guests_rule. destruct v; simpl; try discriminate.
  unfold validate_number_of_guests.
  destruct (n <? 1) eqn:E1; [discriminate|].
  destruct (n >? 20) eqn:E2; [discriminate|].
  intros H; inversion H; subst. split; [reflexivity | lia].
Qed.

Lemma reservation_date_field_inv today v d :
  reservation_date_field today v = inr d -> v = VDate d /\ date_rule today d.
Proof.
  unfold date_rule. destruct v; simpl; try discriminate.
  unfold validate_reservation_date.
  destruct (d0 <? today) eqn:E; [discriminate|].
  intros H; inversion H; subst. split; [reflexivity | lia].
Qed.

Lemma reservation_time_field_inv v t :
  reservation_time_field v = inr t ->
  v = VTime (hour t) (minute t) (second t) (microsecond t).
Proof.
  destruct v; simpl; try discriminate.
  intros H; inversion H; subst. reflexivity.
Qed.

Lemma validate_valid today now attrs attrs' :
  validate today now attrs = Valid attrs' ->
  attrs' = attrs
  /\ exists t, a_reservation_time attrs = Some t /\ hours_rule t
               /\ (forall d, a_reservation_date attrs = Some d ->
                             today_rule today now d t).
Proof.
  unfold validate, hours_rule, today_rule, time_le.
  destruct (a_reservation_time attrs) as [t|] eqn:Ht.
  - destruct (time_ltb t opening_time || time_ltb closing_time t) eqn:Eh.
    + destruct (a_reservation_date attrs) as [d|]; [|discriminate].
      destruct (d =? today); [|discriminate].
      destruct (time_ltb t now); discriminate.
    + apply orb_false_iff in Eh.
      destruct (a_reservation_date attrs) as [d|] eqn:Hd.
      * destruct (d =? today) eqn:Ed.
        -- destruct (time_ltb t now) eqn:En; [discriminate|].
           intros H; inversion H; subst. split; [reflexivity|].
           exists t. split; [reflexivity|]. split; [tauto|].
           intros d' Hd' _. exact En.
        -- intros H; inversion H; subst. split; [reflexivity|].
           exists t. split; [reflexivity|]. split; [tauto|].
           intros d' Hd' Heq. inversion Hd'; subst. lia.
      * intros H; inversion H; subst. split; [reflexivity|].
        exists t. split; [reflexivity|]. split; [tauto|].
        intros d' Hd'. discriminate.
  - destruct (a_reservation_date attrs) as [d|]; [|discriminate].
    destruct (d =? today); discriminate.
Qed.

(** [validate] without a reservation time raises. *)
Lemma validate_without_time today now attrs :
  a_reservation_time attrs = None ->
  validate today now attrs = Raised TypeError.
Proof.
  intros H. unfold validate. rewrite H.
  destruct (a_reservation_date attrs) as [d|]; [|reflexivity].
  destruct (d =? today); reflexivity.
Qed.

Lemma creation_fields today data n sp g d t :
  creation_request data n sp g d t ->
  Reservation_to_internal_value today data false
  = match guests_errors g ++ date_errors today d with
    | [] => inr (mkReservationAttrs (Some n) (Some g) (Some d) (Some t) sp)
    | errs => inl errs
    end.
Proof.
  intros (Hn & Hs & Hg & Hd & Ht). unfold Reservation_to_internal_value.
  rewrite Hn, Hs. unfold run_field. rewrite Hg, Hd, Ht.
  unfold number_of_guests_field, validate_number_of_guests,
    reservation_date_field, validate_reservation_date,
    reservation_time_field, guests_errors, date_errors.
  destruct t as [h m s us]. cbn [hour minute second microsecond].
  destruct (g <? 1); [destruct (d <? today); reflexivity|].
  destruct (g >? 20); destruct (d <? today); reflexivity.
Qed.

Lemma validator_slot u attrs db d t :
  a_reservation_date attrs = Some d -> a_reservation_time attrs = Some t ->
  Reservation_unique_validator u None attrs db = slot_taken u d t db.
Proof.
  intros Hd Ht. unfold Reservation_unique_validator, slot_taken.
  rewrite Hd, Ht. induction (reservations db) as [|x l IH]; simpl;
    [reflexivity|]. rewrite IH, andb_true_r. reflexivity.
Qed.

Lemma slot_free_no_conflict r db :
  slot_taken (Reservation.user r) (Reservation.reservation_date r)
             (Reservation.reservation_time r) db = false ->
  Reservation_conflict r (reservations db) = false.
Proof.
  unfold slot_taken, Reservation_conflict.
  induction (reservations db) as [|x l IH]; simpl; [reflexivity|].
  intros H. apply orb_false_iff in H. destruct H as [H1 H2].
  rewrite (IH H2), orb_false_r.
  rewrite <- !andb_assoc. rewrite <- andb_assoc in H1.
  rewrite H1. apply andb_false_r.
Qed.

Lemma guests_errors_nil g : guests_rule g -> guests_errors g = [].
Proof.
  unfold guests_rule, guests_errors. intros H.
  destruct (g <? 1) eqn:E1; [lia|]. destruct (g >? 20) eqn:E2; [lia|].
  reflexivity.
Qed.

Lemma date_errors_nil today d : date_rule today d -> date_errors today d = [].
Proof.
  unfold date_rule, date_errors. intros H.
  destruct (d <? today) eqn:E; [lia | reflexivity].
Qed.

(** C9. A reservation is created only if the number of guests is between
    1 and 20, the date is not before today, a reservation for today is not
    earlier than the current time, and the time is between 11:00 and 22:00,
    both included. Each rule has its own error, reported under the field it
    concerns: a request that breaks the rule on the guests or on the date
    is answered 400 with that error under [number_of_guests] or
    [reservation_date]; a request that passes the field checks and breaks a
    rule on the time is answered 400 with the error of that rule under
    [reservation_time]. A request that keeps every rule, on a free slot, is
    accepted. *)
Theorem reservation_create_rules u today now db :
  (forall data d db',
      ReservationViewSet.create u today now data db
      = (Response HTTP_201_CREATED d, db') ->
      exists g dt t,
        lookup data "number_of_guests" = Some (VInt g)
        /\ lookup data "reservation_date" = Some (VDate dt)
        /\ lookup data "reservation_time"
           = Some (VTime (hour t) (minute t) (second t) (microsecond t))
        /\ guests_rule g /\ date_rule today dt
        /\ today_rule today now dt t /\ hours_rule t)
  /\ (forall data n sp g dt t,
         creation_request data n sp g dt t ->
         (g < 1 -> exists rest,
             ReservationViewSet.create u today now data db
             = (Response HTTP_400_BAD_REQUEST (guests_low_error :: rest), db))
         /\ (20 < g -> exists rest,
               ReservationViewSet.create u today now data db
               = (Response HTTP_400_BAD_REQUEST (guests_high_error :: rest),
                  db))
         /\ (dt < today -> exists pre,
               ReservationViewSet.create u today now data db
               = (Response HTTP_400_BAD_REQUEST (pre ++ [date_error]), db))
         /\ (guests_rule g -> date_rule today dt ->
             slot_taken (User.id u) dt t db = false ->
             (dt = today -> time_ltb t now = true ->
              ReservationViewSet.create u today now data db
              = (Response HTTP_400_BAD_REQUEST past_time_error, db))
             /\ (today_rule today now dt t -> ~ hours_rule t ->
                 ReservationViewSet.create u today now data db
                 = (Response HTTP_400_BAD_REQUEST business_hours_error, db))
             /\ (today_rule today now dt t -> hours_rule t ->
                 ReservationViewSet.create u today now data db
                 = (Response HTTP_201_CREATED [],
                    set_reservations db
                      (reservations db
                       ++ [Reservation.mk (reservation_seq db) (User.id u)
                             n g dt t
                             (match sp with Some s => s | None => ""%string end)])
                      (reservation_seq db + 1)))))
  /\ NoDup ([guests_low_error; guests_high_error; date_error]
            ++ past_time_error ++ business_hours_error)
  /\ hours_rule opening_time /\ hours_rule closing_time
  /\ ~ hours_rule (mktime 10 59 59 999999) /\ ~ hours_rule (mktime 22 0 0 1).
Proof.
  split; [|split; [|split]].
  - intros data d db' H. unfold ReservationViewSet.create in H.
    destruct (ReservationSerializer_is_valid _ _ _ _ _ _ _) as [attrs|e|e] eqn:Hv;
      [|inversion H|inversion H].
    unfold ReservationSerializer_is_valid in Hv.
    destruct (Reservation_to_internal_value today data false)
      as [e|attrs0] eqn:Hi; [discriminate|].
    destruct (Reservation_unique_validator _ _ _ _); [discriminate|].
    apply validate_valid in Hv. destruct Hv as (-> & t & Ht & Hh & Htd).
    apply Reservation_tiv_inv in Hi.
    destruct Hi as (_ & Hg & Hd & Htf & _).
    unfold field_ok in Hg, Hd, Htf.
    destruct (lookup data "number_of_guests") as [vg|];
      [|destruct Hg as [_ Hg]; discriminate].
    destruct (lookup data "reservation_date") as [vd|];
      [|destruct Hd as [_ Hd]; discriminate].
    destruct (lookup data "reservation_time") as [vt|];
      [|destruct Htf as [_ Htf]; discriminate].
    destruct Hg as (g & Hgf & Hga). destruct Hd as (dt & Hdf & Hda).
    destruct Htf as (t' & Htf & Hta).
    assert (t' = t) by congruence. subst t'.
    apply number_of_guests_field_inv in Hgf. destruct Hgf as [-> Hgr].
    apply reservation_date_field_inv in Hdf. destruct Hdf as [-> Hdr].
    apply reservation_time_field_inv in Htf. subst vt.
    exists g, dt, t. repeat split; try assumption; try apply Hgr; try apply Hh.
    apply Htd. exact Hda.
  - intros data n sp g dt t Hreq.
    assert (Hi := creation_fields today data n sp g dt t Hreq).
    unfold ReservationViewSet.create, ReservationSerializer_is_valid.
    rewrite Hi. clear Hi.
    split; [|split; [|split]].
    + intros Hg. unfold guests_errors.
      destruct (g <? 1) eqn:E; [|lia]. simpl. eauto.
    + intros Hg. unfold guests_errors.
      destruct (g <? 1) eqn:E; [lia|]. destruct (g >? 20) eqn:E'; [|lia].
      simpl. eauto.
    + intros Hd. unfold date_errors. destruct (dt <? today) eqn:E; [|lia].
      exists (guests_errors g).
      destruct (guests_errors g ++ [date_error]) eqn:E'.
      * apply app_eq_nil in E'. destruct E'; discriminate.
      * reflexivity.
    + intros Hg Hd Hfree.
      rewrite (guests_errors_nil g Hg), (date_errors_nil today dt Hd).
      cbn [app].
      rewrite (validator_slot (User.id u)
                 (mkReservationAttrs (Some n) (Some g) (Some dt) (Some t) sp)
                 db dt t eq_refl eq_refl), Hfree.
      unfold validate. cbn [a_reservation_date a_reservation_time].
      split; [|split].
      * intros -> Hpast. rewrite Z.eqb_refl, Hpast. reflexivity.
      * intros Htoday Hh.
        assert (Eh : time_ltb t opening_time || time_ltb closing_time t = true).
        { unfold hours_rule, time_le in Hh.
          destruct (time_ltb t opening_time), (time_ltb closing_time t);
            try reflexivity. exfalso. apply Hh. auto. }
        rewrite Eh.
        destruct (dt =? today) eqn:Ed; [|reflexivity].
        assert (En : time_ltb t now = false) by (apply Htoday; lia).
        rewrite En. reflexivity.
      * intros Htoday (Ho & Hc). unfold time_le in Ho, Hc.
        rewrite Ho, Hc. cbn [orb].
        assert (Hval : (if dt =? today
                        then if time_ltb t now
                             then Invalid past_time_error
                             else Valid (mkReservationAttrs (Some n) (Some g)
                                           (Some dt) (Some t) sp)
                        else Valid (mkReservationAttrs (Some n) (Some g)
                                      (Some dt) (Some t) sp))
                       = Valid (mkReservationAttrs (Some n) (Some g)
                                  (Some dt) (Some t) sp)).
        { destruct (dt =? today) eqn:Ed; [|reflexivity].
          assert (En : time_ltb t now = false) by (apply Htoday; lia).
          rewrite En. reflexivity. }
        rewrite Hval. cbn [a_name a_number_of_guests a_reservation_date
                           a_reservation_time a_special_requests].
        rewrite slot_free_no_conflict; [reflexivity|]. exact Hfree.
  - repeat constructor; simpl; intuition discriminate.
  - unfold hours_rule, time_le.
    split; [split; reflexivity|]. split; [split; reflexivity|].
    split; intros [H1 H2]; vm_compute in H1, H2; discriminate.
Qed.

(** C9, at the request of the test suite (four guests, two days ahead, at
    20:00) and at a request for today at an hour already past. *)
Lemma reservation_create_rules_witness :
  (exists g dt t,
      lookup [("name"%string, VStr "Bob Johnson");
              ("number_of_guests"%string, VInt 4);
              ("reservation_date"%string, VDate 102);
              ("reservation_time"%string, VTime 20 0 0 0);
              ("special_requests"%string, VStr "Vegetarian menu")]
             "number_of_guests" = Some (VInt g)
      /\ lookup [("name"%string, VStr "Bob Johnson");
                 ("number_of_guests"%string, VInt 4);
                 ("reservation_date"%string, VDate 102);
                 ("reservation_time"%string, VTime 20 0 0 0);
                 ("special_requests"%string, VStr "Vegetarian menu")]
                "reservation_date" = Some (VDate dt)
      /\ lookup [("name"%string, VStr "Bob Johnson");
                 ("number_of_guests"%string, VInt 4);
                 ("reservation_date"%string, VDate 102);
                 ("reservation_time"%string, VTime 20 0 0 0);
                 ("special_requests"%string, VStr "Vegetarian menu")]
                "reservation_time"
         = Some (VTime (hour t) (minute t) (second t) (microsecond t))
      /\ guests_rule g /\ date_rule 100 dt
      /\ today_rule 100 (mktime 12 30 0 0) dt t /\ hours_rule t)
  /\ ReservationViewSet.create Sample.alice 100 (mktime 12 30 0 0)
       [("name"%string, VStr "Bob Johnson");
        ("number_of_guests"%string, VInt 4);
        ("reservation_date"%string, VDate 100);
        ("reservation_time"%string, VTime 12 0 0 0)] Sample.db4
     = (Response HTTP_400_BAD_REQUEST past_time_error, Sample.db4).
Proof.
  split.
  - apply (proj1 (reservation_create_rules Sample.alice 100
                    (mktime 12 30 0 0) Sample.db4) _ []
             (snd (ReservationViewSet.create Sample.alice 100
                     (mktime 12 30 0 0)
                     [("name"%string, VStr "Bob Johnson");
                      ("number_of_guests"%string, VInt 4);
                      ("reservation_date"%string, VDate 102);
                      ("reservation_time"%string, VTime 20 0 0 0);
                      ("special_requests"%string, VStr "Vegetarian menu")]
                     Sample.db4))).
    reflexivity.
  - apply (proj1 (proj2 (reservation_create_rules Sample.alice 100
                           (mktime 12 30 0 0) Sample.db4)) _
             "Bob Johnson"%string None 4 100 (mktime 12 0 0 0)).
    + repeat split.
    + unfold guests_rule. lia.
    + unfold date_rule. lia.
    + reflexivity.
    + reflexivity.
    + reflexivity.
Defined.

(** C10. A partial update whose data has no [reservation_time] reaches
    [validate] with that value absent, and the comparison with the opening
    time raises [TypeError]: for the owner of the reservation (or staff),
    when the fields that are sent pass their own checks and the slot is
    free, the request ends in a server error and nothing is written. In
    [validate] itself every call without a reservation time raises. *)
Theorem partial_update_without_time_raises :
  (forall today now attrs,
      a_reservation_time attrs = None ->
      validate today now attrs = Raised TypeError)
  /\ (forall u pk today now data db instance attrs,
         ReservationViewSet.get_object u pk db = Some instance ->
         lookup data "reservation_time" = None ->
         Reservation_to_internal_value today data true = inr attrs ->
         Reservation_unique_validator (User.id u) (Some instance) attrs db
         = false ->
         ReservationViewSet.update u pk today now data true db
         = (Unhandled TypeError, db)).
Proof.
  split; [exact validate_without_time|].
  intros u pk today now data db instance attrs Hobj Ht Hi Hu.
  unfold ReservationViewSet.update, ReservationSerializer_is_valid.
  rewrite Hobj, Hi, Hu.
  apply Reservation_tiv_inv in Hi. destruct Hi as (_ & _ & _ & Htf & _).
  unfold field_ok in Htf. rewrite Ht in Htf. destruct Htf as [Hnone _].
  rewrite (validate_without_time today now attrs Hnone). reflexivity.
Qed.

(** C10, for Alice who changes only the number of guests, or only the
    special requests, of her reservation. *)
Lemma partial_update_without_time_raises_witness :
  ReservationViewSet.update Sample.alice 1 100 (mktime 12 30 0 0)
    [("number_of_guests"%string, VInt 5)] true Sample.db4
  = (Unhandled TypeError, Sample.db4)
  /\ ReservationViewSet.update Sample.alice 1 100 (mktime 12 30 0 0)
       [("special_requests"%string, VStr "Window seat please")] true
       Sample.db4
     = (Unhandled TypeError, Sample.db4).
Proof.
  split.
  - apply (proj2 partial_update_without_time_raises Sample.alice 1 100
             (mktime 12 30 0 0) [("number_of_guests"%string, VInt 5)]
             Sample.db4
             (Reservation.mk 1 1 "Alice Smith" 4 101 (mktime 19 0 0 0) "")
             (mkReservationAttrs None (Some 5) None None None));
      reflexivity.
  - apply (proj2 partial_update_without_time_raises Sample.alice 1 100
             (mktime 12 30 0 0)
             [("special_requests"%string, VStr "Window seat please")]
             Sample.db4
             (Reservation.mk 1 1 "Alice Smith" 4 101 (mktime 19 0 0 0) "")
             (mkReservationAttrs None None None None
                (Some "Window seat please"%string)));
      reflexivity.
Defined.

(** * Further properties of the views *)

(** ** The cart of a user *)

Lemma filter_idem {A} (p : A -> bool) l : filter p (filter p l) = filter p l.
Proof.
  induction l as [|a l IH]; simpl; [reflexivity|].
  destruct (p a) eqn:E; simpl; [rewrite E, IH|]; auto.
Qed.

(** [clear] answers 204, leaves no line to the user, leaves the lines of
    every other user and the other tables as they were, and a second
    [clear] changes nothing more. *)
Theorem cart_clear_idempotent u db :
  let r := CartViewSet.clear u db in
  fst r = Response HTTP_204_NO_CONTENT []
  /\ Cart_filter_user (User.id u) (snd r) = []
  /\ (forall v, v <> User.id u ->
        Cart_filter_user v (snd r) = Cart_filter_user v db)
  /\ orders (snd r) = orders db /\ order_items (snd r) = order_items db
  /\ menu (snd r) = menu db /\ reservations (snd r) = reservations db
  /\ CartViewSet.clear u (snd r) = r.
Proof.
  cbv zeta. unfold CartViewSet.clear, Cart_filter_user. simpl.
  split; [reflexivity|]. split; [apply filter_filter_neg|].
  split; [intros v Hv; apply filter_filter_other; exact Hv|].
  repeat (split; [reflexivity|]).
  unfold set_cart. simpl. rewrite filter_idem. reflexivity.
Qed.

Lemma cart_get_object_owned u pk db instance :
  CartViewSet.get_object u pk db = Some instance ->
  In instance (cart db) /\ Cart.user instance = User.id u
  /\ Cart.id instance = pk.
Proof.
  unfold CartViewSet.get_object, CartViewSet.get_queryset, Cart_filter_user.
  intros H. apply find_some in H. destruct H as [Hin Hid].
  apply filter_In in Hin. destruct Hin as [Hin Hu]. repeat split; [assumption | lia | lia].
Qed.

Lemma update_fields_keeps_key instance vd :
  Cart.id (CartSerializer_update_fields instance vd) = Cart.id instance
  /\ Cart.user (CartSerializer_update_fields instance vd) = Cart.user instance.
Proof.
  unfold CartSerializer_update_fields.
  destruct (v_quantity vd), (v_menuitem vd); split; reflexivity.
Qed.

Lemma filter_filter_implied {A} (p q : A -> bool) l :
  (forall x, In x l -> p x = true -> q x = true) ->
  filter p (filter q l) = filter p l.
Proof.
  induction l as [|a l IH]; simpl; intros H; [reflexivity|].
  rewrite <- IH by (intros; apply H; auto).
  destruct (q a) eqn:Eq; simpl; [reflexivity|].
  destruct (p a) eqn:Ep; [|reflexivity].
  rewrite (H a) in Eq; auto. discriminate.
Qed.

(** A request on the cart of [u] (add, update, delete or clear) leaves the
    cart lines of every other user as they were, on a cart table with
    distinct primary keys. *)
Theorem cart_requests_touch_own_lines_only u v db :
  v <> User.id u -> NoDup (map Cart.id (cart db)) ->
  (forall data,
      Cart_filter_user v (snd (CartViewSet.create u data db))
      = Cart_filter_user v db)
  /\ (forall pk data partial,
         Cart_filter_user v (snd (CartViewSet.update u pk data partial db))
         = Cart_filter_user v db)
  /\ (forall pk,
         Cart_filter_user v (snd (CartViewSet.destroy u pk db))
         = Cart_filter_user v db)
  /\ Cart_filter_user v (snd (CartViewSet.clear u db)) = Cart_filter_user v db.
Proof.
  intros Hv Hnd. split; [|split; [|split]].
  - intros data. unfold CartViewSet.create.
    destruct (CartSerializer_is_valid _ _ _ _ _) as [e|vd]; [reflexivity|].
    unfold CartSerializer_create, Cart_objects_create.
    destruct (v_menuitem vd) as [m|]; [|reflexivity].
    destruct (v_quantity vd) as [q|]; [|reflexivity].
    destruct (Cart_conflict _ _); [reflexivity|].
    unfold Cart_filter_user. simpl. rewrite filter_app. simpl.
    destruct (User.id u =? v) eqn:E; [lia|]. apply app_nil_r.
  - intros pk data partial. unfold CartViewSet.update.
    destruct (CartViewSet.get_object u pk db) as [instance|] eqn:Hg;
      [|reflexivity].
    apply cart_get_object_owned in Hg. destruct Hg as (Hin & Hu & _).
    destruct (CartSerializer_is_valid _ _ _ _ _) as [e|vd]; [reflexivity|].
    unfold CartSerializer_update, Cart_save.
    destruct (Cart_conflict _ _); [reflexivity|].
    destruct (update_fields_keeps_key instance vd) as [Hid Hus].
    set (c := CartSerializer_update_fields instance vd) in *.
    unfold Cart_filter_user. simpl.
    assert (Hrows : forall rows,
               (forall r, In r rows -> Cart.id r = Cart.id c ->
                          Cart.user r = User.id u) ->
               filter (fun x => Cart.user x =? v)
                      (map (fun r => if Cart.id r =? Cart.id c then c else r) rows)
               = filter (fun x => Cart.user x =? v) rows).
    { induction rows as [|r rows IH]; simpl; intros H; [reflexivity|].
      rewrite IH by (intros; apply H; auto).
      destruct (Cart.id r =? Cart.id c) eqn:E; [|reflexivity].
      assert (Hr : Cart.user r = User.id u) by (apply H; [auto | lia]).
      destruct (Cart.user c =? v) eqn:E1; [lia|].
      destruct (Cart.user r =? v) eqn:E2; [lia | reflexivity]. }
    apply Hrows. intros r Hr Hrid.
    rewrite (NoDup_map_inj Cart.id (cart db) r instance Hnd Hr Hin); [assumption|].
    lia.
  - intros pk. unfold CartViewSet.destroy.
    destruct (CartViewSet.get_object u pk db) as [instance|] eqn:Hg;
      [|reflexivity].
    apply cart_get_object_owned in Hg. destruct Hg as (Hin & Hu & _).
    unfold Cart_filter_user. simpl. apply filter_filter_implied.
    intros r Hr Hrv.
    destruct (Cart.id r =? Cart.id instance) eqn:E; [|reflexivity].
    assert (r = instance)
      by (apply (NoDup_map_inj Cart.id (cart db)); auto; lia).
    subst r. lia.
  - unfold CartViewSet.clear, Cart_filter_user. simpl.
    apply filter_filter_other. exact Hv.
Qed.

(** On the cart where Alice holds one line, for Bob. *)
Lemma cart_requests_touch_own_lines_only_witness :
  Cart_filter_user 1
    (snd (CartViewSet.create Sample.bob
            [("menuitem"%string, VInt 1); ("quantity"%string, VInt 1)]
            Sample.db1))
  = Cart_filter_user 1 Sample.db1.
Proof.
  apply (proj1 (cart_requests_touch_own_lines_only Sample.bob 1 Sample.db1
                  ltac:(discriminate)
                  ltac:(repeat constructor; simpl; tauto))).
Defined.

(** ** Placing an order, seen by the others *)

(** Whatever statement fails, placing an order leaves the cart lines of the
    other users, the menu, the reservations, the users and every earlier
    order row and order line in place: the order table grows by at most
    one row and the order lines only at their end. *)
Theorem place_order_touches_own_cart_only usr today f db :
  let db' := snd (run_view (OrderViewSet.create usr today) f db) in
  (forall v, v <> User.id usr ->
     Cart_filter_user v db' = Cart_filter_user v db)
  /\ (orders db' = orders db
      \/ orders db' = orders db ++ [new_order db (User.id usr) today])
  /\ (exists l, order_items db' = order_items db ++ l
                /\ forall it, In it l -> OrderItem.order it = order_seq db)
  /\ menu db' = menu db /\ reservations db' = reservations db
  /\ auth_user db' = auth_user db.
Proof.
  cbv zeta.
  destruct (run_view (OrderViewSet.create usr today) f db) as [out db'] eqn:E.
  apply create_effect in E. cbv zeta in E. simpl snd.
  destruct E as [[-> _]|[(_ & j & e & _ & -> & _)|[_ ->]]].
  - split; [reflexivity|]. split; [left; reflexivity|].
    split; [exists []; rewrite app_nil_r; simpl; tauto|]. auto.
  - split; [reflexivity|]. split; [right; reflexivity|].
    split; [|auto]. eexists. split; [reflexivity|].
    intros it Hit. apply copy_lines_order in Hit. exact Hit.
  - split.
    { intros v Hv. unfold placed, Cart_filter_user. simpl.
      apply filter_filter_other. exact Hv. }
    split; [right; reflexivity|].
    split; [|auto]. eexists. split; [reflexivity|].
    intros it Hit. apply copy_lines_order in Hit. exact Hit.
Qed.

Lemma create_on_empty_cart usr today db :
  Cart_filter_user (User.id usr) db = [] ->
  run_view (OrderViewSet.create usr today) None db
  = (Response HTTP_400_BAD_REQUEST OrderViewSet.cart_empty_error, db).
Proof.
  intros Hempty. unfold run_view, OrderViewSet.create. orm_step.
  unfold Cart_exists. rewrite Hempty. reflexivity.
Qed.

(** After an order is placed, the same user placing an order again, with
    nothing added to the cart in between, is answered 400 "Cart is empty"
    and no second order is written. *)
Theorem place_order_twice usr today today' db :
  Cart_filter_user (User.id usr) db <> [] -> cart_ok db -> keys_ok db ->
  let db1 := snd (run_view (OrderViewSet.create usr today) None db) in
  fst (run_view (OrderViewSet.create usr today) None db)
  = Response HTTP_201_CREATED []
  /\ run_view (OrderViewSet.create usr today') None db1
     = (Response HTTP_400_BAD_REQUEST [("error", "Cart is empty")]%string, db1)
  /\ List.length (orders db1) = S (List.length (orders db)).
Proof.
  intros Hne Hcart Hkeys.
  assert (Hnd : NoDup (map Cart.menuitem (Cart_filter_user (User.id usr) db)))
    by (apply cart_unique_menuitems; apply Hcart).
  assert (Hrun := create_run usr today db None Hne Hnd (proj2 (proj2 Hkeys))).
  cbv zeta in Hrun. cbv zeta. rewrite Hrun. simpl fst. simpl snd.
  split; [reflexivity|]. split.
  - apply create_on_empty_cart. unfold placed, Cart_filter_user. simpl.
    apply filter_filter_neg.
  - unfold placed, staged. simpl. rewrite length_app. simpl. lia.
Qed.

(** Alice, with two cart lines, places an order twice. *)
Lemma place_order_twice_witness :
  run_view (OrderViewSet.create Sample.alice 101) None
    (snd (run_view (OrderViewSet.create Sample.alice 100) None Sample.db2))
  = (Response HTTP_400_BAD_REQUEST [("error", "Cart is empty")]%string,
     snd (run_view (OrderViewSet.create Sample.alice 100) None Sample.db2)).
Proof.
  apply (place_order_twice Sample.alice 100 101 Sample.db2).
  - discriminate.
  - repeat split.
    + repeat constructor; simpl; intuition discriminate.
    + simpl. intros c [<-|[<-|[]]]; reflexivity.
    + repeat constructor; simpl; intuition discriminate.
  - repeat split; [constructor | simpl; tauto | simpl; tauto].
Defined.

(** ** Adding to the cart without a quantity *)

(** A request to add a menu item that exists and that the user does not
    hold yet, sent without a quantity, passes validation (the field has a
    model default and is not required) and then fails in
    [CartSerializer.create] on [validated_data['quantity']]: the request
    ends in an unhandled [KeyError] and nothing is written. *)
Theorem cart_add_without_quantity_raises u data db pk m :
  lookup data "menuitem" = Some (VInt pk) ->
  lookup data "quantity" = None ->
  Menu_get pk db = Some m ->
  (forall c, In c (cart db) -> Cart.user c = User.id u ->
             Cart.menuitem c <> pk) ->
  CartViewSet.create u data db = (Unhandled KeyError, db).
Proof.
  intros Hm Hq Hg Hfree.
  assert (Hid : Menu.id m = pk).
  { unfold Menu_get in Hg. apply find_some_id in Hg. tauto. }
  unfold CartViewSet.create, CartSerializer_is_valid, Cart_to_internal_value,
    run_field.
  rewrite Hm, Hq. simpl. rewrite Hg. simpl.
  assert (Hu : Cart_unique_validator (User.id u) None
                 (mkCartValidated (Some m) None) db = false).
  { unfold Cart_unique_validator. simpl.
    destruct (existsb _ (cart db)) eqn:E; [|reflexivity].
    apply existsb_exists in E. destruct E as (c & Hin & Hc).
    rewrite andb_true_r in Hc. apply andb_true_iff in Hc.
    destruct Hc as [Hcu Hcm]. exfalso.
    apply (Hfree c Hin); lia. }
  rewrite Hu. reflexivity.
Qed.

(** Bob adds a Greek salad and sends no quantity. *)
Lemma cart_add_without_quantity_raises_witness :
  CartViewSet.create Sample.bob [("menuitem"%string, VInt 1)] Sample.db1
  = (Unhandled KeyError, Sample.db1).
Proof.
  apply (cart_add_without_quantity_raises Sample.bob _ Sample.db1 1
           Sample.greek_salad); try reflexivity.
  simpl. intros c [<-|[]]. simpl. discriminate.
Defined.

(** ** Amounts *)

Lemma step_menu_frame op db :
  match op with
  | menu_create _ | menu_update _ _ _ | menu_update_featured _ _
  | menu_destroy _ => True
  | _ => menu (snd (step op db)) = menu db
  end.
Proof.
  destruct op; try exact I; cbn [step].
  - destruct (cart_create_effect u data db) as [->|(c & _ & _ & ->)];
      reflexivity.
  - destruct (cart_update_effect u pk data partial db)
      as [->|(i & c & _ & _ & _ & ->)]; reflexivity.
  - unfold CartViewSet.destroy; split_match; reflexivity.
  - reflexivity.
  - destruct (run_view (OrderViewSet.create u today) f db) as [out db'] eqn:E.
    apply create_effect in E. cbv zeta in E. simpl snd.
    destruct E as [[-> _]|[(_ & j & e & _ & -> & _)|[_ ->]]]; reflexivity.
  - unfold OrderViewSet.update, OrderViewSet.validate_and_save;
      split_match; reflexivity.
  - unfold OrderViewSet.assign_delivery_crew; split_match; reflexivity.
  - unfold OrderViewSet.destroy; split_match; reflexivity.
  - unfold ReservationViewSet.create; split_match; reflexivity.
  - unfold ReservationViewSet.update; split_match; reflexivity.
  - unfold ReservationViewSet.destroy; split_match; reflexivity.
Qed.

Lemma quantity_field_ge v q : quantity_field v = inr q -> 1 <= q.
Proof.
  destruct v; simpl; try discriminate. unfold validate_quantity.
  destruct (n <? 1) eqn:E; [discriminate|]. intros H; inversion H; lia.
Qed.

Lemma price_field_ge v p : price_field v = inr p -> 1 <= p.
Proof.
  unfold price_field, validate_price. destruct v; try discriminate.
  - destruct (100 * n <? 1) eqn:E; [discriminate|].
    destruct (100 * n <=? 0); [discriminate|]. intros H.
    assert (p = 100 * n) by congruence. lia.
  - destruct (hundredths <? 1) eqn:E; [discriminate|].
    destruct (hundredths <=? 0); [discriminate|]. intros H; inversion H; lia.
Qed.

Lemma Menu_get_in pk db m : Menu_get pk db = Some m -> In m (menu db).
Proof. unfold Menu_get. intros H. apply find_some in H. tauto. Qed.

Lemma cart_validated_amounts u instance db data partial vd :
  CartSerializer_is_valid u instance db data partial = inr vd ->
  (forall m, v_menuitem vd = Some m -> In m (menu db))
  /\ (forall q, v_quantity vd = Some q -> 1 <= q).
Proof.
  intros H. apply Cart_is_valid_inv in H. destruct H as (Hm & Hq & _).
  split.
  - intros m Hvm. destruct (lookup data "menuitem") as [v|]; [|congruence].
    destruct Hm as (m' & Hf & Hm'). assert (m' = m) by congruence. subst m'.
    apply menuitem_field_inv in Hf. destruct Hf as (pk & _ & Hg & _).
    apply (Menu_get_in pk). exact Hg.
  - intros q Hvq. destruct (lookup data "quantity") as [v|]; [|congruence].
    destruct Hq as (q' & Hf & Hq'). assert (q' = q) by congruence. subst q'.
    apply (quantity_field_ge v). exact Hf.
Qed.

Lemma sum_ge_one l : l <> [] -> (forall x, In x l -> 1 <= x) -> 1 <= sum l.
Proof.
  destruct l as [|a l]; [congruence|]. intros _ H. unfold sum. simpl.
  rewrite sum_from. assert (1 <= a) by (apply H; simpl; auto).
  assert (0 <= sum l).
  { clear -H. induction l as [|b l IH]; [unfold sum; simpl; lia|].
    unfold sum in *. simpl. rewrite sum_from.
    assert (1 <= b) by (apply H; simpl; auto).
    assert (0 <= fold_left Z.add l 0).
    { apply IH. intros x [Hx|Hx]; apply H; simpl; auto. }
    unfold sum. lia. }
  lia.
Qed.

Lemma copy_lines_amounts o seq cis it :
  (forall c, In c cis ->
     line_amounts_ok (Cart.quantity c) (Cart.unit_price c) (Cart.price c)) ->
  In it (copy_lines o seq cis) ->
  line_amounts_ok (OrderItem.quantity it) (OrderItem.unit_price it)
                  (OrderItem.price it).
Proof.
  revert seq. induction cis as [|c cis IH]; intros seq H; simpl; [tauto|].
  intros [<-|Hin]; [apply (H c); simpl; auto|].
  apply (IH (seq + 1)); [|exact Hin]. intros c' Hc'. apply H. simpl. auto.
Qed.

Lemma new_order_total_ge db u today :
  amounts_ok db -> Cart_filter_user u db <> [] ->
  1 <= Order.total (new_order db u today).
Proof.
  intros (_ & Hc & _) Hne. simpl. apply sum_ge_one.
  - intros E. apply map_eq_nil in E. congruence.
  - intros x Hx. apply in_map_iff in Hx. destruct Hx as (c & <- & Hin).
    unfold Cart_filter_user in Hin. apply filter_In in Hin.
    destruct (Hc c (proj1 Hin)) as (Hq & Hu & ->). nia.
Qed.

Lemma in_firstn {A} (j : nat) (l : list A) x : In x (firstn j l) -> In x l.
Proof.
  revert l. induction j as [|j IH]; intros [|a l]; simpl; try tauto.
  intros [H|H]; auto.
Qed.

Lemma amounts_ok_staged db u today j :
  amounts_ok db -> Cart_filter_user u db <> [] ->
  amounts_ok (staged db u today j).
Proof.
  intros Hok Hne. pose proof Hok as (Hm & Hc & Hi & Ho). unfold amounts_ok.
  simpl. split; [exact Hm|]. split; [exact Hc|]. split.
  - intros it H. apply in_app_or in H.
    destruct H as [H|H]; [apply Hi; assumption|].
    apply (copy_lines_amounts _ _ _ it) in H; [exact H|].
    intros c Hin. apply Hc. apply in_firstn in Hin.
    unfold Cart_filter_user in Hin. apply filter_In in Hin. tauto.
  - intros o Hin. apply in_app_or in Hin.
    destruct Hin as [Hin|[<-|[]]]; [apply Ho; assumption|].
    apply new_order_total_ge; assumption.
Qed.

Lemma amounts_ok_ext db db' :
  menu db' = menu db -> cart db' = cart db ->
  order_items db' = order_items db -> orders db' = orders db ->
  amounts_ok db -> amounts_ok db'.
Proof.
  unfold amounts_ok. intros -> -> -> ->. tauto.
Qed.

Lemma Menu_is_valid_price data partial vd p :
  MenuSerializer_is_valid data partial = inr vd -> v_price vd = Some p ->
  1 <= p.
Proof.
  unfold MenuSerializer_is_valid.
  destruct (run_field "title" _ _ _ _) as [e1 t] eqn:H1.
  destruct (run_field "price" _ _ _ _) as [e2 pr] eqn:H2.
  destruct (run_field "featured" _ _ _ _) as [e3 f] eqn:H3.
  destruct (e1 ++ e2 ++ e3) eqn:E; [|discriminate].
  apply app_eq_nil in E. destruct E as [-> E].
  apply app_eq_nil in E. destruct E as [-> ->].
  intros H Hp. inversion H; subst; clear H. simpl in Hp. subst pr.
  apply run_field_ok in H2. unfold field_ok in H2.
  destruct (lookup data "price") as [v|].
  - destruct H2 as (a & Hf & Ha). inversion Ha; subst.
    apply (price_field_ge v). exact Hf.
  - destruct H2; discriminate.
Qed.

Lemma update_fields_amounts db instance vd :
  amounts_ok db -> In instance (cart db) ->
  (forall m, v_menuitem vd = Some m -> In m (menu db)) ->
  (forall q, v_quantity vd = Some q -> 1 <= q) ->
  let c := CartSerializer_update_fields instance vd in
  line_amounts_ok (Cart.quantity c) (Cart.unit_price c) (Cart.price c).
Proof.
  intros (Hm & Hc & _) Hin Hvm Hvq. cbv zeta.
  destruct (Hc instance Hin) as (Hq & Hu & Hp).
  unfold CartSerializer_update_fields, line_amounts_ok.
  destruct (v_quantity vd) as [q|] eqn:Eq;
    destruct (v_menuitem vd) as [m|] eqn:Em; simpl;
    try (pose proof (Hvq q eq_refl));
    try (pose proof (Hm m (Hvm m eq_refl))); auto.
Qed.

(** Every operation keeps the amounts in range. *)
Lemma step_amounts_ok op db : amounts_ok db -> amounts_ok (snd (step op db)).
Proof.
  intros Hok. pose proof Hok as (Hm & Hc & Hi & Ho).
  assert (Hcf := step_cart_frame op db).
  assert (Hof := step_order_frame op db).
  assert (Hmf := step_menu_frame op db).
  destruct op; cbn [step]; cbn [step] in Hcf, Hof, Hmf;
    try (apply (amounts_ok_ext db); tauto).
  - (* cart_create *)
    unfold CartViewSet.create.
    destruct (CartSerializer_is_valid _ _ _ _ _) as [e|vd] eqn:Hv;
      [exact Hok|].
    apply cart_validated_amounts in Hv. destruct Hv as [Hvm Hvq].
    unfold CartSerializer_create, Cart_objects_create.
    destruct (v_menuitem vd) as [m|]; [|exact Hok].
    destruct (v_quantity vd) as [q|]; [|exact Hok].
    destruct (Cart_conflict _ _); [exact Hok|].
    unfold amounts_ok. simpl. split; [exact Hm|]. split; [|tauto].
    intros c Hin. apply in_app_or in Hin.
    destruct Hin as [Hin|[<-|[]]]; [apply Hc; assumption|].
    unfold line_amounts_ok. simpl.
    pose proof (Hvq q eq_refl). pose proof (Hm m (Hvm m eq_refl)). auto.
  - (* cart_update *)
    unfold CartViewSet.update.
    destruct (CartViewSet.get_object u pk db) as [instance|] eqn:Hg;
      [|exact Hok].
    apply cart_get_object_owned in Hg. destruct Hg as (Hin & _ & _).
    destruct (CartSerializer_is_valid _ _ _ _ _) as [e|vd] eqn:Hv;
      [exact Hok|].
    apply cart_validated_amounts in Hv. destruct Hv as [Hvm Hvq].
    unfold CartSerializer_update, Cart_save.
    destruct (Cart_conflict _ _); [exact Hok|].
    unfold amounts_ok. simpl. split; [exact Hm|]. split; [|tauto].
    intros c Hc'. apply in_map_iff in Hc'. destruct Hc' as (r & Hr & Hrin).
    destruct (Cart.id r =? _); subst c; [|apply Hc; assumption].
    apply (update_fields_amounts db); assumption.
  - (* cart_destroy *)
    unfold CartViewSet.destroy.
    destruct (CartViewSet.get_object u pk db); [|exact Hok].
    unfold amounts_ok. simpl. split; [exact Hm|]. split; [|tauto].
    intros c Hin. apply filter_In in Hin. apply Hc. tauto.
  - (* cart_clear *)
    unfold amounts_ok. simpl. split; [exact Hm|]. split; [|tauto].
    intros c Hin. apply filter_In in Hin. apply Hc. tauto.
  - (* order_create *)
    destruct (run_view (OrderViewSet.create u today) f db) as [out db'] eqn:E.
    apply create_effect in E. cbv zeta in E. simpl snd.
    destruct E as [[-> _]|[(Hne & j & e & _ & -> & _)|[Hne ->]]].
    + exact Hok.
    + apply amounts_ok_staged; assumption.
    + pose proof (amounts_ok_staged db (User.id u) today
                    (List.length (Cart_filter_user (User.id u) db)) Hok Hne)
        as (Hm' & Hc' & Hi' & Ho').
      unfold placed, amounts_ok. simpl.
      split; [exact Hm|]. split; [|split; [exact Hi' | exact Ho']].
      intros c Hin. apply filter_In in Hin. apply Hc. tauto.
  - (* order_update *)
    unfold OrderViewSet.update, OrderViewSet.validate_and_save.
    destruct (OrderViewSet.get_object u pk db) as [instance|] eqn:Hg;
      [|exact Hok].
    apply get_object_in in Hg.
    split_match; try exact Hok; unfold amounts_ok; simpl;
      (split; [exact Hm|]; split; [exact Hc|]; split; [exact Hi|]);
      intros o' Hin; apply in_map_iff in Hin; destruct Hin as (r & Hr & Hrin);
      (destruct (Order.id r =? _); subst o';
       [simpl; apply Ho; assumption | apply Ho; assumption]).
  - (* order_assign_delivery_crew *)
    unfold OrderViewSet.assign_delivery_crew.
    destruct (OrderViewSet.get_object u pk db) as [instance|] eqn:Hg;
      [|exact Hok].
    apply get_object_in in Hg.
    split_match; try exact Hok; unfold amounts_ok; simpl;
      (split; [exact Hm|]; split; [exact Hc|]; split; [exact Hi|]);
      intros o' Hin; apply in_map_iff in Hin; destruct Hin as (r & Hr & Hrin);
      (destruct (Order.id r =? _); subst o';
       [simpl; apply Ho; assumption | apply Ho; assumption]).
  - (* order_destroy *)
    unfold OrderViewSet.destroy.
    destruct (OrderViewSet.get_object u pk db); [|exact Hok].
    unfold amounts_ok. simpl. split; [exact Hm|]. split; [exact Hc|]. split.
    + intros it Hin. apply filter_In in Hin. apply Hi. tauto.
    + intros o Hin. apply filter_In in Hin. apply Ho. tauto.
  - (* menu_create *)
    unfold MenuViewSet.create.
    destruct (MenuSerializer_is_valid data false) as [e|vd] eqn:Hv;
      [exact Hok|].
    destruct (v_title vd) as [t|]; [|exact Hok].
    destruct (v_price vd) as [p|] eqn:Hp; [|exact Hok].
    unfold amounts_ok. simpl. split; [|tauto].
    intros m Hin. apply in_app_or in Hin.
    destruct Hin as [Hin|[<-|[]]]; [apply Hm; assumption|]. simpl.
    apply (Menu_is_valid_price data false vd); assumption.
  - (* menu_update *)
    unfold MenuViewSet.update, MenuViewSet.get_object.
    destruct (Menu_get pk db) as [instance|] eqn:Hg; [|exact Hok].
    apply Menu_get_in in Hg.
    destruct (MenuSerializer_is_valid data partial) as [e|vd] eqn:Hv;
      [exact Hok|].
    unfold amounts_ok. simpl. split; [|tauto].
    intros m Hin. apply in_map_iff in Hin. destruct Hin as (r & Hr & Hrin).
    destruct (Menu.id r =? _); subst m; [|apply Hm; assumption]. simpl.
    destruct (v_price vd) as [p|] eqn:Hp; [|apply Hm; assumption].
    apply (Menu_is_valid_price data partial vd); assumption.
  - (* menu_update_featured *)
    unfold MenuViewSet.update_featured, MenuViewSet.get_object.
    destruct (Menu_get pk db) as [instance|] eqn:Hg; [|exact Hok].
    apply Menu_get_in in Hg.
    split_match; try exact Hok; unfold amounts_ok; simpl;
      (split; [|tauto]);
      intros m' Hin; apply in_map_iff in Hin; destruct Hin as (r & Hr & Hrin);
      (destruct (Menu.id r =? _); subst m';
       [simpl; apply Hm; assumption | apply Hm; assumption]).
  - (* menu_destroy *)
    unfold MenuViewSet.destroy, MenuViewSet.get_object.
    destruct (Menu_get pk db) as [instance|]; [|exact Hok].
    unfold amounts_ok. simpl. split; [|split; [|split; [|exact Ho]]].
    + intros m Hin. apply filter_In in Hin. apply Hm. tauto.
    + intros c Hin. apply filter_In in Hin. apply Hc. tauto.
    + intros it Hin. apply filter_In in Hin. apply Hi. tauto.
Qed.

(** Every row the API writes keeps the amounts its model asks for, though
    [objects.create] and [save] never run the validators of the model: from
    tables where every menu price is at least 0.01, every cart line and
    order line has a quantity of at least 1, a unit price of at least 0.01
    and a price equal to unit price times quantity, and every order total
    is at least 0.01, every sequence of operations leads to such tables. *)
Theorem amounts_stay_in_range ops db :
  amounts_ok db -> amounts_ok (run ops db).
Proof.
  revert db. induction ops as [|op ops IH]; intros db Hok; simpl;
    [exact Hok|]. apply IH. apply step_amounts_ok. exact Hok.
Qed.

(** From the sample menu: two salads in the cart, then three, then the
    order. *)
Lemma amounts_stay_in_range_witness :
  amounts_ok
    (run [cart_create Sample.alice
            [("menuitem"%string, VInt 1); ("quantity"%string, VInt 2)];
          cart_update Sample.alice 1 [("quantity"%string, VInt 3)] true;
          order_create Sample.alice 100 None] Sample.db0).
Proof.
  apply amounts_stay_in_range. unfold amounts_ok. simpl.
  split; [|repeat split; tauto].
  intros m [<-|[<-|[]]]; simpl; lia.
Defined.

(** ** Foreign keys *)

Lemma references_ok_ext db db' :
  menu db' = menu db -> cart db' = cart db ->
  order_items db' = order_items db -> orders db' = orders db ->
  references_ok db -> references_ok db'.
Proof.
  unfold references_ok, menu_has, order_has. intros -> -> -> ->. tauto.
Qed.

Lemma copy_lines_menuitem o seq cis it :
  In it (copy_lines o seq cis) ->
  exists c, In c cis /\ Cart.menuitem c = OrderItem.menuitem it.
Proof.
  revert seq. induction cis as [|c cis IH]; intros seq; simpl; [tauto|].
  intros [<-|H]; [exists c; simpl; auto|].
  destruct (IH _ H) as (c' & Hc' & E). exists c'. auto.
Qed.

Lemma references_ok_staged db u today j :
  references_ok db -> references_ok (staged db u today j).
Proof.
  intros [Hc Hi]. unfold references_ok, menu_has, order_has. simpl.
  split; [exact Hc|]. intros it Hin. apply in_app_or in Hin.
  destruct Hin as [Hin|Hin].
  - destruct (Hi it Hin) as [Hm (o & Ho & Hid)]. split; [exact Hm|].
    exists o. split; [apply in_or_app; auto | exact Hid].
  - split.
    + destruct (copy_lines_menuitem _ _ _ _ Hin) as (c & Hcin & <-).
      apply Hc. apply in_firstn in Hcin. unfold Cart_filter_user in Hcin.
      apply filter_In in Hcin. tauto.
    + apply copy_lines_order in Hin. exists (new_order db u today).
      split; [apply in_or_app; simpl; auto | simpl; lia].
Qed.

Lemma order_has_save db o1 instance pk :
  In instance (orders db) -> Order.id o1 = Order.id instance ->
  order_has db pk -> order_has (Order_save o1 db) pk.
Proof.
  intros Hin Hid (o & Ho & Hpk). unfold order_has, Order_save. simpl.
  exists (if Order.id o =? Order.id o1 then o1 else o). split.
  - apply in_map_iff. exists o. auto.
  - destruct (Order.id o =? Order.id o1) eqn:E; lia.
Qed.

Lemma menu_has_save db m pk :
  (exists instance, In instance (menu db) /\ Menu.id instance = Menu.id m) ->
  menu_has db pk -> menu_has (Menu_save m db) pk.
Proof.
  intros _ (x & Hx & Hpk). unfold menu_has, Menu_save. simpl.
  exists (if Menu.id x =? Menu.id m then m else x). split.
  - apply in_map_iff. exists x. auto.
  - destruct (Menu.id x =? Menu.id m) eqn:E; lia.
Qed.

(** Every operation keeps the foreign keys pointing at rows. *)
Lemma step_references_ok op db :
  references_ok db -> references_ok (snd (step op db)).
Proof.
  intros Hok. pose proof Hok as (Hc & Hi).
  assert (Hcf := step_cart_frame op db).
  assert (Hof := step_order_frame op db).
  assert (Hmf := step_menu_frame op db).
  destruct op; cbn [step]; cbn [step] in Hcf, Hof, Hmf;
    try (apply (references_ok_ext db); tauto).
  - (* cart_create *)
    unfold CartViewSet.create.
    destruct (CartSerializer_is_valid _ _ _ _ _) as [e|vd] eqn:Hv;
      [exact Hok|].
    apply cart_validated_amounts in Hv. destruct Hv as [Hvm _].
    unfold CartSerializer_create, Cart_objects_create.
    destruct (v_menuitem vd) as [m|]; [|exact Hok].
    destruct (v_quantity vd) as [q|]; [|exact Hok].
    destruct (Cart_conflict _ _); [exact Hok|].
    split; [|exact Hi]. simpl. intros c Hin. apply in_app_or in Hin.
    destruct Hin as [Hin|[<-|[]]]; [apply Hc; assumption|].
    exists m. simpl. auto.
  - (* cart_update *)
    unfold CartViewSet.update.
    destruct (CartViewSet.get_object u pk db) as [instance|] eqn:Hg;
      [|exact Hok].
    apply cart_get_object_owned in Hg. destruct Hg as (Hin & _ & _).
    destruct (CartSerializer_is_valid _ _ _ _ _) as [e|vd] eqn:Hv;
      [exact Hok|].
    apply cart_validated_amounts in Hv. destruct Hv as [Hvm _].
    unfold CartSerializer_update, Cart_save.
    destruct (Cart_conflict _ _); [exact Hok|].
    split; [|exact Hi]. simpl. intros c Hc'. apply in_map_iff in Hc'.
    destruct Hc' as (r & Hr & Hrin).
    destruct (Cart.id r =? _); subst c; [|apply Hc; assumption].
    unfold CartSerializer_update_fields.
    destruct (v_menuitem vd) as [m|] eqn:Em.
    + exists m. simpl. auto.
    + destruct (v_quantity vd); simpl; apply Hc; assumption.
  - (* cart_destroy *)
    unfold CartViewSet.destroy.
    destruct (CartViewSet.get_object u pk db); [|exact Hok].
    split; [|exact Hi]. simpl. intros c Hin. apply filter_In in Hin.
    apply Hc. tauto.
  - (* cart_clear *)
    split; [|exact Hi]. simpl. intros c Hin. apply filter_In in Hin.
    apply Hc. tauto.
  - (* order_create *)
    destruct (run_view (OrderViewSet.create u today) f db) as [out db'] eqn:E.
    apply create_effect in E. cbv zeta in E. simpl snd.
    destruct E as [[-> _]|[(_ & j & e & _ & -> & _)|[_ ->]]].
    + exact Hok.
    + apply references_ok_staged; assumption.
    + pose proof (references_ok_staged db (User.id u) today
                    (List.length (Cart_filter_user (User.id u) db)) Hok)
        as (Hc' & Hi').
      split; [|exact Hi']. simpl. intros c Hin. apply filter_In in Hin.
      apply Hc. tauto.
  - (* order_update *)
    unfold OrderViewSet.update, OrderViewSet.validate_and_save.
    destruct (OrderViewSet.get_object u pk db) as [instance|] eqn:Hg;
      [|exact Hok].
    apply get_object_in in Hg.
    split_match; try exact Hok;
      (split; [exact Hc|]); intros it Hin;
      (split; [apply (Hi it Hin)|]);
      apply (order_has_save db _ instance); auto; apply (Hi it Hin).
  - (* order_assign_delivery_crew *)
    unfold OrderViewSet.assign_delivery_crew.
    destruct (OrderViewSet.get_object u pk db) as [instance|] eqn:Hg;
      [|exact Hok].
    apply get_object_in in Hg.
    split_match; try exact Hok;
      (split; [exact Hc|]); intros it Hin;
      (split; [apply (Hi it Hin)|]);
      apply (order_has_save db _ instance); auto; apply (Hi it Hin).
  - (* order_destroy *)
    unfold OrderViewSet.destroy.
    destruct (OrderViewSet.get_object u pk db) as [instance|]; [|exact Hok].
    split; [exact Hc|]. simpl. intros it Hin. apply filter_In in Hin.
    destruct Hin as [Hin Hne]. destruct (Hi it Hin) as [Hm (o & Ho & Hid)].
    split; [exact Hm|]. exists o. split; [|exact Hid].
    apply filter_In. split; [exact Ho|].
    rewrite Hid. exact Hne.
  - (* menu_create *)
    unfold MenuViewSet.create.
    destruct (MenuSerializer_is_valid data false) as [e|vd]; [exact Hok|].
    destruct (v_title vd) as [t|]; [|exact Hok].
    destruct (v_price vd) as [p|]; [|exact Hok].
    unfold references_ok, menu_has. simpl. split.
    + intros c Hin. destruct (Hc c Hin) as (m & Hm & Hid).
      exists m. split; [apply in_or_app; auto | exact Hid].
    + intros it Hin. destruct (Hi it Hin) as [(m & Hm & Hid) Ho].
      split; [|exact Ho]. exists m. split; [apply in_or_app; auto | exact Hid].
  - (* menu_update *)
    unfold MenuViewSet.update, MenuViewSet.get_object.
    destruct (Menu_get pk db) as [instance|] eqn:Hg; [|exact Hok].
    destruct (MenuSerializer_is_valid data partial) as [e|vd]; [exact Hok|].
    apply Menu_get_in in Hg. simpl snd. split.
    + intros c Hin. apply menu_has_save; [eauto | apply Hc; exact Hin].
    + intros it Hin. split; [|apply (Hi it Hin)].
      apply menu_has_save; [eauto | apply (Hi it Hin)].
  - (* menu_update_featured *)
    unfold MenuViewSet.update_featured, MenuViewSet.get_object.
    destruct (Menu_get pk db) as [instance|] eqn:Hg; [|exact Hok].
    apply Menu_get_in in Hg.
    split_match; try exact Hok; simpl snd;
      (split;
       [ intros c Hin; apply menu_has_save; [eauto | apply Hc; exact Hin]
       | intros it Hin; split; [|apply (Hi it Hin)];
         apply menu_has_save; [eauto | apply (Hi it Hin)] ]).
  - (* menu_destroy *)
    unfold MenuViewSet.destroy, MenuViewSet.get_object.
    destruct (Menu_get pk db) as [instance|]; [|exact Hok].
    unfold references_ok, menu_has, order_has. simpl. split.
    + intros c Hin. apply filter_In in Hin. destruct Hin as [Hin Hne].
      destruct (Hc c Hin) as (m & Hm & Hid). exists m. split; [|exact Hid].
      apply filter_In. split; [exact Hm|]. rewrite Hid. exact Hne.
    + intros it Hin. apply filter_In in Hin. destruct Hin as [Hin Hne].
      destruct (Hi it Hin) as [(m & Hm & Hid) Ho]. split; [|exact Ho].
      exists m. split; [|exact Hid].
      apply filter_In. split; [exact Hm|]. rewrite Hid. exact Hne.
Qed.

(** No operation leaves a dangling reference: if every cart line and order
    line refers to a menu item of the menu table, and every order line to
    an order of the order table, this holds after every sequence of
    operations, deletions of menu items and of orders included (their
    lines are deleted with them). *)
Theorem references_stay_valid ops db :
  references_ok db -> references_ok (run ops db).
Proof.
  revert db. induction ops as [|op ops IH]; intros db Hok; simpl;
    [exact Hok|]. apply IH. apply step_references_ok. exact Hok.
Qed.

(** The delivered order of the samples, then the deletion of its menu
    item. *)
Lemma references_stay_valid_witness :
  references_ok (run [menu_destroy 1] Sample.db3).
Proof.
  apply references_stay_valid. split.
  - simpl. tauto.
  - simpl. intros it [<-|[]]. split.
    + exists Sample.greek_salad. simpl. auto.
    + eexists. simpl. split; [left; reflexivity | reflexivity].
Defined.

(** ** Assigning a delivery crew *)

(** [assign_delivery_crew] on an order of the queryset: without a
    [delivery_crew_id], or with 0, the answer is 400; with the key of a
    user who is not in the group [Delivery crew] (or of no user) the answer
    is 404 although the order exists; with the key of a member the order is
    saved with that delivery crew and nothing else changed. In the first
    two cases nothing is written. *)
Theorem assign_delivery_crew_outcomes u pk data db order :
  OrderViewSet.get_object u pk db = Some order ->
  (truthy (data_get data "delivery_crew_id") = false ->
   OrderViewSet.assign_delivery_crew u pk data db
   = (Response HTTP_400_BAD_REQUEST
        [("error", "delivery_crew_id is required")]%string, db))
  /\ (forall id, data_get data "delivery_crew_id" = VInt id -> id <> 0 ->
        (forall x, In x (auth_user db) -> User.id x = id ->
                   User.in_group x "Delivery crew" = false) ->
        OrderViewSet.assign_delivery_crew u pk data db
        = (Response HTTP_404_NOT_FOUND
             [("error", "User not found or not in delivery crew")]%string,
           db))
  /\ (forall id x, data_get data "delivery_crew_id" = VInt id -> id <> 0 ->
        delivery_crew_get id db = Some x ->
        User.id x = id /\ User.in_group x "Delivery crew" = true
        /\ OrderViewSet.assign_delivery_crew u pk data db
           = (Response HTTP_200_OK [],
              Order_save
                (Order.mk (Order.id order) (Order.user order) (Some id)
                   (Order.status order) (Order.total order)
                   (Order.date order)) db)).
Proof.
  intros Hobj. unfold OrderViewSet.assign_delivery_crew. rewrite Hobj.
  split; [|split].
  - intros Hf. rewrite Hf. reflexivity.
  - intros id Hv Hne Hnone. rewrite Hv. simpl.
    destruct (id =? 0) eqn:E; [lia|]. simpl.
    assert (Hg : delivery_crew_get id db = None).
    { unfold delivery_crew_get.
      destruct (find _ (auth_user db)) as [x|] eqn:Ef; [|reflexivity].
      apply find_some in Ef. destruct Ef as [Hin Hb].
      apply andb_true_iff in Hb. destruct Hb as [Hid Hgr].
      rewrite (Hnone x Hin) in Hgr; [discriminate | lia]. }
    rewrite Hg. reflexivity.
  - intros id x Hv Hne Hg. rewrite Hv. simpl.
    destruct (id =? 0) eqn:E; [lia|]. simpl. rewrite Hg.
    unfold delivery_crew_get in Hg. apply find_some in Hg.
    destruct Hg as [_ Hb]. apply andb_true_iff in Hb. destruct Hb as [Hid Hgr].
    assert (User.id x = id) by lia. subst id. auto.
Qed.

(** The manager assigns the pending order of the samples to the crew
    member 5; assigning it to Bob, a customer, is refused. *)
Lemma assign_delivery_crew_outcomes_witness :
  OrderViewSet.assign_delivery_crew Sample.manager 1
    [("delivery_crew_id"%string, VInt 5)] Sample.db5
  = (Response HTTP_200_OK [],
     Order_save (Order.mk 1 1 (Some 5) false 2598 100) Sample.db5)
  /\ OrderViewSet.assign_delivery_crew Sample.manager 1
       [("delivery_crew_id"%string, VInt 2)] Sample.db5
     = (Response HTTP_404_NOT_FOUND
          [("error", "User not found or not in delivery crew")]%string,
        Sample.db5).
Proof.
  split.
  - apply (proj2 (proj2 (assign_delivery_crew_outcomes Sample.manager 1
                           [("delivery_crew_id"%string, VInt 5)] Sample.db5
                           (Order.mk 1 1 (Some 5) false 2598 100) eq_refl))
             5 Sample.crew); [reflexivity | discriminate | reflexivity].
  - apply (proj1 (proj2 (assign_delivery_crew_outcomes Sample.manager 1
                           [("delivery_crew_id"%string, VInt 2)] Sample.db5
                           (Order.mk 1 1 (Some 5) false 2598 100) eq_refl))
             2); [reflexivity | discriminate |].
    simpl. intros x [<-|[<-|[<-|[<-|[<-|[]]]]]]; simpl; intros H;
      try discriminate; reflexivity.
Defined.

(** ** The menu *)

(** [update_featured] on a menu item that exists: without the key
    [featured], or with null, the answer is 400 and nothing changes;
    otherwise the item is saved with [featured] set to the truth value of
    what was sent, its title and price unchanged. The truth value is
    Python's: every text that is not empty, the text [false] included, sets
    the flag. *)
Theorem update_featured_takes_truth_value pk data db m :
  Menu_get pk db = Some m ->
  ((lookup data "featured" = None \/ lookup data "featured" = Some VNull) ->
   MenuViewSet.update_featured pk data db
   = (Response HTTP_400_BAD_REQUEST
        [("error", "featured field is required")]%string, db))
  /\ (forall v, lookup data "featured" = Some v -> v <> VNull ->
        MenuViewSet.update_featured pk data db
        = (Response HTTP_200_OK [],
           Menu_save (Menu.mk (Menu.id m) (Menu.title m) (Menu.price m)
                              (truthy v)) db))
  /\ (forall s, s <> ""%string -> truthy (VStr s) = true)
  /\ truthy (VBool false) = false /\ truthy (VInt 0) = false
  /\ truthy (VStr "") = false.
Proof.
  intros Hg. unfold MenuViewSet.update_featured, MenuViewSet.get_object.
  rewrite Hg. split; [|split; [|split]].
  - intros [-> | ->]; reflexivity.
  - intros v Hv Hne. rewrite Hv. destruct v; try reflexivity. congruence.
  - intros s Hs. simpl. destruct (String.eqb s "") eqn:E; [|reflexivity].
    apply String.eqb_eq in E. congruence.
  - repeat split.
Qed.

(** A form sends the text [false] for the Greek salad: the item becomes
    featured. *)
Lemma update_featured_takes_truth_value_witness :
  MenuViewSet.update_featured 1 [("featured"%string, VStr "false")] Sample.db0
  = (Response HTTP_200_OK [],
     Menu_save (Menu.mk 1 "Greek Salad" 1299 true) Sample.db0).
Proof.
  apply (proj1 (proj2 (update_featured_takes_truth_value 1
                         [("featured"%string, VStr "false")] Sample.db0
                         Sample.greek_salad eq_refl))
           (VStr "false")); [reflexivity | discriminate].
Defined.

(** What a row of the menu is to a customer: key, title and price. *)
Lemma menu_save_keeps_offer db m instance :
  NoDup (map Menu.id (menu db)) -> In instance (menu db) ->
  Menu.id m = Menu.id instance -> Menu.title m = Menu.title instance ->
  Menu.price m = Menu.price instance ->
  map menu_offer (menu (Menu_save m db)) = map menu_offer (menu db).
Proof.
  intros Hnd Hin Hid Ht Hp. unfold Menu_save. simpl. rewrite map_map.
  apply map_ext_in. intros r Hr.
  destruct (Menu.id r =? Menu.id m) eqn:E; [|reflexivity].
  assert (r = instance)
    by (apply (NoDup_map_inj Menu.id (menu db)); auto; lia).
  subst r. unfold menu_offer. congruence.
Qed.

(** A user who is not staff cannot change the offer: whatever action of
    the menu views such a user requests, the keys, titles and prices of the
    menu and the cart and order tables stay as they were. A manager can
    only change the featured flag; any other user who is not staff changes
    nothing at all. *)
Theorem menu_offer_changes_need_staff action u pk data db :
  User.is_staff u = false -> NoDup (map Menu.id (menu db)) ->
  let db' := snd (MenuViewSet.dispatch action u pk data db) in
  map menu_offer (menu db') = map menu_offer (menu db)
  /\ cart db' = cart db /\ orders db' = orders db
  /\ order_items db' = order_items db
  /\ (User.in_group u "Manager" = false ->
      action <> "list"%string -> action <> "retrieve"%string -> db' = db).
Proof.
  intros Hs Hnd. cbv zeta. unfold MenuViewSet.dispatch, MenuViewSet.get_permissions.
  destruct (String.eqb action "list" || String.eqb action "retrieve") eqn:Eread.
  - (* reading actions are not handled by the writing dispatch *)
    simpl.
    assert (Hc : String.eqb action "create" = false
                 /\ String.eqb action "update" = false
                 /\ String.eqb action "partial_update" = false
                 /\ String.eqb action "update_featured" = false
                 /\ String.eqb action "destroy" = false).
    { apply orb_true_iff in Eread.
      destruct Eread as [E|E]; apply String.eqb_eq in E; subst action;
        repeat split. }
    destruct Hc as (-> & -> & -> & -> & ->). simpl.
    repeat split.
  - destruct (String.eqb action "update_featured") eqn:Ef.
    + simpl. rewrite Hs, orb_false_r.
      destruct (User.in_group u "Manager") eqn:Em; simpl;
        [|repeat split].
      apply String.eqb_eq in Ef. subst action. simpl.
      unfold MenuViewSet.update_featured, MenuViewSet.get_object.
      destruct (Menu_get pk db) as [m|] eqn:Hg; [|repeat split; discriminate].
      apply Menu_get_in in Hg.
      destruct (lookup data "featured") as [[]|]; cbn [snd];
        (split; [|repeat split; discriminate]);
        try reflexivity;
        apply (menu_save_keeps_offer db _ m); auto.
    + simpl. rewrite Hs. simpl. repeat split.
Qed.

(** A manager who is not staff tries to change a price, then sets the
    featured flag. *)
Lemma menu_offer_changes_need_staff_witness :
  map menu_offer
      (menu (snd (MenuViewSet.dispatch "partial_update" Sample.manager 1
                    [("price"%string, VDec 1)] Sample.db0)))
  = map menu_offer (menu Sample.db0)
  /\ map menu_offer
         (menu (snd (MenuViewSet.dispatch "update_featured" Sample.manager 1
                       [("featured"%string, VBool true)] Sample.db0)))
     = map menu_offer (menu Sample.db0).
Proof.
  split.
  - apply (menu_offer_changes_need_staff "partial_update" Sample.manager 1
             [("price"%string, VDec 1)] Sample.db0 eq_refl).
    repeat constructor; simpl; intuition discriminate.
  - apply (menu_offer_changes_need_staff "update_featured" Sample.manager 1
             [("featured"%string, VBool true)] Sample.db0 eq_refl).
    repeat constructor; simpl; intuition discriminate.
Defined.

(** ** Deleting an order *)

(** Any user who gets an order from the queryset may delete it, whatever
    its status: the answer is 204, no order with that key is left, its
    lines are deleted with it, and the other orders keep their lines. *)
Theorem order_destroy_cascades u pk data db instance :
  OrderViewSet.get_object u pk db = Some instance ->
  let r := OrderViewSet.dispatch "destroy" u pk data db in
  fst r = Response HTTP_204_NO_CONTENT []
  /\ (forall o, In o (orders (snd r)) <-> In o (orders db) /\ Order.id o <> pk)
  /\ lines_of (snd r) pk = []
  /\ (forall k, k <> pk -> lines_of (snd r) k = lines_of db k)
  /\ cart (snd r) = cart db /\ menu (snd r) = menu db.
Proof.
  intros Hobj. cbv zeta. unfold OrderViewSet.dispatch. simpl.
  unfold OrderViewSet.destroy. rewrite Hobj.
  assert (Hid : Order.id instance = pk).
  { unfold OrderViewSet.get_object in Hobj. apply find_some in Hobj.
    destruct Hobj as [_ H]. lia. }
  simpl. split; [reflexivity|]. split; [|split; [|split]].
  - intros o. rewrite filter_In. rewrite Hid.
    destruct (Order.id o =? pk) eqn:E; simpl; split; intros [H1 H2];
      split; auto; try discriminate; lia.
  - unfold lines_of. simpl. apply filter_none. intros x Hx.
    apply filter_In in Hx. destruct Hx as [_ Hx]. rewrite Hid in Hx.
    destruct (OrderItem.order x =? pk); [discriminate | reflexivity].
  - intros k Hk. unfold lines_of. simpl. apply filter_filter_order.
    rewrite Hid. exact Hk.
  - auto.
Qed.

(** Alice deletes her delivered order. *)
Lemma order_destroy_cascades_witness :
  lines_of (snd (OrderViewSet.dispatch "destroy" Sample.alice 1 []
                   Sample.db3)) 1 = [].
Proof.
  apply (order_destroy_cascades Sample.alice 1 [] Sample.db3
           (Order.mk 1 1 (Some 5) true 2598 100)).
  reflexivity.
Defined.

(** ** What each role sees *)

(** The queryset of the orders is chosen by role, in this order: staff and
    managers get every order; then a member of [Delivery crew] gets the
    orders assigned to them and no other, not even the orders they placed
    themselves; any other user gets the orders they placed. *)
Theorem order_visibility_by_role u pk db o :
  (User.is_staff u || User.in_group u "Manager" = true ->
   In o (orders db) -> In o (OrderViewSet.get_queryset u db))
  /\ (User.is_staff u = false -> User.in_group u "Manager" = false ->
      User.in_group u "Delivery crew" = true ->
      (In o (OrderViewSet.get_queryset u db)
       <-> In o (orders db) /\ Order.delivery_crew o = Some (User.id u))
      /\ ((forall x, In x (orders db) -> Order.id x = pk ->
                     Order.delivery_crew x <> Some (User.id u)) ->
          OrderViewSet.dispatch "retrieve" u pk [] db = not_found db))
  /\ (User.is_staff u = false -> User.in_group u "Manager" = false ->
      User.in_group u "Delivery crew" = false ->
      (In o (OrderViewSet.get_queryset u db)
       <-> In o (orders db) /\ Order.user o = User.id u)).
Proof.
  split; [|split].
  - unfold OrderViewSet.get_queryset. intros ->. auto.
  - intros Hs Hm Hd.
    assert (Hq : OrderViewSet.get_queryset u db
                 = filter (fun o => match Order.delivery_crew o with
                                    | Some d => d =? User.id u
                                    | None => false
                                    end) (orders db)).
    { unfold OrderViewSet.get_queryset. rewrite Hs, Hm, Hd. reflexivity. }
    split.
    + rewrite Hq, filter_In. destruct (Order.delivery_crew o) as [d|].
      * split; intros [H1 H2]; split; auto; [f_equal; lia|].
        inversion H2. lia.
      * split; intros [H1 H2]; discriminate.
    + intros Hh. unfold OrderViewSet.dispatch. simpl.
      unfold OrderViewSet.retrieve, OrderViewSet.get_object. rewrite Hq.
      rewrite find_hidden; [reflexivity|].
      intros r Hr Hk. specialize (Hh r Hr Hk).
      destruct (Order.delivery_crew r) as [d|]; [|reflexivity].
      destruct (d =? User.id u) eqn:E; [|reflexivity].
      exfalso. apply Hh. f_equal. lia.
  - intros Hs Hm Hd. unfold OrderViewSet.get_queryset.
    rewrite Hs, Hm, Hd. simpl. rewrite filter_In.
    split; intros [H1 H2]; split; auto; lia.
Qed.

(** The crew member 5 places an order that is not assigned to them, and
    does not get it back. *)
Lemma order_visibility_by_role_witness :
  OrderViewSet.dispatch "retrieve" Sample.crew 1 []
    (set_orders Sample.db0 [Order.mk 1 5 None false 2598 100] 2)
  = not_found (set_orders Sample.db0 [Order.mk 1 5 None false 2598 100] 2).
Proof.
  apply (proj2 (proj1 (proj2 (order_visibility_by_role Sample.crew 1
                                (set_orders Sample.db0
                                   [Order.mk 1 5 None false 2598 100] 2)
                                (Order.mk 1 5 None false 2598 100)))
                  eq_refl eq_refl eq_refl)).
  simpl. intros x [<-|[]] _. simpl. discriminate.
Defined.

(** The cart is private to every role, and reservations are open to staff
    only: whoever the actor is, staff included, a cart line of another
    user is answered 404; a manager who is not staff is answered 404 on
    the reservation of another user like any customer; staff get every
    reservation and may delete it. *)
Theorem cart_and_reservation_scope u pk db :
  (cart_hidden u pk db ->
   CartViewSet.retrieve u pk db = not_found db
   /\ (forall data partial,
         CartViewSet.update u pk data partial db = not_found db)
   /\ CartViewSet.destroy u pk db = not_found db)
  /\ (User.is_staff u = false -> reservation_hidden u pk db ->
      ReservationViewSet.retrieve u pk db = not_found db
      /\ (forall today now data partial,
            ReservationViewSet.update u pk today now data partial db
            = not_found db)
      /\ ReservationViewSet.destroy u pk db = not_found db)
  /\ (User.is_staff u = true ->
      forall r, find (fun x => Reservation.id x =? pk) (reservations db)
                = Some r ->
      ReservationViewSet.get_object u pk db = Some r
      /\ ReservationViewSet.destroy u pk db
         = (Response HTTP_204_NO_CONTENT [],
            set_reservations db
              (filter (fun x => negb (Reservation.id x =? Reservation.id r))
                      (reservations db)) (reservation_seq db))).
Proof.
  split; [|split].
  - intros Hh.
    assert (Hg : CartViewSet.get_object u pk db = None).
    { unfold CartViewSet.get_object, CartViewSet.get_queryset, Cart_filter_user.
      apply find_hidden. intros r Hin Hk. specialize (Hh r Hin Hk).
      destruct (Cart.user r =? User.id u) eqn:E; [lia | reflexivity]. }
    unfold CartViewSet.retrieve, CartViewSet.update, CartViewSet.destroy.
    rewrite Hg. auto.
  - intros Hs Hh.
    assert (Hg : ReservationViewSet.get_object u pk db = None).
    { unfold ReservationViewSet.get_object, ReservationViewSet.get_queryset.
      rewrite Hs. apply find_hidden. intros r Hin Hk.
      specialize (Hh r Hin Hk).
      destruct (Reservation.user r =? User.id u) eqn:E; [lia | reflexivity]. }
    unfold ReservationViewSet.retrieve, ReservationViewSet.update,
      ReservationViewSet.destroy.
    rewrite Hg. auto.
  - intros Hs r Hf.
    assert (Hg : ReservationViewSet.get_object u pk db = Some r).
    { unfold ReservationViewSet.get_object, ReservationViewSet.get_queryset.
      rewrite Hs. exact Hf. }
    split; [exact Hg|]. unfold ReservationViewSet.destroy. rewrite Hg.
    reflexivity.
Qed.

(** The manager asks for the reservation of Alice; the administrator asks
    for her cart line. *)
Lemma cart_and_reservation_scope_witness :
  ReservationViewSet.retrieve Sample.manager 1 Sample.db4
  = not_found Sample.db4
  /\ CartViewSet.retrieve Sample.admin 1 Sample.db1 = not_found Sample.db1.
Proof.
  split.
  - apply (proj1 (proj2 (cart_and_reservation_scope Sample.manager 1
                           Sample.db4)) eq_refl).
    intros r [<-|[]] _. simpl. discriminate.
  - apply (proj1 (cart_and_reservation_scope Sample.admin 1 Sample.db1)).
    intros c [<-|[]] _. simpl. discriminate.
Defined.

(** ** permissions.py *)

(** The permission classes as sets of users: staff pass every one of them;
    whoever passes [IsManager] passes [IsDeliveryCrew]; a user in neither
    group passes [IsCustomer] and, unless staff, no other role permission;
    and every user passes [IsCustomer] or [IsDeliveryCrew]. *)
Theorem permission_classes_order u :
  (User.is_staff u = true -> forall p, has_permission p u = true)
  /\ (has_permission IsManager u = true ->
      has_permission IsDeliveryCrew u = true)
  /\ (has_permission IsAdminUser u = true ->
      has_permission IsManager u = true)
  /\ (User.in_group u "Manager" = false ->
      User.in_group u "Delivery crew" = false ->
      has_permission IsCustomer u = true
      /\ has_permission IsManager u = User.is_staff u
      /\ has_permission IsDeliveryCrew u = User.is_staff u)
  /\ has_permission IsCustomer u || has_permission IsDeliveryCrew u = true
  /\ (User.is_staff u = false ->
      has_permission IsCustomer u = true ->
      has_permission IsDeliveryCrew u = false).
Proof.
  unfold has_permission.
  destruct (User.is_staff u), (User.in_group u "Manager"),
    (User.in_group u "Delivery crew"); simpl;
    repeat split; try discriminate; try reflexivity;
    try (intros; match goal with p : Permission |- _ => destruct p end;
         reflexivity);
    intros; try discriminate; try reflexivity; auto.
Qed.

(** The manager of the samples passes the check of the delivery crew. *)
Lemma permission_classes_order_witness :
  has_permission IsDeliveryCrew Sample.manager = true.
Proof.
  apply (proj1 (proj2 (permission_classes_order Sample.manager))).
  reflexivity.
Defined.

(** ** The slots of the reservations *)

Lemma time_eqb_eq a b : time_eqb a b = true <-> a = b.
Proof.
  unfold time_eqb. destruct a as [h m s us], b as [h' m' s' us']. simpl.
  rewrite !andb_true_iff, !Z.eqb_eq. split.
  - intros [[[-> ->] ->] ->]. reflexivity.
  - intros H. inversion H. auto.
Qed.

Lemma reservation_conflict_false r rows x :
  Reservation_conflict r rows = false -> In x rows ->
  Reservation.id x <> Reservation.id r -> ~ same_slot x r.
Proof.
  unfold Reservation_conflict. intros Hc Hin Hid (Hu & Hd & Ht).
  assert (E : existsb
                (fun x => negb (Reservation.id x =? Reservation.id r)
                          && (Reservation.user x =? Reservation.user r)
                          && (Reservation.reservation_date x
                              =? Reservation.reservation_date r)
                          && time_eqb (Reservation.reservation_time x)
                                      (Reservation.reservation_time r)) rows
              = true).
  { apply existsb_exists. exists x. split; [exact Hin|].
    rewrite Hu, Hd, !Z.eqb_refl.
    rewrite (proj2 (time_eqb_eq _ _) Ht).
    destruct (Reservation.id x =? Reservation.id r) eqn:E; [lia|reflexivity]. }
  congruence.
Qed.

Lemma same_slot_sym a b : same_slot a b -> same_slot b a.
Proof. unfold same_slot. intuition congruence. Qed.

Lemma reservation_get_object_in u pk db instance :
  ReservationViewSet.get_object u pk db = Some instance ->
  In instance (reservations db) /\ Reservation.id instance = pk.
Proof.
  unfold ReservationViewSet.get_object, ReservationViewSet.get_queryset.
  intros H. apply find_some in H. destruct H as [Hin Hid].
  split; [|lia]. destruct (User.is_staff u); [assumption|].
  apply filter_In in Hin. tauto.
Qed.

Lemma step_reservation_frame op db :
  match op with
  | reservation_create _ _ _ _ | reservation_update _ _ _ _ _ _
  | reservation_destroy _ _ => True
  | _ => reservations (snd (step op db)) = reservations db
         /\ reservation_seq (snd (step op db)) = reservation_seq db
  end.
Proof.
  destruct op; try exact I; cbn [step].
  - destruct (cart_create_effect u data db) as [->|(c & _ & _ & ->)];
      split; reflexivity.
  - destruct (cart_update_effect u pk data partial db)
      as [->|(i & c & _ & _ & _ & ->)]; split; reflexivity.
  - unfold CartViewSet.destroy; split_match; split; reflexivity.
  - split; reflexivity.
  - destruct (run_view (OrderViewSet.create u today) f db) as [out db'] eqn:E.
    apply create_effect in E. cbv zeta in E. simpl snd.
    destruct E as [[-> _]|[(_ & j & e & _ & -> & _)|[_ ->]]];
      split; reflexivity.
  - unfold OrderViewSet.update, OrderViewSet.validate_and_save;
      split_match; split; reflexivity.
  - unfold OrderViewSet.assign_delivery_crew; split_match; split; reflexivity.
  - unfold OrderViewSet.destroy; split_match; split; reflexivity.
  - unfold MenuViewSet.create; split_match; split; reflexivity.
  - unfold MenuViewSet.update; split_match; split; reflexivity.
  - unfold MenuViewSet.update_featured; split_match; split; reflexivity.
  - unfold MenuViewSet.destroy; split_match; split; reflexivity.
Qed.

Lemma reservation_ok_insert db r :
  reservation_ok db -> Reservation.id r = reservation_seq db ->
  Reservation_conflict r (reservations db) = false ->
  reservation_ok
    (set_reservations db (reservations db ++ [r]) (reservation_seq db + 1)).
Proof.
  intros (Hnd & Hlt & Hslot) Hid Hc. unfold reservation_ok. simpl.
  split; [|split].
  - rewrite map_app. simpl.
    apply NoDup_app; [exact Hnd | repeat constructor; simpl; tauto |].
    intros k Hk [<-|[]]. apply in_map_iff in Hk.
    destruct Hk as (x & Hx & Hin). apply Hlt in Hin. lia.
  - intros x Hin. apply in_app_or in Hin.
    destruct Hin as [Hin|[<-|[]]]; [apply Hlt in Hin; lia | lia].
  - intros a b Ha Hb Hne. apply in_app_or in Ha. apply in_app_or in Hb.
    destruct Ha as [Ha|[<-|[]]], Hb as [Hb|[<-|[]]].
    + apply Hslot; assumption.
    + apply (reservation_conflict_false r (reservations db)); assumption.
    + intros Hs. apply same_slot_sym in Hs. revert Hs.
      apply (reservation_conflict_false r (reservations db)); auto.
    + congruence.
Qed.

Lemma reservation_ok_replace db r instance :
  reservation_ok db -> In instance (reservations db) ->
  Reservation.id r = Reservation.id instance ->
  Reservation_conflict r (reservations db) = false ->
  reservation_ok
    (set_reservations db
       (map (fun x => if Reservation.id x =? Reservation.id r then r else x)
            (reservations db)) (reservation_seq db)).
Proof.
  intros (Hnd & Hlt & Hslot) Hin Hid Hc. unfold reservation_ok. simpl.
  assert (Hids : map Reservation.id
                   (map (fun x => if Reservation.id x =? Reservation.id r
                                  then r else x) (reservations db))
                 = map Reservation.id (reservations db)).
  { rewrite map_map. apply map_ext. intros x.
    destruct (Reservation.id x =? Reservation.id r) eqn:E; [lia|reflexivity]. }
  assert (Hel : forall a,
             In a (map (fun x => if Reservation.id x =? Reservation.id r
                                 then r else x) (reservations db)) ->
             a = r \/ (In a (reservations db)
                       /\ Reservation.id a <> Reservation.id r)).
  { intros a Ha. apply in_map_iff in Ha. destruct Ha as (x & Hx & Hxin).
    destruct (Reservation.id x =? Reservation.id r) eqn:E; subst a;
      [left; reflexivity | right; split; [assumption | lia]]. }
  split; [rewrite Hids; exact Hnd|]. split.
  - intros a Ha. destruct (Hel a Ha) as [->|[Ha' _]];
      [rewrite Hid; apply Hlt; exact Hin | apply Hlt; exact Ha'].
  - intros a b Ha Hb Hne.
    destruct (Hel a Ha) as [->|[Ha' Hane]], (Hel b Hb) as [->|[Hb' Hbne]].
    + congruence.
    + intros Hs. apply same_slot_sym in Hs. revert Hs.
      apply (reservation_conflict_false r (reservations db)); auto.
    + apply (reservation_conflict_false r (reservations db)); auto.
    + apply Hslot; assumption.
Qed.

Lemma reservation_ok_filter db p :
  reservation_ok db ->
  reservation_ok
    (set_reservations db (filter p (reservations db)) (reservation_seq db)).
Proof.
  intros (Hnd & Hlt & Hslot). unfold reservation_ok. simpl.
  split; [apply NoDup_map_filter; exact Hnd|]. split.
  - intros r Hr. apply filter_In in Hr. apply Hlt. tauto.
  - intros a b Ha Hb. apply filter_In in Ha. apply filter_In in Hb.
    apply Hslot; tauto.
Qed.

Lemma step_reservation_ok op db :
  reservation_ok db -> reservation_ok (snd (step op db)).
Proof.
  intros Hok. assert (Hf := step_reservation_frame op db).
  destruct op; cbn [step]; cbn [step] in Hf;
    try (unfold reservation_ok; rewrite (proj1 Hf), (proj2 Hf); exact Hok).
  - unfold ReservationViewSet.create.
    destruct (ReservationSerializer_is_valid _ _ _ _ _ _ _) as [attrs|e|e];
      [|exact Hok|exact Hok].
    destruct (a_name attrs); [|exact Hok].
    destruct (a_number_of_guests attrs); [|exact Hok].
    destruct (a_reservation_date attrs); [|exact Hok].
    destruct (a_reservation_time attrs); [|exact Hok].
    destruct (Reservation_conflict _ _) eqn:Hc; [exact Hok|].
    apply reservation_ok_insert; [exact Hok | reflexivity | exact Hc].
  - unfold ReservationViewSet.update.
    destruct (ReservationViewSet.get_object u pk db) as [instance|] eqn:Hg;
      [|exact Hok].
    apply reservation_get_object_in in Hg. destruct Hg as [Hin _].
    destruct (ReservationSerializer_is_valid _ _ _ _ _ _ _) as [attrs|e|e];
      [|exact Hok|exact Hok].
    destruct (Reservation_conflict _ _) eqn:Hc; [exact Hok|].
    apply (reservation_ok_replace db _ instance);
      [exact Hok | exact Hin | reflexivity | exact Hc].
  - unfold ReservationViewSet.destroy.
    destruct (ReservationViewSet.get_object u pk db); [|exact Hok].
    apply reservation_ok_filter. exact Hok.
Qed.

(** A user never holds two reservations for the same date and time: a
    request to create a reservation on a slot the user already holds is
    answered 400 and writes nothing, and a reservation table with distinct
    keys and no two rows on the same slot stays so after every sequence of
    operations, updates by staff included. *)
Theorem reservation_slots_stay_unique :
  (forall u today now data db n sp g d t,
      creation_request data n sp g d t ->
      slot_taken (User.id u) d t db = true ->
      exists errs,
        ReservationViewSet.create u today now data db
        = (Response HTTP_400_BAD_REQUEST errs, db))
  /\ (forall ops db, reservation_ok db -> reservation_ok (run ops db)).
Proof.
  split.
  - intros u today now data db n sp g d t Hreq Htaken.
    unfold ReservationViewSet.create, ReservationSerializer_is_valid.
    rewrite (creation_fields today data n sp g d t Hreq).
    destruct (guests_errors g ++ date_errors today d) as [|e errs];
      [|eauto].
    rewrite (validator_slot (User.id u)
               (mkReservationAttrs (Some n) (Some g) (Some d) (Some t) sp)
               db d t eq_refl eq_refl), Htaken.
    eauto.
  - intros ops. induction ops as [|op ops IH]; intros db Hok; simpl;
      [exact Hok|]. apply IH. apply step_reservation_ok. exact Hok.
Qed.

(** Alice asks again for the slot she holds. *)
Lemma reservation_slots_stay_unique_witness :
  (exists errs,
      ReservationViewSet.create Sample.alice 100 (mktime 12 0 0 0)
        [("name"%string, VStr "Alice Smith");
         ("number_of_guests"%string, VInt 2);
         ("reservation_date"%string, VDate 101);
         ("reservation_time"%string, VTime 19 0 0 0)] Sample.db4
      = (Response HTTP_400_BAD_REQUEST errs, Sample.db4))
  /\ reservation_ok
       (run [reservation_destroy Sample.alice 1] Sample.db4).
Proof.
  split.
  - apply (proj1 reservation_slots_stay_unique Sample.alice 100
             (mktime 12 0 0 0) _ Sample.db4 "Alice Smith"%string None 2 101
             (mktime 19 0 0 0)).
    + repeat split.
    + reflexivity.
  - apply (proj2 reservation_slots_stay_unique). repeat split.
    + repeat constructor. simpl. tauto.
    + simpl. intros r [<-|[]]. reflexivity.
    + simpl. intros a b [<-|[]] [<-|[]] H; congruence.
Defined.

(** ** Updating a reservation *)

Lemma time_only_fields today h m s us :
  Reservation_to_internal_value today
    [("reservation_time"%string, VTime h m s us)] true
  = inr (mkReservationAttrs None None None (Some (mktime h m s us)) None).
Proof. reflexivity. Qed.

(** [validate] reads the date from the data of the request, not from the
    stored reservation. An update is accepted only if its data carries a
    reservation time within the opening hours, and the rule against a time
    already past is applied only when the data also carries today's date.
    So a partial update that sends only a time within the opening hours, on
    a free slot, is accepted whatever the current time is, also for a
    reservation that is for today; the same time sent together with
    today's date is refused when it is past. *)
Theorem reservation_update_reads_sent_date u pk db instance :
  ReservationViewSet.get_object u pk db = Some instance ->
  (forall today now data partial d db',
      ReservationViewSet.update u pk today now data partial db
      = (Response HTTP_200_OK d, db') ->
      exists t,
        lookup data "reservation_time"
        = Some (VTime (hour t) (minute t) (second t) (microsecond t))
        /\ hours_rule t
        /\ (forall dt, lookup data "reservation_date" = Some (VDate dt) ->
                       date_rule today dt /\ today_rule today now dt t)
        /\ (forall g, lookup data "number_of_guests" = Some (VInt g) ->
                      guests_rule g))
  /\ (forall today now t,
        hours_rule t ->
        let attrs := mkReservationAttrs None None None (Some t) None in
        let r := Reservation_update_fields instance attrs in
        Reservation_unique_validator (User.id u) (Some instance) attrs db
        = false ->
        Reservation_conflict r (reservations db) = false ->
        ReservationViewSet.update u pk today now
          [("reservation_time"%string,
            VTime (hour t) (minute t) (second t) (microsecond t))] true db
        = (Response HTTP_200_OK [],
           set_reservations db
             (map (fun x => if Reservation.id x =? Reservation.id r
                            then r else x) (reservations db))
             (reservation_seq db)))
  /\ (forall today now t,
        time_ltb t now = true ->
        Reservation_unique_validator (User.id u) (Some instance)
          (mkReservationAttrs None None (Some today) (Some t) None) db
        = false ->
        ReservationViewSet.update u pk today now
          [("reservation_date"%string, VDate today);
           ("reservation_time"%string,
            VTime (hour t) (minute t) (second t) (microsecond t))] true db
        = (Response HTTP_400_BAD_REQUEST past_time_error, db)).
Proof.
  intros Hobj. split; [|split].
  - intros today now data partial d db' H.
    unfold ReservationViewSet.update in H. rewrite Hobj in H.
    destruct (ReservationSerializer_is_valid _ _ _ _ _ _ _) as [attrs|e|e] eqn:Hv;
      [|inversion H|inversion H].
    unfold ReservationSerializer_is_valid in Hv.
    destruct (Reservation_to_internal_value today data partial)
      as [e|attrs0] eqn:Hi; [discriminate|].
    destruct (Reservation_unique_validator _ _ _ _); [discriminate|].
    apply validate_valid in Hv. destruct Hv as (-> & t & Ht & Hh & Htd).
    apply Reservation_tiv_inv in Hi.
    destruct Hi as (_ & Hg & Hd & Htf & _).
    unfold field_ok in Hg, Hd, Htf.
    exists t. split; [|split; [exact Hh|split]].
    + destruct (lookup data "reservation_time") as [vt|];
        [|destruct Htf as [Htf _]; congruence].
      destruct Htf as (t' & Htf & Hta). assert (t' = t) by congruence.
      subst t'. apply reservation_time_field_inv in Htf. congruence.
    + intros dt Hl. rewrite Hl in Hd. destruct Hd as (dt' & Hdf & Hda).
      apply reservation_date_field_inv in Hdf. destruct Hdf as [E Hr].
      inversion E; subst dt'. split; [exact Hr|]. apply Htd. exact Hda.
    + intros g Hl. rewrite Hl in Hg. destruct Hg as (g' & Hgf & _).
      apply number_of_guests_field_inv in Hgf. destruct Hgf as [E Hr].
      inversion E; subst g'. exact Hr.
  - intros today now t [Ho Hc]. cbv zeta. intros Hu Hconf.
    unfold ReservationViewSet.update, ReservationSerializer_is_valid.
    rewrite Hobj, time_only_fields.
    destruct t as [h m s us]. cbn [hour minute second microsecond].
    rewrite Hu. unfold validate. cbn [a_reservation_date a_reservation_time].
    unfold time_le in Ho, Hc. rewrite Ho, Hc.
    cbn [orb]. rewrite Hconf. reflexivity.
  - intros today now t Hpast Hu.
    unfold ReservationViewSet.update, ReservationSerializer_is_valid.
    rewrite Hobj. destruct t as [h m s us].
    cbn [hour minute second microsecond].
    assert (Hi : Reservation_to_internal_value today
                   [("reservation_date"%string, VDate today);
                    ("reservation_time"%string, VTime h m s us)] true
                 = inr (mkReservationAttrs None None (Some today)
                          (Some (mktime h m s us)) None)).
    { unfold Reservation_to_internal_value, run_field. simpl.
      unfold validate_reservation_date. rewrite Z.ltb_irrefl. reflexivity. }
    rewrite Hi, Hu. unfold validate.
    cbn [a_reservation_date a_reservation_time].
    rewrite Z.eqb_refl, Hpast. reflexivity.
Qed.

(** Alice holds a reservation for day 101 at 19:00. On day 101 at 20:30 she
    moves it to 12:00 by sending the time alone. *)
Lemma reservation_update_reads_sent_date_witness :
  ReservationViewSet.update Sample.alice 1 101 (mktime 20 30 0 0)
    [("reservation_time"%string, VTime 12 0 0 0)] true Sample.db4
  = (Response HTTP_200_OK [],
     set_reservations Sample.db4
       [Reservation.mk 1 1 "Alice Smith" 4 101 (mktime 12 0 0 0) ""] 2)
  /\ ReservationViewSet.update Sample.alice 1 101 (mktime 20 30 0 0)
       [("reservation_date"%string, VDate 101);
        ("reservation_time"%string, VTime 12 0 0 0)] true Sample.db4
     = (Response HTTP_400_BAD_REQUEST past_time_error, Sample.db4).
Proof.
  split.
  - apply (proj1 (proj2 (reservation_update_reads_sent_date Sample.alice 1
                           Sample.db4
                           (Reservation.mk 1 1 "Alice Smith" 4 101
                              (mktime 19 0 0 0) "") eq_refl))
             101 (mktime 20 30 0 0) (mktime 12 0 0 0)).
    + split; reflexivity.
    + reflexivity.
    + reflexivity.
  - apply (proj2 (proj2 (reservation_update_reads_sent_date Sample.alice 1
                           Sample.db4
                           (Reservation.mk 1 1 "Alice Smith" 4 101
                              (mktime 19 0 0 0) "") eq_refl))
             101 (mktime 20 30 0 0) (mktime 12 0 0 0)).
    + reflexivity.
    + reflexivity.
Defined.

(** ** The group rosters *)

Lemma in_group_add g x : User.in_group (user_add_group g x) g = true.
Proof.
  unfold user_add_group. destruct (User.in_group x g) eqn:E; [exact E|].
  unfold User.in_group. simpl. rewrite existsb_app. simpl.
  rewrite String.eqb_refl. apply orb_true_r.
Qed.

Lemma in_group_add_other g g' x :
  g' <> g -> User.in_group (user_add_group g x) g' = User.in_group x g'.
Proof.
  intros Hne. unfold user_add_group.
  destruct (User.in_group x g); [reflexivity|].
  unfold User.in_group. simpl. rewrite existsb_app. simpl.
  destruct (String.eqb g' g) eqn:E;
    [apply String.eqb_eq in E; congruence|].
  rewrite !orb_false_r. reflexivity.
Qed.

Lemma in_group_remove g x : User.in_group (user_remove_group g x) g = false.
Proof.
  unfold User.in_group, user_remove_group. simpl.
  induction (User.groups x) as [|n l IH]; simpl; [reflexivity|].
  destruct (String.eqb g n) eqn:E; simpl; [exact IH|].
  rewrite E. exact IH.
Qed.

Lemma in_group_remove_other g g' x :
  g' <> g -> User.in_group (user_remove_group g x) g' = User.in_group x g'.
Proof.
  intros Hne. unfold User.in_group, user_remove_group. simpl.
  induction (User.groups x) as [|n l IH]; simpl; [reflexivity|].
  destruct (String.eqb g n) eqn:E; simpl.
  - apply String.eqb_eq in E. subst n.
    destruct (String.eqb g' g) eqn:E';
      [apply String.eqb_eq in E'; congruence|]. exact IH.
  - rewrite IH. reflexivity.
Qed.

Lemma add_group_idem g x :
  user_add_group g (user_add_group g x) = user_add_group g x.
Proof.
  unfold user_add_group at 1. rewrite in_group_add. reflexivity.
Qed.

(** Adding a user to a group: without a username the answer is 400 and for
    an unknown one 404, with nothing written; otherwise the answer is 201,
    every user row with that key is in the group and keeps its key, its
    staff flag and its membership of every other group, the rows with
    another key and the other tables are as before, and adding the same
    user again changes nothing more. *)
Theorem roster_add by_username group data db :
  let r := GroupViewSet.create by_username group data db in
  (truthy (data_get data "username") = false ->
   r = (Response HTTP_400_BAD_REQUEST
          [("error", "username is required")]%string, db))
  /\ (truthy (data_get data "username") = true ->
      by_username (data_get data "username") db = None ->
      r = (Response HTTP_404_NOT_FOUND [("error", "User not found")]%string,
           db))
  /\ (forall pk,
        truthy (data_get data "username") = true ->
        by_username (data_get data "username") db = Some pk ->
        fst r = Response HTTP_201_CREATED []
        /\ map User.id (auth_user (snd r)) = map User.id (auth_user db)
        /\ map User.is_staff (auth_user (snd r))
           = map User.is_staff (auth_user db)
        /\ (forall x, In x (auth_user (snd r)) -> User.id x = pk ->
                      User.in_group x group = true)
        /\ (forall x, In x (auth_user db) -> User.id x <> pk ->
                      In x (auth_user (snd r)))
        /\ (forall g', g' <> group ->
              map (fun x => User.in_group x g') (auth_user (snd r))
              = map (fun x => User.in_group x g') (auth_user db))
        /\ orders (snd r) = orders db /\ cart (snd r) = cart db
        /\ menu (snd r) = menu db /\ reservations (snd r) = reservations db
        /\ Group_user_set_add group pk (snd r) = snd r).
Proof.
  cbv zeta. unfold GroupViewSet.create. split; [|split].
  - intros ->. reflexivity.
  - intros -> ->. reflexivity.
  - intros pk -> ->. simpl. unfold Group_user_set_add. simpl.
    split; [reflexivity|]. split; [|split; [|split; [|split; [|split]]]].
    + rewrite map_map. apply map_ext. intros x.
      destruct (User.id x =? pk); [|reflexivity].
      unfold user_add_group. destruct (User.in_group x group); reflexivity.
    + rewrite map_map. apply map_ext. intros x.
      destruct (User.id x =? pk); [|reflexivity].
      unfold user_add_group. destruct (User.in_group x group); reflexivity.
    + intros x Hx Hid. apply in_map_iff in Hx. destruct Hx as (y & Hy & _).
      destruct (User.id y =? pk) eqn:E; subst x.
      * apply in_group_add.
      * lia.
    + intros x Hx Hne. apply in_map_iff. exists x. split; [|exact Hx].
      destruct (User.id x =? pk) eqn:E; [lia | reflexivity].
    + intros g' Hg'. rewrite map_map. apply map_ext. intros x.
      destruct (User.id x =? pk); [|reflexivity].
      apply in_group_add_other. exact Hg'.
    + repeat (split; [reflexivity|]).
      unfold set_auth_user. simpl. f_equal. rewrite map_map.
      apply map_ext. intros x.
      destruct (User.id x =? pk) eqn:E.
      * assert (Hid : User.id (user_add_group group x) = User.id x).
        { unfold user_add_group. destruct (User.in_group x group); reflexivity. }
        rewrite Hid, E. apply add_group_idem.
      * rewrite E. reflexivity.
Qed.

(** Bob, found under his username, becomes a manager. *)
Lemma roster_add_witness :
  fst (ManagerGroupViewSet.create (fun _ _ => Some 2)
         [("username"%string, VStr "bob")] Sample.db0)
  = Response HTTP_201_CREATED [].
Proof.
  apply (proj2 (proj2 (roster_add (fun _ _ => Some 2) "Manager"
                         [("username"%string, VStr "bob")] Sample.db0))
           2 eq_refl eq_refl).
Defined.

(** Removing a user from a group: for a key that no user has the answer is
    404 and nothing is written; otherwise the answer is 200, also when the
    user was not a member, no user row with that key is in the group any
    more, every row keeps its key, its staff flag and its other groups, and
    the other tables are as before. *)
Theorem roster_remove group pk db :
  let r := GroupViewSet.destroy group pk db in
  ((forall x, In x (auth_user db) -> User.id x <> pk) ->
   r = (Response HTTP_404_NOT_FOUND [("error", "User not found")]%string, db))
  /\ (forall u, In u (auth_user db) -> User.id u = pk ->
        fst r = Response HTTP_200_OK []
        /\ map User.id (auth_user (snd r)) = map User.id (auth_user db)
        /\ map User.is_staff (auth_user (snd r))
           = map User.is_staff (auth_user db)
        /\ (forall x, In x (auth_user (snd r)) -> User.id x = pk ->
                      User.in_group x group = false)
        /\ (forall x, In x (auth_user db) -> User.id x <> pk ->
                      In x (auth_user (snd r)))
        /\ (forall g', g' <> group ->
              map (fun x => User.in_group x g') (auth_user (snd r))
              = map (fun x => User.in_group x g') (auth_user db))
        /\ orders (snd r) = orders db /\ cart (snd r) = cart db
        /\ menu (snd r) = menu db /\ reservations (snd r) = reservations db).
Proof.
  cbv zeta. unfold GroupViewSet.destroy. split.
  - intros Hnone. unfold User_get.
    destruct (find _ (auth_user db)) as [x|] eqn:E; [|reflexivity].
    apply find_some in E. destruct E as [Hin Hid].
    exfalso. apply (Hnone x Hin). lia.
  - intros u Hu Hid. unfold User_get.
    destruct (find _ (auth_user db)) as [x|] eqn:E.
    2:{ exfalso. apply (find_none _ _ E u) in Hu. lia. }
    apply find_some in E. destruct E as [_ Hx].
    assert (Hpk : User.id x = pk) by lia. rewrite Hpk.
    simpl. unfold Group_user_set_remove. simpl.
    split; [reflexivity|]. split; [|split; [|split; [|split; [|split]]]].
    + rewrite map_map. apply map_ext. intros y.
      destruct (User.id y =? pk); reflexivity.
    + rewrite map_map. apply map_ext. intros y.
      destruct (User.id y =? pk); reflexivity.
    + intros y Hy Hyid. apply in_map_iff in Hy. destruct Hy as (z & Hz & _).
      destruct (User.id z =? pk) eqn:E; subst y.
      * apply in_group_remove.
      * lia.
    + intros y Hy Hne. apply in_map_iff. exists y. split; [|exact Hy].
      destruct (User.id y =? pk) eqn:E; [lia | reflexivity].
    + intros g' Hg'. rewrite map_map. apply map_ext. intros y.
      destruct (User.id y =? pk); [|reflexivity].
      apply in_group_remove_other. exact Hg'.
    + repeat split.
Qed.

(** The crew member 5 leaves the delivery crew. *)
Lemma roster_remove_witness :
  fst (DeliveryCrewGroupViewSet.destroy 5 Sample.db0) = Response HTTP_200_OK [].
Proof.
  apply (proj2 (roster_remove "Delivery crew" 5 Sample.db0) Sample.crew).
  - simpl. auto.
  - reflexivity.
Defined.

(** ** Delivery crews of the orders *)

Lemma step_user_frame op db : auth_user (snd (step op db)) = auth_user db.
Proof.
  destruct op; cbn [step].
  - destruct (cart_create_effect u data db) as [->|(c & _ & _ & ->)];
      reflexivity.
  - destruct (cart_update_effect u pk data partial db)
      as [->|(i & c & _ & _ & _ & ->)]; reflexivity.
  - unfold CartViewSet.destroy; split_match; reflexivity.
  - reflexivity.
  - destruct (run_view (OrderViewSet.create u today) f db) as [out db'] eqn:E.
    apply create_effect in E. cbv zeta in E. simpl snd.
    destruct E as [[-> _]|[(_ & j & e & _ & -> & _)|[_ ->]]]; reflexivity.
  - unfold OrderViewSet.update, OrderViewSet.validate_and_save;
      split_match; reflexivity.
  - unfold OrderViewSet.assign_delivery_crew; split_match; reflexivity.
  - unfold OrderViewSet.destroy; split_match; reflexivity.
  - unfold MenuViewSet.create; split_match; reflexivity.
  - unfold MenuViewSet.update; split_match; reflexivity.
  - unfold MenuViewSet.update_featured; split_match; reflexivity.
  - unfold MenuViewSet.destroy; split_match; reflexivity.
  - unfold ReservationViewSet.create; split_match; reflexivity.
  - unfold ReservationViewSet.update; split_match; reflexivity.
  - unfold ReservationViewSet.destroy; split_match; reflexivity.
Qed.

Lemma delivery_crew_get_member pk db x :
  delivery_crew_get pk db = Some x ->
  In x (auth_user db) /\ User.id x = pk
  /\ User.in_group x "Delivery crew" = true.
Proof.
  unfold delivery_crew_get. intros H. apply find_some in H.
  destruct H as [Hin Hb]. apply andb_true_iff in Hb.
  destruct Hb as [Hid Hg]. repeat split; [assumption | lia | assumption].
Qed.

Lemma Order_is_valid_crew db data partial vd d :
  OrderSerializer_is_valid db data partial = inr vd ->
  v_delivery_crew vd = Some (Some d) ->
  exists x, In x (auth_user db) /\ User.id x = d
            /\ User.in_group x "Delivery crew" = true.
Proof.
  unfold OrderSerializer_is_valid.
  destruct (run_field "delivery_crew" _ _ _ _) as [e1 dc] eqn:H1.
  destruct (run_field "status" _ _ _ _) as [e2 st] eqn:H2.
  destruct (e1 ++ e2) eqn:E; [|discriminate].
  apply app_eq_nil in E. destruct E as [-> ->].
  intros H Hd. inversion H; subst; clear H. simpl in Hd. subst dc.
  apply run_field_ok in H1. unfold field_ok in H1.
  destruct (lookup data "delivery_crew") as [v|];
    [|destruct H1; discriminate].
  destruct H1 as (a & Hf & Ha). inversion Ha; subst a.
  unfold delivery_crew_field in Hf. destruct v; try discriminate.
  destruct (delivery_crew_get n db) as [x|] eqn:Hg; [|discriminate].
  apply delivery_crew_get_member in Hg. destruct Hg as (Hin & Hid & Hgr).
  inversion Hf. exists x. auto.
Qed.

Lemma crew_ok_save db o1 instance :
  crew_ok db -> In instance (orders db) ->
  (forall d, Order.delivery_crew o1 = Some d ->
     Order.delivery_crew instance = Some d
     \/ exists x, In x (auth_user db) /\ User.id x = d
                  /\ User.in_group x "Delivery crew" = true) ->
  crew_ok (Order_save o1 db).
Proof.
  intros Hok Hin Hd o d Ho Hdc. unfold Order_save in Ho. simpl in Ho.
  apply in_map_iff in Ho. destruct Ho as (r & Hr & Hrin). simpl.
  destruct (Order.id r =? Order.id o1); subst o.
  - destruct (Hd d Hdc) as [H|H]; [apply (Hok instance d Hin H) | exact H].
  - apply (Hok r d Hrin Hdc).
Qed.

Lemma step_crew_ok op db : crew_ok db -> crew_ok (snd (step op db)).
Proof.
  intros Hok. assert (Hu := step_user_frame op db).
  assert (Hof := step_order_frame op db).
  destruct op; cbn [step]; cbn [step] in Hu, Hof;
    try (unfold crew_ok; rewrite Hu, (proj1 Hof); exact Hok).
  - (* order_create *)
    destruct (run_view (OrderViewSet.create u today) f db) as [out db'] eqn:E.
    apply create_effect in E. cbv zeta in E. simpl snd.
    assert (Hst : forall j, crew_ok (staged db (User.id u) today j)).
    { intros j o d Ho Hd. simpl in Ho. apply in_app_or in Ho.
      destruct Ho as [Ho|[<-|[]]]; [apply (Hok o d Ho Hd) | discriminate]. }
    destruct E as [[-> _]|[(_ & j & e & _ & -> & _)|[_ ->]]];
      [exact Hok | apply Hst |].
    exact (Hst (List.length (Cart_filter_user (User.id u) db))).
  - (* order_update *)
    unfold OrderViewSet.update, OrderViewSet.validate_and_save.
    destruct (OrderViewSet.get_object u pk db) as [instance|] eqn:Hg;
      [|exact Hok].
    apply get_object_in in Hg.
    destruct (User.in_group u "Delivery crew" && negb (User.is_staff u));
      [destruct (contains data "delivery_crew"); [exact Hok|]|];
      (destruct (OrderSerializer_is_valid _ _ _) as [e|vd] eqn:Hv;
       [exact Hok|]; simpl snd;
       apply (crew_ok_save db _ instance Hok Hg); simpl;
       intros d Hd;
       destruct (v_delivery_crew vd) as [dc|] eqn:Edc;
       [subst dc; right;
        apply (Order_is_valid_crew _ _ _ vd d Hv Edc)
       | left; exact Hd]).
  - (* order_assign_delivery_crew *)
    unfold OrderViewSet.assign_delivery_crew.
    destruct (OrderViewSet.get_object u pk db) as [instance|] eqn:Hg;
      [|exact Hok].
    apply get_object_in in Hg.
    destruct (negb (truthy (data_get data "delivery_crew_id")));
      [exact Hok|].
    destruct (OrderViewSet.delivery_user_get _ db) as [e|[x|]] eqn:Hd;
      [exact Hok| |exact Hok].
    simpl snd. apply (crew_ok_save db _ instance Hok Hg). simpl.
    intros d Hdd. right. inversion Hdd; subst d.
    unfold OrderViewSet.delivery_user_get in Hd.
    destruct (data_get data "delivery_crew_id"); try discriminate;
      inversion Hd as [Hd']; apply delivery_crew_get_member in Hd';
      exists x; tauto.
  - (* order_destroy *)
    unfold OrderViewSet.destroy.
    destruct (OrderViewSet.get_object u pk db); [|exact Hok].
    intros o d Ho Hd. simpl in Ho. apply filter_In in Ho.
    apply (Hok o d (proj1 Ho) Hd).
  - (* menu_destroy *)
    unfold MenuViewSet.destroy, MenuViewSet.get_object.
    destruct (Menu_get pk db); exact Hok.
Qed.

(** Orders are only ever assigned to members of the delivery crew: if every
    order with a delivery crew has a member of the group [Delivery crew] as
    its delivery crew, this holds after every sequence of operations of the
    cart, order, menu and reservation views. The rosters are another
    matter: removing a user from the group leaves the orders assigned to
    that user as they are. *)
Theorem orders_are_assigned_to_crew_members :
  (forall ops db, crew_ok db -> crew_ok (run ops db))
  /\ (forall pk db,
         orders (snd (DeliveryCrewGroupViewSet.destroy pk db)) = orders db).
Proof.
  split.
  - intros ops. induction ops as [|op ops IH]; intros db Hok; simpl;
      [exact Hok|]. apply IH. apply step_crew_ok. exact Hok.
  - intros pk db. unfold DeliveryCrewGroupViewSet.destroy, GroupViewSet.destroy.
    destruct (User_get pk db); reflexivity.
Qed.

(** The pending order of the samples is reassigned by the manager. *)
Lemma orders_are_assigned_to_crew_members_witness :
  crew_ok (run [order_assign_delivery_crew Sample.manager 1
                  [("delivery_crew_id"%string, VInt 5)];
                order_update Sample.manager 1
                  [("delivery_crew"%string, VNull)] true] Sample.db5).
Proof.
  apply (proj1 orders_are_assigned_to_crew_members).
  intros o d [<-|[]] Hd. inversion Hd; subst d.
  exists Sample.crew. simpl. auto 10.
Defined.

(** A delivery-crew member who is removed from the group keeps the orders
    assigned to them but no longer gets them: once an ordinary user, their
    queryset is the orders they placed. *)
Theorem removed_crew_member_loses_sight x db o :
  In x (auth_user db) -> User.is_staff x = false ->
  User.in_group x "Manager" = false ->
  In o (orders db) -> Order.delivery_crew o = Some (User.id x) ->
  Order.user o <> User.id x ->
  let db' := snd (DeliveryCrewGroupViewSet.destroy (User.id x) db) in
  let x' := user_remove_group "Delivery crew" x in
  In x' (auth_user db')
  /\ In o (orders db')
  /\ ~ In o (OrderViewSet.get_queryset x' db')
  /\ (User.in_group x "Delivery crew" = true ->
      In o (OrderViewSet.get_queryset x db)).
Proof.
  intros Hx Hs Hm Ho Hd Hu. cbv zeta.
  unfold DeliveryCrewGroupViewSet.destroy, GroupViewSet.destroy, User_get.
  destruct (find _ (auth_user db)) as [y|] eqn:E.
  2:{ exfalso. apply (find_none _ _ E x) in Hx. lia. }
  apply find_some in E. destruct E as [_ Hy].
  assert (Hid : User.id y = User.id x) by lia. rewrite Hid.
  simpl. split; [|split; [exact Ho|split]].
  - apply in_map_iff. exists x. rewrite Z.eqb_refl. auto.
  - unfold OrderViewSet.get_queryset.
    assert (Hs' : User.is_staff (user_remove_group "Delivery crew" x) = false)
      by exact Hs.
    rewrite Hs'.
    rewrite (in_group_remove_other "Delivery crew" "Manager" x)
      by discriminate.
    rewrite Hm, in_group_remove. simpl. intros Hin.
    apply filter_In in Hin. destruct Hin as [_ Hin]. simpl in Hin. lia.
  - intros Hg. unfold OrderViewSet.get_queryset. rewrite Hs, Hm, Hg. simpl.
    apply filter_In. split; [exact Ho|]. rewrite Hd. apply Z.eqb_refl.
Qed.

(** The order of Alice is assigned to the crew member 5, who then leaves
    the delivery crew. *)
Lemma removed_crew_member_loses_sight_witness :
  ~ In (Order.mk 1 1 (Some 5) false 2598 100)
       (OrderViewSet.get_queryset
          (user_remove_group "Delivery crew" Sample.crew)
          (snd (DeliveryCrewGroupViewSet.destroy 5 Sample.db5))).
Proof.
  apply (removed_crew_member_loses_sight Sample.crew Sample.db5
           (Order.mk 1 1 (Some 5) false 2598 100)).
  - simpl. auto 10.
  - reflexivity.
  - reflexivity.
  - simpl. auto.
  - reflexivity.
  - simpl. discriminate.
Defined.

(** ** The quantity of a cart line *)

(** A quantity below 1 is refused both when a line is added and when it is
    updated: the answer is 400 with an error under [quantity], and nothing
    is written. *)
Theorem cart_quantity_below_one_is_refused u data db q :
  lookup data "quantity" = Some (VInt q) -> q < 1 ->
  (exists errs,
      In "quantity"%string (map fst errs)
      /\ CartViewSet.create u data db
         = (Response HTTP_400_BAD_REQUEST errs, db))
  /\ (forall pk partial instance,
         CartViewSet.get_object u pk db = Some instance ->
         exists errs,
           In "quantity"%string (map fst errs)
           /\ CartViewSet.update u pk data partial db
              = (Response HTTP_400_BAD_REQUEST errs, db)).
Proof.
  intros Hq Hlt.
  assert (Hi : forall partial,
             exists errs, In "quantity"%string (map fst errs)
                          /\ Cart_to_internal_value db data partial
                             = inl errs).
  { intros partial. unfold Cart_to_internal_value.
    destruct (run_field "menuitem" true partial (menuitem_field db) data)
      as [e1 m].
    unfold run_field at 1. rewrite Hq. simpl.
    destruct (q <? 1) eqn:E; [|lia].
    exists (e1 ++ [("quantity"%string,
                    "Ensure this value is greater than or equal to 1."%string)]).
    split.
    - rewrite map_app. apply in_or_app. right. simpl. auto.
    - destruct (e1 ++ _) eqn:E'; [|reflexivity].
      apply app_eq_nil in E'. destruct E'; discriminate. }
  split.
  - destruct (Hi false) as (errs & Hin & He). exists errs. split; [exact Hin|].
    unfold CartViewSet.create, CartSerializer_is_valid. rewrite He.
    reflexivity.
  - intros pk partial instance Hg.
    destruct (Hi partial) as (errs & Hin & He). exists errs.
    split; [exact Hin|].
    unfold CartViewSet.update, CartSerializer_is_valid. rewrite Hg, He.
    reflexivity.
Qed.

(** Alice sets the quantity of her line to zero. *)
Lemma cart_quantity_below_one_is_refused_witness :
  exists errs,
    In "quantity"%string (map fst errs)
    /\ CartViewSet.update Sample.alice 1 [("quantity"%string, VInt 0)] true
         Sample.db1
       = (Response HTTP_400_BAD_REQUEST errs, Sample.db1).
Proof.
  apply (proj2 (cart_quantity_below_one_is_refused Sample.alice
                  [("quantity"%string, VInt 0)] Sample.db1 0 eq_refl
                  ltac:(lia)) 1 true (Cart.mk 1 1 1 2 1299 2598)).
  reflexivity.
Defined.
